(** * Vendor discovery agent: a shallow embedding and its properties

    The development follows the Python sources file by file:
    [search_engine.py] (query building, de-duplication, relevance scoring),
    [vendor_extractor.py] (hard filters, contact extraction, enrichment,
    confidence scoring), [llm_reasoner.py] (the advisory oracle adapter) and
    [vendor_finder.py] (the bounded refinement loop and the ranker).

    Conventions of the embedding.
    - Python [str] is [string]; [lower], [strip], [title] and the [in]
      substring test are written out for ASCII text.
    - Python [float] scores are exact rationals ([Q]): every score the
      program builds is a sum of tenths, and the rounding error of binary
      floating-point addition is not modelled.  [round(x, 2)] is rounding
      to hundredths, ties to even.
    - Dictionaries with a fixed set of keys are records; dictionaries decoded
      from oracle text are [json] objects (association lists).
    - External capabilities (search providers, page fetching, HTML parsing,
      the regular-expression engine, the places client, the chat client, the
      JSON decoder) are fields of explicit records passed to the code.
    - Exceptions are values of [exn]; code that may raise or that talks
      to the oracle lives in the state-and-error monad [M], whose state
      counts the chat requests and the search rounds made so far. *)

From Stdlib Require Import List String Ascii Bool Arith ZArith QArith Qround.
From Stdlib Require Import Lia Lqa Permutation Sorted DecimalString.
Import ListNotations.

Local Open Scope string_scope.

(* ------------------------------------------------------------------ *)
(** * Python built-ins used by the sources *)
(* ------------------------------------------------------------------ *)

Module Py.

(** The one-character string holding a double quote. *)
Definition dq : string := String (ascii_of_nat 34) EmptyString.

Definition is_upper (c : ascii) : bool :=
  let n := nat_of_ascii c in (65 <=? n)%nat && (n <=? 90)%nat.

Definition is_lower (c : ascii) : bool :=
  let n := nat_of_ascii c in (97 <=? n)%nat && (n <=? 122)%nat.

Definition is_digit (c : ascii) : bool :=
  let n := nat_of_ascii c in (48 <=? n)%nat && (n <=? 57)%nat.

Definition is_space (c : ascii) : bool :=
  let n := nat_of_ascii c in
  (n =? 32)%nat || ((9 <=? n)%nat && (n <=? 13)%nat).

Definition lower_char (c : ascii) : ascii :=
  if is_upper c then ascii_of_nat (nat_of_ascii c + 32) else c.

Definition upper_char (c : ascii) : ascii :=
  if is_lower c then ascii_of_nat (nat_of_ascii c - 32) else c.

(** [s.lower()] *)
Fixpoint lower (s : string) : string :=
  match s with
  | EmptyString => EmptyString
  | String c t => String (lower_char c) (lower t)
  end.

(** [needle in hay] on strings: substring test; the empty needle is
    found in every string. *)
Fixpoint contains (needle hay : string) : bool :=
  if prefix needle hay then true
  else match hay with
       | EmptyString => false
       | String _ t => contains needle t
       end.

(** Truth value of a string: non-empty. *)
Definition truthy (s : string) : bool :=
  match s with EmptyString => false | _ => true end.

(** Truth value of an optional string ([None] and the empty string are
    false). *)
Definition truthy_opt (o : option string) : bool :=
  match o with Some s => truthy s | None => false end.

Fixpoint lstrip (s : string) : string :=
  match s with
  | String c t => if is_space c then lstrip t else s
  | EmptyString => EmptyString
  end.

Fixpoint rstrip (s : string) : string :=
  match s with
  | EmptyString => EmptyString
  | String c t =>
      match rstrip t with
      | EmptyString => if is_space c then EmptyString else String c EmptyString
      | t' => String c t'
      end
  end.

(** [s.strip()] *)
Definition strip (s : string) : string := rstrip (lstrip s).

(** [s.title()]: a letter is upper-cased when it follows a non-letter and
    lower-cased otherwise. *)
Fixpoint title_from (after_letter : bool) (s : string) : string :=
  match s with
  | EmptyString => EmptyString
  | String c t =>
      let letter := is_upper c || is_lower c in
      String (if after_letter then lower_char c else upper_char c)
             (title_from letter t)
  end.

Definition title (s : string) : string := title_from false s.

(** [any(word in text for word in words)] *)
Definition any_in (words : list string) (text : string) : bool :=
  existsb (fun word => contains word text) words.

(** [x in seen] for a set of strings kept as a list. *)
Definition mem (x : string) (seen : list string) : bool :=
  existsb (String.eqb x) seen.

(** [list(set(xs))]: duplicates removed.  The order Python gives is
    unspecified; here each element stays where it occurs last. *)
Fixpoint set_list (xs : list string) : list string :=
  match xs with
  | [] => []
  | x :: t => if mem x t then set_list t else x :: set_list t
  end.

(** [str(n)] for a length. *)
Definition str_of_nat (n : nat) : string :=
  NilEmpty.string_of_uint (Nat.to_uint n).

(** Comparison of floats. *)
Definition flt (a b : Q) : bool :=
  match (a ?= b)%Q with Lt => true | _ => false end.

Definition feq (a b : Q) : bool := Qeq_bool a b.

(** [min(a, b)]: the first argument unless the second is smaller. *)
Definition min (a b : Q) : Q := if flt b a then b else a.

(** [max(a, b)]: the first argument unless the second is larger. *)
Definition max (a b : Q) : Q := if flt a b then b else a.

(** Nearest integer, ties to even. *)
Definition round_half_even (q : Q) : Z :=
  let f := Qfloor q in
  match (q - inject_Z f ?= 1 # 2)%Q with
  | Lt => f
  | Gt => (f + 1)%Z
  | Eq => if Z.even f then f else (f + 1)%Z
  end.

(** [round(q, 2)] *)
Definition round2 (q : Q) : Q :=
  Qmake (round_half_even (q * inject_Z 100)%Q) 100.

(** ** [list.sort(key=..., reverse=...)]

    The sort is stable and compares keys with [<] only.  With
    [reverse=True] CPython reverses the list, sorts it ascending and
    reverses the result, which keeps equal keys in their original
    order. *)
Section Sort.
Context {A K : Type} (key : A -> K) (ltb : K -> K -> bool).

Fixpoint insert (x : A) (l : list A) : list A :=
  match l with
  | [] => [x]
  | y :: ys =>
      if ltb (key y) (key x) then y :: insert x ys else x :: y :: ys
  end.

Fixpoint sort_asc (l : list A) : list A :=
  match l with
  | [] => []
  | x :: xs => insert x (sort_asc xs)
  end.

Definition list_sort (reverse : bool) (l : list A) : list A :=
  if reverse then rev (sort_asc (rev l)) else sort_asc l.
End Sort.

End Py.

(* ------------------------------------------------------------------ *)
(** * search_engine.py *)
(* ------------------------------------------------------------------ *)

Module SearchEngine.

(** A result dictionary as the providers build it. *)
Record RawHit := mkRawHit {
  title : string;
  link : string;
  snippet : string;
  source : string;
  query_used : string
}.

(** A result after [search_vendors] stored its [relevance_score]. *)
Record Hit := mkHit {
  raw : RawHit;
  relevance_score : Q
}.

(** One entry of a provider's response: its title, address and
    snippet (missing keys read as the empty string). *)
Record Item := mkItem {
  item_title : string;
  item_link : string;
  item_snippet : string
}.

(** The two keyword-search services behind [requests.get], credentials
    applied: the entries answered to a query, none when the credentials
    are missing or the request fails. *)
Record Providers := mkProviders {
  google_items : string -> list Item;
  bing_items : string -> list Item
}.

Definition search_google (p : Providers) (query : string) : list RawHit :=
  map (fun item =>
         mkRawHit (item_title item) (item_link item) (item_snippet item)
           "google" query)
      (google_items p query).

Definition search_bing (p : Providers) (query : string) : list RawHit :=
  map (fun item =>
         mkRawHit (item_title item) (item_link item) (item_snippet item)
           "bing" query)
      (bing_items p query).

Definition site_map : list (string * string) :=
  [ ("instagram", "site:instagram.com");
    ("twitter", "site:twitter.com");
    ("x", "site:twitter.com");
    ("facebook", "site:facebook.com");
    ("tiktok", "site:tiktok.com") ].

Fixpoint dict_get (m : list (string * string)) (k default : string) : string :=
  match m with
  | [] => default
  | (k', v) :: t => if String.eqb k k' then v else dict_get t k default
  end.

Definition build_queries (service location platform : string) : list string :=
  let site := dict_get site_map (Py.lower platform) EmptyString in
  let q := Py.dq in
  let base_queries :=
    [ site ++ " " ++ q ++ service ++ " vendor " ++ location ++ q;
      site ++ " " ++ q ++ service ++ " in " ++ location ++ q;
      site ++ " " ++ q ++ service ++ q ++ " " ++ q ++ location ++ q;
      site ++ " " ++ q ++ service ++ q ++ " whatsapp " ++ q ++ location ++ q ] in
  map Py.strip (filter (fun s => Py.truthy (Py.strip s)) base_queries).

(** The score computed inside the de-duplication loop. *)
Definition relevance (service location platform : string) (result : RawHit) : Q :=
  let relevance_score := 0%Q in
  let title := Py.lower (title result) in
  let snippet := Py.lower (snippet result) in
  let relevance_score :=
    if Py.contains (Py.lower service) title
    then (relevance_score + (3 # 10))%Q else relevance_score in
  let relevance_score :=
    if Py.contains (Py.lower location) snippet
    then (relevance_score + (3 # 10))%Q else relevance_score in
  let relevance_score :=
    if Py.contains "whatsapp" snippet || Py.contains "wa.me" snippet
    then (relevance_score + (2 # 10))%Q else relevance_score in
  let relevance_score :=
    if Py.contains (Py.lower platform) (Py.lower (query_used result))
    then (relevance_score + (2 # 10))%Q else relevance_score in
  Py.round2 (Py.min relevance_score 1%Q).

(** The loop over [raw_results], threading [seen_urls] and
    [unique_results]. *)
Fixpoint dedup_loop (service location platform : string)
         (raw_results : list RawHit)
         (seen_urls : list string) (unique_results : list Hit) : list Hit :=
  match raw_results with
  | [] => unique_results
  | result :: rest =>
      let url := link result in
      if negb (Py.truthy url) || Py.mem url seen_urls
      then dedup_loop service location platform rest seen_urls unique_results
      else dedup_loop service location platform rest (url :: seen_urls)
             (unique_results
                ++ [mkHit result (relevance service location platform result)])%list
  end.

(** [unique_results] as it stands before the final sort. *)
Definition unique_of (service location platform : string)
           (raw_results : list RawHit) : list Hit :=
  dedup_loop service location platform raw_results [] [].

(** De-duplication, scoring and the final sort, from the merged raw
    results. *)
Definition aggregate (service location platform : string)
           (raw_results : list RawHit) : list Hit :=
  Py.list_sort relevance_score Py.flt true
    (unique_of service location platform raw_results).

(** The merged raw results: every query against Google, then Bing. *)
Definition raw_results_of (p : Providers) (queries : list string) : list RawHit :=
  flat_map (fun query => (search_google p query ++ search_bing p query)%list) queries.

Definition search_vendors (p : Providers)
           (service location platform : string) : list Hit :=
  let queries := build_queries service location platform in
  aggregate service location platform (raw_results_of p queries).

End SearchEngine.

(* ------------------------------------------------------------------ *)
(** * Exceptions, decoded JSON and the effect monad *)
(* ------------------------------------------------------------------ *)

Inductive exn : Type :=
| KeyError (key : string)
| AttributeError (attr : string)
| TypeError
| IndexError.

#[local] Set Warnings "-register-all".

(** Values produced by [json.loads].  Numbers are integers; fractional
    numbers are not modelled. *)
Inductive json : Type :=
| JNull
| JBool (b : bool)
| JInt (z : Z)
| JStr (s : string)
| JArr (items : list json)
| JObj (fields : list (string * json)).

Module Json.

Fixpoint lookup (fields : list (string * json)) (k : string) : option json :=
  match fields with
  | [] => None
  | (k', v) :: t => if String.eqb k k' then Some v else lookup t k
  end.

(** Truth value of a decoded value, as [bool(v)] and [if v:] see it. *)
Definition truthy (v : json) : bool :=
  match v with
  | JNull => false
  | JBool b => b
  | JInt z => negb (z =? 0)%Z
  | JStr s => Py.truthy s
  | JArr items => match items with [] => false | _ => true end
  | JObj fields => match fields with [] => false | _ => true end
  end.

(** [v == s] for a string [s]. *)
Definition eq_str (v : json) (s : string) : bool :=
  match v with JStr s' => String.eqb s' s | _ => false end.

(** [d.get(k) == s]: a missing key compares unequal. *)
Definition opt_eq_str (o : option json) (s : string) : bool :=
  match o with Some v => eq_str v s | None => false end.

End Json.

(** What a run has done to the outside world so far: the number of chat
    requests sent to the advisory oracle and the number of search rounds
    issued. *)
Record Effects := mkEffects {
  chats : nat;
  searches : nat
}.

Inductive outcome (A : Type) : Type :=
| Ok (a : A)
| Raise (e : exn).
Arguments Ok {A} a.
Arguments Raise {A} e.

Definition M (A : Type) : Type := Effects -> outcome A * Effects.

Definition ret {A} (a : A) : M A := fun w => (Ok a, w).

Definition raise {A} (e : exn) : M A := fun w => (Raise e, w).

Definition bind {A B} (m : M A) (k : A -> M B) : M B :=
  fun w =>
    match m w with
    | (Ok a, w') => k a w'
    | (Raise e, w') => (Raise e, w')
    end.

Definition lift {A} (o : outcome A) : M A := fun w => (o, w).

Notation "x <- m ;; k" := (bind m (fun x => k))
  (at level 61, m at next level, right associativity).

(* ------------------------------------------------------------------ *)
(** * vendor_extractor.py *)
(* ------------------------------------------------------------------ *)

Module VendorExtractor.

Definition JOB_KEYWORDS : list string :=
  [ "hiring"; "salary"; "vacancy"; "apply";
    "job"; "career"; "position";
    "recruiting"; "opening"; "employment" ].

(** One entry of the places response, with [geometry.location] flattened
    into [lat] and [lng]. *)
Record Place := mkPlace {
  formatted_address : option string;
  lat : option Q;
  lng : option Q;
  place_rating : option Q;
  place_place_id : option string
}.

(** The places client.  [places] and [reverse_geocode] answer [None] when
    the request raises; [reverse_geocode] lists the [formatted_address] of
    each result. *)
Record GmapsClient := mkGmapsClient {
  places : string -> option (list Place);
  reverse_geocode : Q -> Q -> option (list (option string))
}.

(** The instance.  [__init__] sets exactly one attribute, [gmaps_client],
    to [None] or to a client. *)
Record Self := mkSelf {
  gmaps_client : option GmapsClient
}.

(** Attribute lookup on the instance, for a name expected to hold the
    places client.  [gmaps_client] is the only attribute [__init__] sets,
    and the class has no member of another such name. *)
Definition getattr (self : Self) (name : string) : outcome (option GmapsClient) :=
  if String.eqb name "gmaps_client" then Ok (gmaps_client self)
  else Raise (AttributeError name).

(** Libraries the extractor calls: [re.findall] with [re.IGNORECASE],
    [requests.get] behind [fetch_page_content] ([None] on any failure),
    and the HTML parser ([get_text] of the document, and [get_text] of
    its title element when there is one). *)
Record Web := mkWeb {
  re_findall : string -> string -> list string;
  fetch_page_content : string -> option string;
  soup_get_text : string -> string;
  soup_title : string -> option string
}.

(** The enrichment dictionary stored under [location.google_maps]. *)
Record MapsData := mkMapsData {
  address : option string;
  latitude : option Q;
  longitude : option Q;
  rating : option Q;
  place_id : option string;
  maps_source : string
}.

Record Identity := mkIdentity {
  name : string;
  source : string;
  url : string
}.

Record Contacts := mkContacts { whatsapp : list string }.

Record Social := mkSocial { instagram : list string }.

Record Location := mkLocation {
  text : option string;
  resolved : option string;
  google_maps : option MapsData
}.

Record Vendor := mkVendor {
  identity : Identity;
  contacts : Contacts;
  social : Social;
  location : Location;
  confidence_score : Q;
  evidence : list string
}.

(** What [extract_vendor_info] returns: the short dictionary of a
    discarded result, or a vendor. *)
Inductive Extracted : Type :=
| Discarded (score : Q) (reason : option string)
| Candidate (vendor : Vendor).

(** [re.sub(r'[^\d+]', '', match)] *)
Fixpoint clean_number (s : string) : string :=
  match s with
  | EmptyString => EmptyString
  | String c t =>
      if Py.is_digit c || Ascii.eqb c "+"%char
      then String c (clean_number t) else clean_number t
  end.

Definition whatsapp_patterns : list string :=
  [ "wa\.me[/\+]?(\d+)";
    "whatsapp[:\s]*([\+\d][\d\s\-]{9,})";
    "(\+?234[\s\-]?\d{3}[\s\-]?\d{3}[\s\-]?\d{4})";
    "(\+?\d[\d\s\-]{9,})" ].

Definition extract_whatsapp_numbers (web : Web) (text : string) : list string :=
  let numbers :=
    flat_map
      (fun pattern =>
         flat_map
           (fun m =>
              let cleaned := clean_number m in
              if (10 <=? String.length cleaned)%nat then [cleaned] else [])
           (re_findall web pattern text))
      whatsapp_patterns in
  Py.set_list numbers.

Definition instagram_patterns : list string :=
  [ "https?://(www\.)?instagram\.com/[\w\.]+/?";
    "instagram\.com/[\w\.]+/?";
    "@[\w\.]{3,}" ].

Definition tail_of (s : string) : string :=
  match s with EmptyString => EmptyString | String _ t => t end.

Definition extract_instagram_links (web : Web) (text : string) : list string :=
  let links :=
    flat_map
      (fun pattern =>
         map
           (fun m =>
              if prefix "@" m then "https://instagram.com/" ++ tail_of m
              else if prefix "http" m then m
              else "https://" ++ m)
           (re_findall web pattern text))
      instagram_patterns in
  Py.set_list links.

Definition common_locations : list string :=
  [ "lagos"; "abuja"; "ibadan"; "port harcourt"; "ph";
    "lekki"; "ikeja"; "ajah"; "yaba"; "surulere";
    "ikorodu"; "benin"; "asaba"; "uyo"; "owerri" ].

Definition infer_location_from_text (text fallback_location : string)
  : option string :=
  let lowered := Py.lower text in
  match find (fun loc => Py.contains loc lowered) common_locations with
  | Some loc => Some (Py.title loc)
  | None => if Py.truthy fallback_location then Some fallback_location else None
  end.

Definition enrich_with_google_maps (self : Self) (business_name location : string)
  : option MapsData :=
  match gmaps_client self with
  | None => None
  | Some client =>
      if negb (Py.truthy business_name) then None
      else
        let query := business_name ++ " " ++ location in
        match places client query with
        | Some (place :: _) =>
            Some (mkMapsData (formatted_address place) (lat place) (lng place)
                    (place_rating place) (place_place_id place) "google_maps")
        | Some [] => None
        | None => None
        end
  end.

Definition calculate_confidence_score (vendor : Vendor) : Q :=
  let score := 0%Q in
  let score :=
    match whatsapp (contacts vendor) with
    | [] => score | _ => (score + (3 # 10))%Q end in
  let score :=
    match instagram (social vendor) with
    | [] => score | _ => (score + (2 # 10))%Q end in
  let score :=
    if Py.truthy_opt (resolved (location vendor))
    then (score + (3 # 10))%Q else score in
  let score :=
    match google_maps (location vendor) with
    | Some _ => (score + (2 # 10))%Q | None => score end in
  Py.round2 (Py.min score 1%Q).

Definition is_potential_vendor_url (url : string) : bool :=
  if negb (Py.truthy url) then false
  else if Py.contains "instagram.com/p/" url then false
  else
    let bad_keywords := [ "news"; "press"; "job"; "vacancy"; "salary" ] in
    if Py.any_in bad_keywords (Py.lower url) then false
    else true.

Definition soft_signals : list string :=
  [ "order now"; "call us"; "dm us"; "whatsapp"; "delivery";
    "we offer"; "our services"; "bookings"; "price"; "pricing";
    "available"; "located in"; "based in"; "lagos"; "abuja" ].

Definition detect_soft_contact_signals (text : string) : bool :=
  if negb (Py.truthy text) then false
  else
    let text := Py.lower text in
    let score := List.length (filter (fun s => Py.contains s text) soft_signals) in
    (2 <=? score)%nat.

Definition is_job_post (text : string) : bool :=
  Py.any_in JOB_KEYWORDS (Py.lower text).

Definition falsy_float (o : option Q) : bool :=
  match o with
  | None => true
  | Some q => Qeq_bool q 0
  end.

(** The reverse-geocoding fallback.  The record is a dictionary with
    six keys, so the leading [if not location] never fires.  The [try]
    block reads the attribute [gmaps] of the instance; whatever is raised
    inside the block is swallowed and the record is returned as it
    came. *)
Definition enrich_google_maps_location (self : Self) (location : MapsData)
  : MapsData :=
  if Py.truthy_opt (address location) then location
  else
    let lat := latitude location in
    let lng := longitude location in
    if falsy_float lat || falsy_float lng then location
    else
      match lat, lng with
      | Some lat, Some lng =>
          match getattr self "gmaps" with
          | Raise _ => location
          | Ok None => location
          | Ok (Some client) =>
              match reverse_geocode client lat lng with
              | None => location
              | Some [] => location
              | Some (first :: _) =>
                  mkMapsData first (latitude location) (longitude location)
                    (rating location) (place_id location) "google_maps"
              end
          end
      | _, _ => location
      end.

Definition extract_vendor_info (web : Web) (self : Self)
           (search_result : SearchEngine.RawHit) (user_location : string)
  : Extracted :=
  let combined_text :=
    SearchEngine.title search_result ++ " " ++ SearchEngine.snippet search_result in
  if is_job_post combined_text then Discarded 0 (Some "job_post_detected")
  else
    let url := SearchEngine.link search_result in
    if negb (is_potential_vendor_url url) then Discarded 0 None
    else
      let name := SearchEngine.title search_result in
      let snippet := SearchEngine.snippet search_result in
      (* snippet extraction *)
      let whatsapp := extract_whatsapp_numbers web snippet in
      let instagram := extract_instagram_links web snippet in
      let inferred_location := infer_location_from_text snippet user_location in
      let text := inferred_location in
      (* page extraction *)
      let html := fetch_page_content web url in
      let '(page_text, whatsapp, instagram, name, inferred_location, text) :=
        match html with
        | Some html =>
            if Py.truthy html then
              let page_text := soup_get_text web html in
              let whatsapp :=
                (whatsapp ++ extract_whatsapp_numbers web page_text)%list in
              let ig_links := extract_instagram_links web page_text in
              let instagram :=
                (instagram
                   ++ filter (fun link => negb (Py.contains "/p/" link)) ig_links)%list in
              let name :=
                match soup_title web html with
                | Some t => t
                | None => name
                end in
              let fallback :=
                match inferred_location with
                | Some l => if Py.truthy l then l else user_location
                | None => user_location
                end in
              let inferred_location := infer_location_from_text page_text fallback in
              (page_text, whatsapp, instagram, name, inferred_location,
               inferred_location)
            else (EmptyString, whatsapp, instagram, name, inferred_location, text)
        | None => (EmptyString, whatsapp, instagram, name, inferred_location, text)
        end in
      (* places enrichment *)
      let '(google_maps, resolved) :=
        match inferred_location with
        | Some loc =>
            if Py.truthy name && Py.truthy loc then
              let maps_data := enrich_with_google_maps self name loc in
              let maps_data :=
                match maps_data with
                | Some m => Some (enrich_google_maps_location self m)
                | None => None
                end in
              (maps_data, inferred_location)
            else (None, None)
        | None => (None, None)
        end in
      (* cleanup *)
      let whatsapp := Py.set_list whatsapp in
      let instagram := Py.set_list instagram in
      (* soft contact signal *)
      let combined_text := Py.lower (snippet ++ " " ++ page_text) in
      let soft := detect_soft_contact_signals combined_text in
      let confidence_score := if soft then (0 + (1 # 10))%Q else 0%Q in
      let evidence := if soft then ["soft_contact_signal"] else [] in
      let vendor :=
        mkVendor (mkIdentity name (SearchEngine.source search_result) url)
          (mkContacts whatsapp) (mkSocial instagram)
          (mkLocation text resolved google_maps)
          confidence_score evidence in
      (* confidence score *)
      Candidate
        (mkVendor (identity vendor) (contacts vendor) (social vendor)
           (location vendor)
           (confidence_score + calculate_confidence_score vendor)%Q
           (VendorExtractor.evidence vendor)).

End VendorExtractor.

(* ------------------------------------------------------------------ *)
(** * llm_reasoner.py *)
(* ------------------------------------------------------------------ *)

Module LLMReasoner.

(** What one chat request gives: the text of the first choice, or an
    exception (transport failure, empty choice list, ...) with its
    message. *)
Inductive ChatReply : Type :=
| ChatContent (content : string)
| ChatRaises (message : string).

(** The chat client.  The oracle is a black box: its answer to the
    [n]-th request of a run may be anything, so a client is the sequence
    of its replies. *)
Record Client := mkClient {
  create : nat -> ChatReply
}.

(** The instance: [client] is [None] when the library or the key is
    missing.  [json_loads] is the decoder of the [json] module, [None]
    when it raises. *)
Record Self := mkSelf {
  client : option Client;
  json_loads : string -> option json
}.

(** [self.client.chat.completions.create(...)] followed by
    [response.choices[0].message.content]. *)
Definition chat (c : Client) : M ChatReply :=
  fun w => (Ok (create c (chats w)), mkEffects (S (chats w)) (searches w)).

Definition _safe_json (self : Self) (content : string) : json :=
  match json_loads self content with
  | Some v => v
  | None =>
      JObj [ ("explanation", JStr content);
             ("result_quality", JStr "unknown");
             ("clarifying_question", JStr "NO_QUESTION") ]
  end.

Definition _fallback_analysis (service location : string)
           (vendors : list VendorExtractor.Vendor) (error : option string) : json :=
  let quality := if (3 <=? List.length vendors)%nat then "good" else "weak" in
  JObj [ ("explanation",
          JStr ("Found " ++ Py.str_of_nat (List.length vendors)
                  ++ " vendors for " ++ service ++ " in " ++ location ++ " "
                  ++ "based on contact availability and location relevance."));
         ("result_quality", JStr quality);
         ("clarifying_question", JStr "NO_QUESTION");
         ("error", match error with Some e => JStr e | None => JNull end) ].

Definition analyze_results (self : Self) (service location : string)
           (vendors : list VendorExtractor.Vendor) : M json :=
  match client self, vendors with
  | None, _ | _, [] => ret (_fallback_analysis service location vendors None)
  | Some c, _ :: _ =>
      reply <- chat c ;;
      match reply with
      | ChatContent content => ret (_safe_json self content)
      | ChatRaises e =>
          ret (_fallback_analysis service location vendors (Some e))
      end
  end.

(** [list(range(n))] as a decoded array. *)
Definition range_ids (n : nat) : json :=
  JArr (map (fun i => JInt (Z.of_nat i)) (seq 0 n)).

Definition rerank_vendors (self : Self) (service : string)
           (vendors : list VendorExtractor.Vendor) : M json :=
  match client self with
  | Some c =>
      if (List.length vendors <? 2)%nat then
        ret (JObj [ ("ordered_vendor_ids", range_ids (List.length vendors));
                    ("reasoning", JStr "Deterministic ranking retained.") ])
      else
        reply <- chat c ;;
        match reply with
        | ChatContent content => ret (_safe_json self content)
        | ChatRaises e =>
            ret (JObj [ ("ordered_vendor_ids", range_ids (List.length vendors));
                        ("reasoning", JStr ("LLM re-ranking failed: " ++ e)) ])
        end
  | None =>
      ret (JObj [ ("ordered_vendor_ids", range_ids (List.length vendors));
                  ("reasoning", JStr "Deterministic ranking retained.") ])
  end.

Definition STOP : json := JObj [ ("action", JStr "STOP") ].

Definition decide_next_search (self : Self) (service location platform : string)
           (vendors : list VendorExtractor.Vendor) : M json :=
  (* hard guardrail *)
  if (3 <=? List.length vendors)%nat then ret STOP
  else
    match client self with
    | None => ret STOP
    | Some c =>
        reply <- chat c ;;
        match reply with
        | ChatContent content => ret (_safe_json self content)
        | ChatRaises _ => ret STOP
        end
    end.

(** [result.get(key)] on a decoded value: [None] when the key is
    missing, an exception when [result] is not an object. *)
Definition get (v : json) (k : string) : outcome (option json) :=
  match v with
  | JObj fields => Ok (Json.lookup fields k)
  | _ => Raise (AttributeError "get")
  end.

Definition is_actual_vendor (self : Self) (service : string)
           (vendor : VendorExtractor.Vendor) : M bool :=
  match client self with
  | None => ret true
  | Some c =>
      reply <- chat c ;;
      match reply with
      | ChatContent content =>
          match get (_safe_json self content) "is_vendor" with
          | Ok (Some v) => ret (Json.truthy v)
          | Ok None => ret false
          | Raise _ => ret true
          end
      | ChatRaises _ => ret true
      end
  end.

End LLMReasoner.

(* ------------------------------------------------------------------ *)
(** * vendor_finder.py *)
(* ------------------------------------------------------------------ *)

Module VendorFinder.

Import VendorExtractor.

Definition TRADE_SERVICES : list string :=
  [ "plumber"; "electrician"; "mechanic"; "technician";
    "carpenter"; "welder"; "installer"; "repair";
    "cleaner"; "handyman"; "maintenance" ].

Definition VISUAL_SERVICES : list string :=
  [ "cake"; "bakery"; "makeup"; "photography";
    "fashion"; "decor"; "event"; "catering"; "florist" ].

Definition classify_service (service : string) : string :=
  let service := Py.lower service in
  if Py.any_in TRADE_SERVICES service then "trade"
  else if Py.any_in VISUAL_SERVICES service then "visual"
  else "general".

(** The orchestrator instance with its three collaborators. *)
Record Self := mkSelf {
  search_engine : SearchEngine.Providers;
  web : VendorExtractor.Web;
  extractor : VendorExtractor.Self;
  reasoner : LLMReasoner.Self
}.

Record AgentResult := mkAgentResult {
  vendors : list Vendor;
  analysis : json;
  agent_reasoning : list json
}.

(** The local variables of [find_vendors] that the loop reassigns. *)
Record RefinementState := mkState {
  attempt : nat;
  current_platform : string;
  current_location : string;
  current_min_confidence : Q;
  final_reasoning : list json;
  ranked_vendors : list Vendor
}.

Definition max_attempts : nat := 2.

(** ** Ranking *)

Definition RankKey : Type := Q * nat * nat * nat.

Definition ranking_key (vendor : Vendor) : RankKey :=
  let contact_score :=
    match whatsapp (contacts vendor) with [] => 0%nat | _ => 1%nat end in
  let social_score :=
    match instagram (social vendor) with [] => 0%nat | _ => 1%nat end in
  let location_score :=
    match google_maps (location vendor) with Some _ => 1%nat | None => 0%nat end in
  (confidence_score vendor, contact_score, social_score, location_score).

(** [a < b] on key tuples: the first components that differ decide. *)
Definition key_lt (a b : RankKey) : bool :=
  let '(c1, w1, s1, l1) := a in
  let '(c2, w2, s2, l2) := b in
  if negb (Py.feq c1 c2) then Py.flt c1 c2
  else if negb (w1 =? w2)%nat then (w1 <? w2)%nat
  else if negb (s1 =? s2)%nat then (s1 <? s2)%nat
  else (l1 <? l2)%nat.

Definition rank_vendors (vendors : list Vendor) : list Vendor :=
  Py.list_sort ranking_key key_lt true vendors.

(** ** The re-rank step *)

(** [for i in v]: arrays give their items, strings their characters,
    objects their keys; nothing else can be iterated. *)
Definition iterate (v : json) : outcome (list json) :=
  match v with
  | JArr items => Ok items
  | JStr s => Ok (map (fun c => JStr (String c EmptyString)) (list_ascii_of_string s))
  | JObj fields => Ok (map (fun kv => JStr (fst kv)) fields)
  | _ => Raise TypeError
  end.

(** The integer an item compares as in [0 <= i]; booleans are integers,
    anything else cannot be compared with one. *)
Definition as_int (v : json) : outcome Z :=
  match v with
  | JInt z => Ok z
  | JBool b => Ok (if b then 1%Z else 0%Z)
  | _ => Raise TypeError
  end.

(** [[i for i in items if 0 <= i < n]] *)
Fixpoint valid_ids (items : list json) (n : nat) : outcome (list Z) :=
  match items with
  | [] => Ok []
  | item :: rest =>
      match as_int item with
      | Raise e => Raise e
      | Ok i =>
          match valid_ids rest n with
          | Raise e => Raise e
          | Ok ids =>
              if (0 <=? i)%Z && (i <? Z.of_nat n)%Z then Ok (i :: ids) else Ok ids
          end
      end
  end.

(** [l[i]] *)
Definition index {A} (l : list A) (i : Z) : outcome A :=
  let j := if (i <? 0)%Z then (i + Z.of_nat (List.length l))%Z else i in
  if (j <? 0)%Z then Raise IndexError
  else match nth_error l (Z.to_nat j) with
       | Some x => Ok x
       | None => Raise IndexError
       end.

(** [[l[i] for i in ids]] *)
Fixpoint select {A} (l : list A) (ids : list Z) : outcome (list A) :=
  match ids with
  | [] => Ok []
  | i :: rest =>
      match index l i with
      | Raise e => Raise e
      | Ok x =>
          match select l rest with
          | Raise e => Raise e
          | Ok xs => Ok (x :: xs)
          end
      end
  end.

(** The body of [if len(ranked_vendors) > 1:] after the oracle answered
    [rerank]: the new order and the reasoning log. *)
Definition apply_rerank (ranked_vendors : list Vendor) (rerank : json)
           (final_reasoning : list json) : outcome (list Vendor * list json) :=
  match LLMReasoner.get rerank "ordered_vendor_ids" with
  | Raise e => Raise e
  | Ok found =>
      let ids := match found with Some v => v | None => JArr [] end in
      match iterate ids with
      | Raise e => Raise e
      | Ok items =>
          match valid_ids items (List.length ranked_vendors) with
          | Raise e => Raise e
          | Ok valid =>
              let reordered :=
                match valid with
                | [] => Ok ranked_vendors
                | _ => select ranked_vendors valid
                end in
              match reordered with
              | Raise e => Raise e
              | Ok ranked_vendors =>
                  match LLMReasoner.get rerank "reasoning" with
                  | Raise e => Raise e
                  | Ok (Some r) =>
                      if Json.truthy r
                      then Ok (ranked_vendors, (final_reasoning ++ [r])%list)
                      else Ok (ranked_vendors, final_reasoning)
                  | Ok None => Ok (ranked_vendors, final_reasoning)
                  end
              end
          end
      end
  end.

(** ** Applying a non-STOP decision *)

(** [decision[key]] *)
Definition getitem (v : json) (k : string) : outcome json :=
  match v with
  | JObj fields =>
      match Json.lookup fields k with
      | Some x => Ok x
      | None => Raise (KeyError k)
      end
  | _ => Raise TypeError
  end.

Definition apply_decision (service_type : string) (action : json)
           (st : RefinementState) : RefinementState :=
  if Json.eq_str action "EXPAND_LOCATION" then
    mkState (attempt st) (current_platform st)
      (current_location st ++ " nearby") (current_min_confidence st)
      (final_reasoning st ++ [JStr "Expanded search location."])%list
      (ranked_vendors st)
  else if Json.eq_str action "TRY_ANOTHER_PLATFORM" then
    let current_platform :=
      if String.eqb service_type "visual" then "instagram"
      else if String.eqb (current_platform st) "instagram" then "twitter"
           else "instagram" in
    mkState (attempt st) current_platform
      (current_location st) (current_min_confidence st)
      (final_reasoning st
         ++ [JStr ("Switched platform to " ++ current_platform ++ ".")])%list
      (ranked_vendors st)
  else if Json.eq_str action "RELAX_CONFIDENCE" then
    mkState (attempt st) (current_platform st)
      (current_location st)
      (Py.max (1 # 10) (current_min_confidence st - (1 # 10))%Q)
      (final_reasoning st ++ [JStr "Relaxed confidence threshold."])%list
      (ranked_vendors st)
  else st.

(** ** The agent loop *)

(** One call of [search_vendors], counted as a search round. *)
Definition run_search (self : Self) (service location platform : string)
  : M (list SearchEngine.Hit) :=
  fun w =>
    (Ok (SearchEngine.search_vendors (search_engine self) service location platform),
     mkEffects (chats w) (S (searches w))).

Definition fallback (st : RefinementState) : AgentResult :=
  mkAgentResult (ranked_vendors st)
    (JObj [ ("explanation",
             JStr "Search completed but results were limited or low confidence.");
            ("result_quality", JStr "weak");
            ("clarifying_question",
             JStr "Would you like to broaden the location or try another service?") ])
    (final_reasoning st).

Section Loop.
Variable self : Self.
Variable service : string.
Variable max_results : nat.
Variable service_type : string.
Variable effective_min_confidence : Q.

(** The [for result in search_results[: max_results * 3]] loop, with
    [enriched_vendors] threaded through. *)
Fixpoint extraction_loop (current_location : string)
         (results : list SearchEngine.Hit) (enriched_vendors : list Vendor)
  : M (list Vendor) :=
  match results with
  | [] => ret enriched_vendors
  | result :: rest =>
      match extract_vendor_info (web self) (extractor self)
              (SearchEngine.raw result) current_location with
      | Discarded _ _ => extraction_loop current_location rest enriched_vendors
      | Candidate vendor =>
          (* confidence gate *)
          if Py.flt (confidence_score vendor) effective_min_confidence
          then extraction_loop current_location rest enriched_vendors
          else
            ok <- LLMReasoner.is_actual_vendor (reasoner self) service vendor ;;
            if negb ok
            then extraction_loop current_location rest enriched_vendors
            else
              let enriched_vendors := (enriched_vendors ++ [vendor])%list in
              if (max_results <=? List.length enriched_vendors)%nat
              then ret enriched_vendors
              else extraction_loop current_location rest enriched_vendors
      end
  end.

(** What one iteration of the [while] loop ends with: a [return], a
    [break], or the state the next iteration starts from. *)
Inductive Step : Type :=
| Return (result : AgentResult)
| Break (st : RefinementState)
| Continue (st : RefinementState).

(** The body of the [while] loop. *)
Definition round (st : RefinementState) : M Step :=
  let attempt := S (attempt st) in
  (* platform override *)
  let current_platform :=
    if String.eqb service_type "visual" then "instagram"
    else current_platform st in
  let current_location := current_location st in
  let st :=
    mkState attempt current_platform current_location
      (current_min_confidence st) (final_reasoning st) (ranked_vendors st) in
  (* search *)
  search_results <- run_search self service current_location current_platform ;;
  match search_results with
  | [] => ret (Break st)
  | _ :: _ =>
      (* extraction *)
      enriched_vendors <-
        extraction_loop current_location
          (firstn (max_results * 3) search_results) [] ;;
      match enriched_vendors with
      | [] => ret (Break st)
      | _ :: _ =>
          (* deterministic ranking *)
          let ranked := rank_vendors enriched_vendors in
          (* oracle re-rank *)
          reranked <-
            (if (1 <? List.length ranked)%nat then
               rerank <- LLMReasoner.rerank_vendors (reasoner self)
                           service ranked ;;
               lift (apply_rerank ranked rerank (final_reasoning st))
             else ret (ranked, final_reasoning st)) ;;
          let '(ranked, reasoning) := reranked in
          let st :=
            mkState attempt current_platform current_location
              (current_min_confidence st) reasoning ranked in
          (* oracle analysis *)
          analysis <-
            LLMReasoner.analyze_results (reasoner self) service
              current_location ranked ;;
          (* oracle autonomy *)
          decision <-
            LLMReasoner.decide_next_search (reasoner self) service
              current_location current_platform ranked ;;
          action <- lift (LLMReasoner.get decision "action") ;;
          if Json.opt_eq_str action "STOP"
          then ret (Return (mkAgentResult ranked analysis reasoning))
          else
            (* apply decision *)
            action <- lift (getitem decision "action") ;;
            ret (Continue (apply_decision service_type action st))
      end
  end.

(** The [while attempt < max_attempts] loop.  [fuel] bounds the number
    of iterations the model may unfold; [None] reports that it ran
    out. *)
Fixpoint attempts (fuel : nat) (st : RefinementState) : M (option AgentResult) :=
  if (attempt st <? max_attempts)%nat then
    match fuel with
    | O => ret None
    | S fuel =>
        step <- round st ;;
        match step with
        | Return result => ret (Some result)
        | Break st => ret (Some (fallback st))
        | Continue st => attempts fuel st
        end
    end
  else ret (Some (fallback st)).
End Loop.

(** [find_vendors], unfolding the loop at most [fuel] times. *)
Definition find_vendors_fuel (fuel : nat) (self : Self)
           (service location platform : string)
           (max_results : nat) (min_confidence : Q) : M (option AgentResult) :=
  let service_type := classify_service service in
  let effective_min_confidence :=
    if String.eqb service_type "trade" then (2 # 10)%Q
    else if String.eqb service_type "visual" then min_confidence
    else min_confidence in
  attempts self service max_results service_type effective_min_confidence fuel
    (mkState 0 platform location min_confidence [] []).

Definition find_vendors := find_vendors_fuel max_attempts.

End VendorFinder.

(* ------------------------------------------------------------------ *)
(** * Reference definitions the code is compared with, and the
      vocabulary of the statements *)
(* ------------------------------------------------------------------ *)

Module Reference.

Import SearchEngine.

(** A class of keys no two members of which are ordered by [ltb]. *)
Definition tie_class {K : Type} (ltb : K -> K -> bool) (p : K -> bool) : Prop :=
  forall a b, p a = true -> p b = true -> ltb a b = false.

(** [a] may stand before [b] in an ascending list. *)
Definition asc {A K : Type} (key : A -> K) (ltb : K -> K -> bool) (a b : A)
  : Prop := ltb (key b) (key a) = false.

(** [a] may stand before [b] in a descending list. *)
Definition desc {A K : Type} (key : A -> K) (ltb : K -> K -> bool) (a b : A)
  : Prop := ltb (key a) (key b) = false.

(** The test [0 <= i < n] on an integer. *)
Definition in_range (n : nat) (i : Z) : bool :=
  (0 <=? i)%Z && (i <? Z.of_nat n)%Z.

(** A contribution that counts only when its signal is present. *)
Definition bonus (present : bool) (q : Q) : Q := if present then q else 0%Q.

(** Clamping to the unit interval. *)
Definition clamp01 (q : Q) : Q := Py.max 0%Q (Py.min q 1%Q).

(** The four relevance signals of a hit. *)
Definition service_in_title (service : string) (r : RawHit) : bool :=
  Py.contains (Py.lower service) (Py.lower (title r)).

Definition location_in_snippet (location : string) (r : RawHit) : bool :=
  Py.contains (Py.lower location) (Py.lower (snippet r)).

Definition whatsapp_marker (r : RawHit) : bool :=
  Py.contains "whatsapp" (Py.lower (snippet r))
  || Py.contains "wa.me" (Py.lower (snippet r)).

Definition platform_in_query (platform : string) (r : RawHit) : bool :=
  Py.contains (Py.lower platform) (Py.lower (query_used r)).

(** The relevance score as a sum of independent contributions. *)
Definition signal_sum (service location platform : string) (r : RawHit) : Q :=
  (bonus (service_in_title service r) (3 # 10)
   + bonus (location_in_snippet location r) (3 # 10)
   + bonus (whatsapp_marker r) (2 # 10)
   + bonus (platform_in_query platform r) (2 # 10))%Q.

(** First occurrences by position: a hit is kept when its link is not
    empty and no hit before it carries the same link. *)
Fixpoint first_occ (before rest : list RawHit) : list RawHit :=
  match rest with
  | [] => []
  | r :: rest' =>
      let keep :=
        Py.truthy (link r) && negb (Py.mem (link r) (map link before)) in
      ((if keep then [r] else []) ++ first_occ (before ++ [r]) rest')%list
  end.

Definition first_occurrences (raw_results : list RawHit) : list RawHit :=
  first_occ [] raw_results.

(** The five signals the confidence score is built from, read off the
    candidate's own fields. *)
Definition has_whatsapp (v : VendorExtractor.Vendor) : bool :=
  match VendorExtractor.whatsapp (VendorExtractor.contacts v) with
  | [] => false | _ => true end.

Definition has_instagram (v : VendorExtractor.Vendor) : bool :=
  match VendorExtractor.instagram (VendorExtractor.social v) with
  | [] => false | _ => true end.

Definition has_resolved (v : VendorExtractor.Vendor) : bool :=
  Py.truthy_opt (VendorExtractor.resolved (VendorExtractor.location v)).

Definition has_enrichment (v : VendorExtractor.Vendor) : bool :=
  match VendorExtractor.google_maps (VendorExtractor.location v) with
  | Some _ => true | None => false end.

Definition has_soft_signal (v : VendorExtractor.Vendor) : bool :=
  Py.mem "soft_contact_signal" (VendorExtractor.evidence v).

(** The base contributions, summed. *)
Definition base_sum (w i r e : bool) : Q :=
  (bonus w (3 # 10) + bonus i (2 # 10) + bonus r (3 # 10) + bonus e (2 # 10))%Q.

(** The confidence score as the specification words it: base
    contributions plus the soft-signal bonus, clamped, rounded. *)
Definition clamped_confidence (w i r e soft : bool) : Q :=
  Py.round2 (clamp01 (base_sum w i r e + bonus soft (1 # 10))%Q).

(** The confidence score as the code builds it: the bonus is added to
    the clamped and rounded base sum. *)
Definition accumulated_confidence (w i r e soft : bool) : Q :=
  (bonus soft (1 # 10) + Py.round2 (Py.min (base_sum w i r e) 1))%Q.

(** Equality of ranking tuples, component by component. *)
Definition key_eqb (a b : VendorFinder.RankKey) : bool :=
  let '(c1, w1, s1, l1) := a in
  let '(c2, w2, s2, l2) := b in
  Py.feq c1 c2 && (w1 =? w2)%nat && (s1 =? s2)%nat && (l1 =? l2)%nat.

(** A refinement state with another [current_min_confidence]. *)
Definition with_threshold (st : VendorFinder.RefinementState) (q : Q)
  : VendorFinder.RefinementState :=
  VendorFinder.mkState (VendorFinder.attempt st)
    (VendorFinder.current_platform st) (VendorFinder.current_location st)
    q (VendorFinder.final_reasoning st) (VendorFinder.ranked_vendors st).

(** A refinement state with one more line in the reasoning log. *)
Definition with_note (st : VendorFinder.RefinementState) (note : string)
  : VendorFinder.RefinementState :=
  VendorFinder.mkState (VendorFinder.attempt st)
    (VendorFinder.current_platform st) (VendorFinder.current_location st)
    (VendorFinder.current_min_confidence st)
    (VendorFinder.final_reasoning st ++ [JStr note])%list
    (VendorFinder.ranked_vendors st).

(** Two refinement states that agree on everything but
    [current_min_confidence]. *)
Definition same_but_threshold (a b : VendorFinder.RefinementState) : Prop :=
  with_threshold a 0 = with_threshold b 0.

Definition step_same (s1 s2 : VendorFinder.Step) : Prop :=
  match s1, s2 with
  | VendorFinder.Return r1, VendorFinder.Return r2 => r1 = r2
  | VendorFinder.Break a, VendorFinder.Break b => same_but_threshold a b
  | VendorFinder.Continue a, VendorFinder.Continue b => same_but_threshold a b
  | _, _ => False
  end.

(** Two runs of a loop body that did the same to the outside world and
    ended the same way, up to [current_min_confidence]. *)
Definition run_same (x y : outcome VendorFinder.Step * Effects) : Prop :=
  snd x = snd y
  /\ match fst x, fst y with
     | Ok s1, Ok s2 => step_same s1 s2
     | Raise e1, Raise e2 => e1 = e2
     | _, _ => False
     end.

(** [m] issues no search round, and what it returns satisfies [P]. *)
Definition quiet {A : Type} (m : M A) (P : A -> Prop) : Prop :=
  forall w,
    searches (snd (m w)) = searches w
    /\ forall a, fst (m w) = Ok a -> P a.

(** [m] never raises, and what it returns satisfies [P]. *)
Definition returns {A : Type} (m : M A) (P : A -> Prop) : Prop :=
  forall w, exists a w', m w = (Ok a, w') /\ P a.

(** A step leaves the loop or starts the next attempt. *)
Definition advances (st : VendorFinder.RefinementState) (s : VendorFinder.Step)
  : Prop :=
  match s with
  | VendorFinder.Return _ => True
  | VendorFinder.Break st' | VendorFinder.Continue st' =>
      VendorFinder.attempt st' = S (VendorFinder.attempt st)
  end.

End Reference.

(* ------------------------------------------------------------------ *)
(** * Concrete inputs *)
(* ------------------------------------------------------------------ *)

Module Scenario.

Import SearchEngine.

Definition query : string := "site:instagram.com cake whatsapp Lagos".

(** A hit with no relevance signal but the platform in its query. *)
Definition plain_hit : RawHit :=
  mkRawHit "Best bakery in town" "https://instagram.com/bestbakery"
    "Fresh bread daily" "google" query.

Definition full_snippet : string :=
  "Lagos cakes @cakepalace, order now on WhatsApp wa.me/2348012345678".

(** A hit with all four relevance signals. *)
Definition full_hit : RawHit :=
  mkRawHit "Cake Palace" "https://instagram.com/cakepalace"
    full_snippet "google" query.

(** The first hit again, as Bing returns it. *)
Definition repeated_hit : RawHit :=
  mkRawHit "Best bakery (Bing)" "https://instagram.com/bestbakery"
    "Lagos bakery on whatsapp" "bing" query.

(** A hit without a link. *)
Definition empty_link_hit : RawHit :=
  mkRawHit "Cake news" EmptyString "Lagos" "bing" query.

Definition raw_results : list RawHit :=
  [ plain_hit; empty_link_hit; full_hit; repeated_hit ].

(** The second hit as [search_vendors] stores it. *)
Definition full_scored : Hit :=
  mkHit full_hit (relevance "cake" "Lagos" "instagram" full_hit).

(** ** Capabilities for the extractor *)

(** What the regular-expression engine finds in [full_snippet]: the
    number behind [wa.me/] (by three of the four number patterns) and the
    [@] handle; nothing in any other text. *)
Definition findall (pattern text : string) : list string :=
  if String.eqb text full_snippet then
    if String.eqb pattern "wa\.me[/\+]?(\d+)" then ["2348012345678"]
    else if String.eqb pattern "(\+?234[\s\-]?\d{3}[\s\-]?\d{3}[\s\-]?\d{4})"
    then ["2348012345678"]
    else if String.eqb pattern "(\+?\d[\d\s\-]{9,})" then ["2348012345678"]
    else if String.eqb pattern "@[\w\.]{3,}" then ["@cakepalace"]
    else []
  else [].

(** No page can be fetched. *)
Definition offline_web : VendorExtractor.Web :=
  VendorExtractor.mkWeb findall (fun _ => None)
    (fun html => html) (fun _ => None).

Definition allen_avenue : string := "12 Allen Avenue, Ikeja, Lagos".

(** A places client that knows the business with its address. *)
Definition client_with_address : VendorExtractor.GmapsClient :=
  VendorExtractor.mkGmapsClient
    (fun _ =>
       Some [ VendorExtractor.mkPlace (Some allen_avenue)
                (Some (66 # 10)) (Some (335 # 100)) (Some (45 # 10))
                (Some "place-1") ])
    (fun _ _ => Some [ Some allen_avenue ]).

(** A places client that knows only the coordinates of the business and
    can reverse-geocode them to an address. *)
Definition client_without_address : VendorExtractor.GmapsClient :=
  VendorExtractor.mkGmapsClient
    (fun _ =>
       Some [ VendorExtractor.mkPlace None
                (Some (66 # 10)) (Some (335 # 100)) (Some (45 # 10))
                (Some "place-1") ])
    (fun _ _ => Some [ Some allen_avenue ]).

Definition extractor_with_address : VendorExtractor.Self :=
  VendorExtractor.mkSelf (Some client_with_address).

Definition extractor_without_address : VendorExtractor.Self :=
  VendorExtractor.mkSelf (Some client_without_address).

Definition no_extractor_client : VendorExtractor.Self :=
  VendorExtractor.mkSelf None.

(** The candidate extracted from [full_hit] when the places client knows
    the address: every base signal and the soft-signal bonus. *)
Definition full_vendor : VendorExtractor.Vendor :=
  VendorExtractor.mkVendor
    (VendorExtractor.mkIdentity "Cake Palace" "google"
       "https://instagram.com/cakepalace")
    (VendorExtractor.mkContacts ["2348012345678"])
    (VendorExtractor.mkSocial ["https://instagram.com/cakepalace"])
    (VendorExtractor.mkLocation (Some "Lagos") (Some "Lagos")
       (Some (VendorExtractor.mkMapsData (Some allen_avenue)
                (Some (66 # 10)) (Some (335 # 100)) (Some (45 # 10))
                (Some "place-1") "google_maps")))
    (1100 # 1000) ["soft_contact_signal"].

(** The enrichment record stored when the places client knows only the
    coordinates. *)
Definition coordinates_only : VendorExtractor.MapsData :=
  VendorExtractor.mkMapsData None
    (Some (66 # 10)) (Some (335 # 100)) (Some (45 # 10))
    (Some "place-1") "google_maps".

Definition vendor_without_address : VendorExtractor.Vendor :=
  VendorExtractor.mkVendor
    (VendorExtractor.mkIdentity "Cake Palace" "google"
       "https://instagram.com/cakepalace")
    (VendorExtractor.mkContacts ["2348012345678"])
    (VendorExtractor.mkSocial ["https://instagram.com/cakepalace"])
    (VendorExtractor.mkLocation (Some "Lagos") (Some "Lagos")
       (Some coordinates_only))
    (1100 # 1000) ["soft_contact_signal"].

(** The candidate extracted from [plain_hit]: a resolved location and
    an enrichment record, no contacts. *)
Definition plain_vendor : VendorExtractor.Vendor :=
  VendorExtractor.mkVendor
    (VendorExtractor.mkIdentity "Best bakery in town" "google"
       "https://instagram.com/bestbakery")
    (VendorExtractor.mkContacts [])
    (VendorExtractor.mkSocial [])
    (VendorExtractor.mkLocation (Some "Lagos") (Some "Lagos")
       (Some (VendorExtractor.mkMapsData (Some allen_avenue)
                (Some (66 # 10)) (Some (335 # 100)) (Some (45 # 10))
                (Some "place-1") "google_maps")))
    (50 # 100) [].

(** ** The advisory oracle *)

Definition quote (s : string) : string := Py.dq ++ s ++ Py.dq.

Definition is_vendor_text : string := "{" ++ quote "is_vendor" ++ ": true}".

Definition rerank_text : string :=
  "{" ++ quote "ordered_vendor_ids" ++ ": [5, 0]}".

Definition action_text (action : string) : string :=
  "{" ++ quote "action" ++ ": " ++ quote action ++ "}".

(** A reply that is not JSON. *)
Definition prose : string := "The results look acceptable, stop here.".

(** The decoder on the texts above; any other text is not JSON. *)
Definition loads (content : string) : option json :=
  if String.eqb content is_vendor_text
  then Some (JObj [ ("is_vendor", JBool true) ])
  else if String.eqb content rerank_text
  then Some (JObj [ ("ordered_vendor_ids", JArr [ JInt 5; JInt 0 ]) ])
  else if String.eqb content (action_text "STOP")
  then Some (JObj [ ("action", JStr "STOP") ])
  else if String.eqb content (action_text "EXPAND_LOCATION")
  then Some (JObj [ ("action", JStr "EXPAND_LOCATION") ])
  else if String.eqb content (action_text "RELAX_CONFIDENCE")
  then Some (JObj [ ("action", JStr "RELAX_CONFIDENCE") ])
  else None.

(** A client that answers its requests in order from a list. *)
Definition scripted (replies : list LLMReasoner.ChatReply) : LLMReasoner.Client :=
  LLMReasoner.mkClient
    (fun n => nth n replies (LLMReasoner.ChatRaises "connection closed")).

Definition reasoner_of (replies : list LLMReasoner.ChatReply) : LLMReasoner.Self :=
  LLMReasoner.mkSelf (Some (scripted replies)) loads.

Definition no_reasoner : LLMReasoner.Self := LLMReasoner.mkSelf None loads.

Definition item_of (hit : RawHit) : Item :=
  mkItem (title hit) (link hit) (snippet hit).

(** Google answers every query with the entries of the given hits, Bing
    is not configured. *)
Definition providers_of (hits : list RawHit) : Providers :=
  mkProviders (fun _ => map item_of hits) (fun _ => []).

Definition finder (hits : list RawHit) (replies : list LLMReasoner.ChatReply)
  : VendorFinder.Self :=
  VendorFinder.mkSelf (providers_of hits) offline_web extractor_with_address
    (reasoner_of replies).

(** One candidate; the oracle accepts it, analyses in prose, and answers
    the stop-or-continue question in prose as well. *)
Definition prose_decision : VendorFinder.Self :=
  finder [ full_hit ]
    [ LLMReasoner.ChatContent is_vendor_text;
      LLMReasoner.ChatContent prose;
      LLMReasoner.ChatContent prose ].

(** Two candidates; the oracle accepts both, re-ranks with the ids
    [5, 0], and stops. *)
Definition rerank_5_0 : VendorFinder.Self :=
  finder [ full_hit; plain_hit ]
    [ LLMReasoner.ChatContent is_vendor_text;
      LLMReasoner.ChatContent is_vendor_text;
      LLMReasoner.ChatContent rerank_text;
      LLMReasoner.ChatContent prose;
      LLMReasoner.ChatContent (action_text "STOP") ].

(** One candidate; the oracle never stops. *)
Definition never_stop : VendorFinder.Self :=
  finder [ full_hit ]
    [ LLMReasoner.ChatContent is_vendor_text;
      LLMReasoner.ChatContent prose;
      LLMReasoner.ChatContent (action_text "EXPAND_LOCATION");
      LLMReasoner.ChatContent is_vendor_text;
      LLMReasoner.ChatContent prose;
      LLMReasoner.ChatContent (action_text "RELAX_CONFIDENCE") ].

Definition start : Effects := mkEffects 0 0.

End Scenario.


(* ------------------------------------------------------------------ *)
(** * Vocabulary of the further properties *)
(* ------------------------------------------------------------------ *)

Module Invariant.

(** The string ends with a character that is not white space. *)
Fixpoint ends_nonspace (s : string) : bool :=
  match s with
  | EmptyString => false
  | String c EmptyString => negb (Py.is_space c)
  | String _ t => ends_nonspace t
  end.

(** The site-restriction token [build_queries] looks up for a
    platform. *)
Definition site_of (platform : string) : string :=
  SearchEngine.dict_get SearchEngine.site_map (Py.lower platform) EmptyString.

(** The four phrasings of a query, after the site token. *)
Definition phrasings (service location : string) : list string :=
  let q := Py.dq in
  [ q ++ service ++ " vendor " ++ location ++ q;
    q ++ service ++ " in " ++ location ++ q;
    q ++ service ++ q ++ " " ++ q ++ location ++ q;
    q ++ service ++ q ++ " whatsapp " ++ q ++ location ++ q ].

(** The platforms whose name occurs in their own site token. *)
Definition named_in_site : list string :=
  [ "instagram"; "twitter"; "facebook"; "tiktok" ].

(** Every character is a digit or a plus sign. *)
Fixpoint digits_or_plus (s : string) : bool :=
  match s with
  | EmptyString => true
  | String c t => (Py.is_digit c || Ascii.eqb c "+"%char) && digits_or_plus t
  end.

(** What every extracted contact number looks like. *)
Definition number_shaped (s : string) : Prop :=
  (10 <= String.length s)%nat /\ digits_or_plus s = true.

(** What every extracted profile link looks like. *)
Definition link_shaped (s : string) : Prop := prefix "http" s = true.

(** The text the job-post filter reads. *)
Definition filter_text (r : SearchEngine.RawHit) : string :=
  SearchEngine.title r ++ " " ++ SearchEngine.snippet r.

(** The candidate passes the confidence gate with threshold [q]. *)
Definition gated (q : Q) (v : VendorExtractor.Vendor) : Prop :=
  Py.flt (VendorExtractor.confidence_score v) q = false.


(** [m] returns without raising, leaves the outside world untouched,
    and what it returns satisfies [P]. *)
Definition offline {A : Type} (m : M A) (P : A -> Prop) : Prop :=
  forall w, exists a, m w = (Ok a, w) /\ P a.

(** [m] returns without raising after at most one chat request and no
    search round. *)
Definition one_request {A : Type} (m : M A) : Prop :=
  forall w, exists a w',
    m w = (Ok a, w')
    /\ searches w' = searches w
    /\ (chats w <= chats w' <= S (chats w))%nat.

(** The candidate was extracted from some search result by the
    collaborators of [self] and passes the confidence gate with threshold
    [q]. *)
Definition accepted (self : VendorFinder.Self) (q : Q)
           (v : VendorExtractor.Vendor) : Prop :=
  gated q v
  /\ exists hit location,
       VendorExtractor.extract_vendor_info (VendorFinder.web self)
         (VendorFinder.extractor self) hit location
       = VendorExtractor.Candidate v.

(** The threshold [find_vendors] fixes before the first attempt. *)
Definition effective_threshold (service : string) (min_confidence : Q) : Q :=
  if String.eqb (VendorFinder.classify_service service) "trade"
  then (2 # 10)%Q else min_confidence.

(** The platform the first search of [find_vendors] uses. *)
Definition first_platform (service platform : string) : string :=
  if String.eqb (VendorFinder.classify_service service) "visual"
  then "instagram" else platform.

(** [m] sends at most [n] chat requests, whether it returns or
    raises. *)
Definition chat_bounded {A : Type} (n : nat) (m : M A) : Prop :=
  forall w, (chats w <= chats (snd (m w)) <= chats w + n)%nat.

(** The vendors a step hands on. *)
Definition step_vendors (s : VendorFinder.Step) : list VendorExtractor.Vendor :=
  match s with
  | VendorFinder.Return r => VendorFinder.vendors r
  | VendorFinder.Break st | VendorFinder.Continue st =>
      VendorFinder.ranked_vendors st
  end.

(** The orchestrator with another search engine and the same other
    collaborators. *)
Definition with_search_engine (self : VendorFinder.Self)
           (p : SearchEngine.Providers) : VendorFinder.Self :=
  VendorFinder.mkSelf p (VendorFinder.web self) (VendorFinder.extractor self)
    (VendorFinder.reasoner self).

(** The platform a round searches on. *)
Definition round_platform (service_type : string)
           (st : VendorFinder.RefinementState) : string :=
  if String.eqb service_type "visual" then "instagram"
  else VendorFinder.current_platform st.

End Invariant.

(* ------------------------------------------------------------------ *)
(** * Further concrete inputs *)
(* ------------------------------------------------------------------ *)

Module Sample.

(** The first query built for cake vendors in Lagos on Instagram. *)
Definition first_query : string :=
  "site:instagram.com " ++ Py.dq ++ "cake vendor Lagos" ++ Py.dq.

(** The hit [search_vendors] returns when Google answers every query
    with the entry of [Scenario.full_hit]. *)
Definition first_result : SearchEngine.Hit :=
  SearchEngine.mkHit
    (SearchEngine.mkRawHit "Cake Palace" "https://instagram.com/cakepalace"
       Scenario.full_snippet "google" first_query)
    (100 # 100).

(** No provider is configured. *)
Definition no_providers : SearchEngine.Providers :=
  SearchEngine.mkProviders (fun _ => []) (fun _ => []).

(** An orchestrator without search providers and without an oracle. *)
Definition blind_finder : VendorFinder.Self :=
  VendorFinder.mkSelf no_providers Scenario.offline_web
    Scenario.no_extractor_client Scenario.no_reasoner.

(** An orchestrator with Google and the places client, without an
    oracle. *)
Definition offline_finder (hits : list SearchEngine.RawHit) : VendorFinder.Self :=
  VendorFinder.mkSelf (Scenario.providers_of hits) Scenario.offline_web
    Scenario.extractor_with_address Scenario.no_reasoner.

(** What [find_vendors] returns for cake vendors in Lagos with
    [offline_finder] on [Scenario.full_hit]. *)
Definition offline_result : VendorFinder.AgentResult :=
  VendorFinder.mkAgentResult [ Scenario.full_vendor ]
    (LLMReasoner._fallback_analysis "cake" "Lagos" [ Scenario.full_vendor ] None)
    [].

(** ** Oracle answers of an unexpected type *)

(** The ids as strings. *)
Definition string_ids_text : string :=
  "{" ++ Scenario.quote "ordered_vendor_ids" ++ ": ["
    ++ Scenario.quote "1" ++ ", " ++ Scenario.quote "0" ++ "]}".

(** No ids. *)
Definition null_ids_text : string :=
  "{" ++ Scenario.quote "ordered_vendor_ids" ++ ": null}".

(** The ids alone, without the surrounding object. *)
Definition bare_list_text : string := "[1, 0]".

(** The decoder on the three texts above and on those of
    [Scenario.loads]. *)
Definition loads (content : string) : option json :=
  if String.eqb content string_ids_text
  then Some (JObj [ ("ordered_vendor_ids", JArr [ JStr "1"; JStr "0" ]) ])
  else if String.eqb content null_ids_text
  then Some (JObj [ ("ordered_vendor_ids", JNull) ])
  else if String.eqb content bare_list_text
  then Some (JArr [ JInt 1; JInt 0 ])
  else Scenario.loads content.

(** Two candidates; the oracle accepts both and answers the re-rank
    request with [rerank_reply]. *)
Definition reranked_with (rerank_reply : string) : VendorFinder.Self :=
  VendorFinder.mkSelf
    (Scenario.providers_of [ Scenario.full_hit; Scenario.plain_hit ])
    Scenario.offline_web Scenario.extractor_with_address
    (LLMReasoner.mkSelf
       (Some (Scenario.scripted
                [ LLMReasoner.ChatContent Scenario.is_vendor_text;
                  LLMReasoner.ChatContent Scenario.is_vendor_text;
                  LLMReasoner.ChatContent rerank_reply;
                  LLMReasoner.ChatContent Scenario.prose;
                  LLMReasoner.ChatContent (Scenario.action_text "STOP") ]))
       loads).

(** ** Result lists that differ after the third hit *)

Definition florist_hit : SearchEngine.RawHit :=
  SearchEngine.mkRawHit "Rose florist" "https://instagram.com/roseflorist"
    "Fresh flowers" "google" Scenario.query.

Definition decor_hit : SearchEngine.RawHit :=
  SearchEngine.mkRawHit "Alpha decor" "https://instagram.com/alphadecor"
    "Event decor" "google" Scenario.query.

Definition catering_hit : SearchEngine.RawHit :=
  SearchEngine.mkRawHit "Beta catering" "https://instagram.com/betacatering"
    "Party catering" "google" Scenario.query.

Definition three_hits : list SearchEngine.RawHit :=
  [ Scenario.full_hit; Scenario.plain_hit; florist_hit ].

(** Google answers with the three hits and the decor hit, no oracle. *)
Definition decor_finder : VendorFinder.Self :=
  offline_finder (three_hits ++ [ decor_hit ]).

(** Google answers with the three hits and the catering hit. *)
Definition catering_engine : SearchEngine.Providers :=
  Scenario.providers_of (three_hits ++ [ catering_hit ]).

Definition start_state : VendorFinder.RefinementState :=
  VendorFinder.mkState 0 "instagram" "Lagos" (3 # 10) [] [].

End Sample.
(* ------------------------------------------------------------------ *)
(** * Facts about [list.sort] *)
(* ------------------------------------------------------------------ *)

Section SortFacts.
Context {A K : Type} (key : A -> K) (ltb : K -> K -> bool).

(** [ltb] is a strict weak order on keys. *)
Hypothesis ltb_irrefl : forall a, ltb a a = false.
Hypothesis ltb_trans :
  forall a b c, ltb a b = true -> ltb b c = true -> ltb a c = true.
Hypothesis ltb_negtrans :
  forall a b c, ltb a b = false -> ltb b c = false -> ltb a c = false.

Abbreviation tie_class := (Reference.tie_class ltb).
Abbreviation asc := (Reference.asc key ltb).
Abbreviation desc := (Reference.desc key ltb).

Lemma ltb_asym a b : ltb a b = true -> ltb b a = false.
Proof.
  intros Hab. destruct (ltb b a) eqn:Hba; [|reflexivity].
  rewrite <- (ltb_irrefl a). symmetry. now apply ltb_trans with b.
Qed.

Lemma insert_perm x l : Permutation (Py.insert key ltb x l) (x :: l).
Proof.
  induction l as [|y ys IH]; simpl; [reflexivity|].
  destruct (ltb (key y) (key x)); [|reflexivity].
  rewrite IH. apply perm_swap.
Qed.

Lemma sort_asc_perm l : Permutation (Py.sort_asc key ltb l) l.
Proof.
  induction l as [|x xs IH]; simpl; [reflexivity|].
  rewrite insert_perm. now constructor.
Qed.

Lemma list_sort_perm reverse l : Permutation (Py.list_sort key ltb reverse l) l.
Proof.
  unfold Py.list_sort. destruct reverse; [|apply sort_asc_perm].
  rewrite <- Permutation_rev, sort_asc_perm. symmetry. apply Permutation_rev.
Qed.

Lemma insert_sorted x l :
  StronglySorted asc l -> StronglySorted asc (Py.insert key ltb x l).
Proof.
  induction 1 as [|y ys Hs IH Hy]; simpl.
  - repeat constructor.
  - destruct (ltb (key y) (key x)) eqn:Hyx.
    + constructor; [exact IH|].
      rewrite Forall_forall in *. intros z Hz.
      apply (Permutation_in _ (insert_perm x ys)) in Hz.
      destruct Hz as [<-|Hz]; [now apply ltb_asym | now apply Hy].
    + constructor; [now constructor|].
      constructor; [exact Hyx|].
      rewrite Forall_forall in *. intros z Hz.
      unfold Reference.asc. apply ltb_negtrans with (key y); [now apply Hy | exact Hyx].
Qed.

Lemma sort_asc_sorted l : StronglySorted asc (Py.sort_asc key ltb l).
Proof.
  induction l; simpl; [constructor | now apply insert_sorted].
Qed.

Lemma sorted_app (R : A -> A -> Prop) l1 l2 :
  StronglySorted R l1 -> StronglySorted R l2 ->
  (forall a b, In a l1 -> In b l2 -> R a b) ->
  StronglySorted R (l1 ++ l2).
Proof.
  induction 1 as [|x xs Hs IH Hx]; simpl; intros H2 Hc; [exact H2|].
  constructor.
  - apply IH; [exact H2 | intros; apply Hc; simpl; auto].
  - rewrite Forall_forall in *. intros z Hz.
    apply in_app_or in Hz as [Hz|Hz]; [now apply Hx | apply Hc; simpl; auto].
Qed.

Lemma sorted_rev l : StronglySorted asc l -> StronglySorted desc (rev l).
Proof.
  induction 1 as [|x xs Hs IH Hx]; simpl; [constructor|].
  apply sorted_app; [exact IH | repeat constructor |].
  intros a b Ha [<-|[]]. rewrite Forall_forall in Hx.
  apply in_rev in Ha. exact (Hx a Ha).
Qed.

(** With [reverse=True] the result is in descending key order. *)
Lemma list_sort_reverse_sorted l :
  StronglySorted desc (Py.list_sort key ltb true l).
Proof. apply sorted_rev, sort_asc_sorted. Qed.

Lemma filter_insert (p : K -> bool) x l :
  tie_class p ->
  filter (fun a => p (key a)) (Py.insert key ltb x l)
  = filter (fun a => p (key a)) (x :: l).
Proof.
  intros Hp. induction l as [|y ys IH]; [reflexivity|].
  simpl. destruct (ltb (key y) (key x)) eqn:Hyx; [|reflexivity].
  simpl. rewrite IH. simpl.
  destruct (p (key y)) eqn:Py; destruct (p (key x)) eqn:Px; try reflexivity.
  rewrite (Hp _ _ Py Px) in Hyx. discriminate.
Qed.

Lemma filter_sort_asc (p : K -> bool) l :
  tie_class p ->
  filter (fun a => p (key a)) (Py.sort_asc key ltb l)
  = filter (fun a => p (key a)) l.
Proof.
  intros Hp. induction l as [|x xs IH]; [reflexivity|].
  simpl Py.sort_asc. rewrite filter_insert by exact Hp.
  simpl. now rewrite IH.
Qed.

Lemma filter_rev (f : A -> bool) l : filter f (rev l) = rev (filter f l).
Proof.
  induction l as [|x xs IH]; [reflexivity|].
  simpl. rewrite filter_app, IH. simpl.
  destruct (f x); simpl; [reflexivity | now rewrite app_nil_r].
Qed.

(** Stability: the elements whose keys tie come out in the order they
    went in, in either direction. *)
Lemma list_sort_stable (p : K -> bool) reverse l :
  tie_class p ->
  filter (fun a => p (key a)) (Py.list_sort key ltb reverse l)
  = filter (fun a => p (key a)) l.
Proof.
  intros Hp. unfold Py.list_sort. destruct reverse.
  - rewrite filter_rev, filter_sort_asc, filter_rev, rev_involutive by exact Hp.
    reflexivity.
  - now apply filter_sort_asc.
Qed.
End SortFacts.

(* ------------------------------------------------------------------ *)
(** * Properties of search_engine.py *)
(* ------------------------------------------------------------------ *)

Section SearchFacts.
Import SearchEngine Reference.
Variables service location platform : string.

Abbreviation relevance := (relevance service location platform).
Abbreviation dedup_loop := (dedup_loop service location platform).

Lemma mem_In x l : Py.mem x l = true <-> In x l.
Proof.
  unfold Py.mem. rewrite existsb_exists. split.
  - intros (y & Hy & Heq). apply String.eqb_eq in Heq. now subst.
  - intros H. exists x. split; [exact H | apply String.eqb_refl].
Qed.

Lemma mem_false x l : Py.mem x l = false <-> ~ In x l.
Proof.
  rewrite <- mem_In. destruct (Py.mem x l); split; congruence.
Qed.

Lemma truthy_nonempty s : Py.truthy s = true <-> s <> EmptyString.
Proof. destruct s; simpl; split; congruence. Qed.

(** The accumulator of the loop is only ever appended to. *)
Lemma dedup_loop_acc rs seen acc :
  dedup_loop rs seen acc = (acc ++ dedup_loop rs seen [])%list.
Proof.
  revert seen acc. induction rs as [|r rest IH]; intros seen acc; simpl.
  - now rewrite app_nil_r.
  - destruct (negb (Py.truthy (link r)) || Py.mem (link r) seen).
    + apply IH.
    + rewrite IH. rewrite (IH _ [_]).
      now rewrite <- app_assoc.
Qed.

Lemma dedup_loop_cons r rest seen :
  dedup_loop (r :: rest) seen [] =
  if negb (Py.truthy (link r)) || Py.mem (link r) seen
  then dedup_loop rest seen []
  else mkHit r (relevance r) :: dedup_loop rest (link r :: seen) [].
Proof.
  simpl. destruct (negb (Py.truthy (link r)) || Py.mem (link r) seen);
    [reflexivity|].
  now rewrite dedup_loop_acc.
Qed.

(** Every stored hit carries the score computed from its own fields. *)
Lemma dedup_loop_scored rs seen h :
  In h (dedup_loop rs seen []) ->
  relevance_score h = relevance (SearchEngine.raw h) /\ In (SearchEngine.raw h) rs.
Proof.
  revert seen. induction rs as [|r rest IH]; intros seen; [intros []|].
  rewrite dedup_loop_cons.
  destruct (negb (Py.truthy (link r)) || Py.mem (link r) seen).
  - intros H. destruct (IH _ H). split; [assumption | now right].
  - intros [<-|H]; [split; [reflexivity | now left]|].
    destruct (IH _ H). split; [assumption | now right].
Qed.

(** The links that survive: the non-empty links of the input that were
    not seen before. *)
Lemma dedup_loop_links rs seen u :
  In u (map (fun h => link (SearchEngine.raw h)) (dedup_loop rs seen []))
  <-> u <> EmptyString /\ In u (map link rs) /\ ~ In u seen.
Proof.
  revert seen. induction rs as [|r rest IH]; intros seen.
  - simpl. tauto.
  - rewrite dedup_loop_cons.
    destruct (Py.truthy (link r)) eqn:Ht; simpl negb; simpl orb.
    + apply truthy_nonempty in Ht.
      destruct (Py.mem (link r) seen) eqn:Hm.
      * apply mem_In in Hm. rewrite IH. simpl.
        intuition (subst; auto; congruence).
      * apply mem_false in Hm. simpl. rewrite IH. simpl.
        destruct (string_dec (link r) u) as [E|Hne];
          intuition (subst; auto; congruence).
    + assert (link r = EmptyString) as He
        by (destruct (link r); [reflexivity | discriminate]).
      rewrite IH. simpl. rewrite He.
      intuition (subst; auto; congruence).
Qed.

Lemma dedup_loop_nodup rs seen :
  NoDup (map (fun h => link (SearchEngine.raw h)) (dedup_loop rs seen [])).
Proof.
  revert seen. induction rs as [|r rest IH]; intros seen; [constructor|].
  rewrite dedup_loop_cons.
  destruct (negb (Py.truthy (link r)) || Py.mem (link r) seen); [apply IH|].
  simpl. constructor; [|apply IH].
  rewrite dedup_loop_links. simpl. tauto.
Qed.

(** The loop with its [seen_urls] set keeps exactly the first
    occurrences by position. *)
Lemma dedup_loop_first_occ rs before seen :
  (forall u, u <> EmptyString -> (In u seen <-> In u (map link before))) ->
  map SearchEngine.raw (dedup_loop rs seen []) = first_occ before rs.
Proof.
  revert before seen. induction rs as [|r rest IH]; intros before seen Hseen;
    [reflexivity|].
  rewrite dedup_loop_cons. simpl first_occ.
  destruct (Py.truthy (link r)) eqn:Ht; simpl negb; simpl orb; simpl andb.
  - apply truthy_nonempty in Ht.
    assert (Py.mem (link r) seen = Py.mem (link r) (map link before)) as ->.
    { apply eq_true_iff_eq. rewrite !mem_In. now apply Hseen. }
    destruct (Py.mem (link r) (map link before)) eqn:Hm; simpl.
    + apply IH. intros u Hu. rewrite map_app, in_app_iff, Hseen by exact Hu.
      simpl. apply mem_In in Hm. split; [tauto|].
      intros [H|[<-|[]]]; assumption.
    + f_equal. apply IH. intros u Hu.
      rewrite map_app, in_app_iff. simpl. rewrite Hseen by exact Hu. tauto.
  - simpl. apply IH. intros u Hu. rewrite map_app, in_app_iff, Hseen by exact Hu.
    simpl. split; [tauto|]. intros [H|[He|[]]]; [exact H|].
    subst u. destruct (link r); [congruence | discriminate].
Qed.

(** The sixteen values [relevance] can take. *)
Lemma relevance_sum r : (relevance r == signal_sum service location platform r)%Q.
Proof.
  unfold SearchEngine.relevance, signal_sum, service_in_title,
    location_in_snippet, whatsapp_marker, platform_in_query.
  destruct (Py.contains (Py.lower service) (Py.lower (title r)));
  destruct (Py.contains (Py.lower location) (Py.lower (snippet r)));
  destruct (Py.contains "whatsapp" (Py.lower (snippet r))
            || Py.contains "wa.me" (Py.lower (snippet r)));
  destruct (Py.contains (Py.lower platform) (Py.lower (query_used r)));
  reflexivity.
Qed.

Lemma relevance_clamped r :
  (relevance r
   == Py.round2 (clamp01 (signal_sum service location platform r)))%Q.
Proof.
  unfold SearchEngine.relevance, signal_sum, service_in_title,
    location_in_snippet, whatsapp_marker, platform_in_query.
  destruct (Py.contains (Py.lower service) (Py.lower (title r)));
  destruct (Py.contains (Py.lower location) (Py.lower (snippet r)));
  destruct (Py.contains "whatsapp" (Py.lower (snippet r))
            || Py.contains "wa.me" (Py.lower (snippet r)));
  destruct (Py.contains (Py.lower platform) (Py.lower (query_used r)));
  reflexivity.
Qed.

Lemma signal_sum_bounds r :
  (0 <= signal_sum service location platform r <= 1)%Q.
Proof.
  unfold signal_sum.
  destruct (service_in_title service r);
  destruct (location_in_snippet location r);
  destruct (whatsapp_marker r);
  destruct (platform_in_query platform r);
  split; vm_compute; discriminate.
Qed.

(** What [first_occ] keeps: the hits with a non-empty link that no
    earlier hit carries. *)
Lemma first_occ_In before rs r :
  In r (first_occ before rs) <->
  exists pre post,
    rs = (pre ++ r :: post)%list
    /\ link r <> EmptyString
    /\ ~ In (link r) (map link (before ++ pre)%list).
Proof.
  revert before. induction rs as [|x rest IH]; intros before; simpl.
  - split; [intros [] | intros ([|y pre] & post & H & _); discriminate].
  - rewrite in_app_iff, IH. split.
    + intros [Hx|(pre & post & -> & Hne & Hnot)].
      * destruct (Py.truthy (link x)) eqn:Ht; [|destruct Hx].
        destruct (Py.mem (link x) (map link before)) eqn:Hm; [destruct Hx|].
        destruct Hx as [<-|[]]. exists [], rest.
        rewrite app_nil_r. apply truthy_nonempty in Ht.
        apply mem_false in Hm. auto.
      * exists (x :: pre), post. rewrite <- app_assoc in Hnot. auto.
    + intros ([|y pre] & post & Heq & Hne & Hnot); injection Heq as -> ->.
      * left. rewrite app_nil_r in Hnot.
        apply truthy_nonempty in Hne. apply mem_false in Hnot.
        rewrite Hne, Hnot. now left.
      * right. exists pre, post. rewrite <- app_assoc. auto.
Qed.

Lemma search_vendors_aggregate p :
  search_vendors p service location platform
  = aggregate service location platform
      (raw_results_of p (build_queries service location platform)).
Proof. reflexivity. Qed.

Lemma aggregate_unique raw_results h :
  In h (aggregate service location platform raw_results) <->
  In h (unique_of service location platform raw_results).
Proof.
  unfold aggregate. split; apply Permutation_in;
    [|symmetry]; apply list_sort_perm.
Qed.
End SearchFacts.

Section FloatOrder.
Lemma flt_true a b : Py.flt a b = true <-> (a < b)%Q.
Proof.
  unfold Py.flt. rewrite Qlt_alt.
  destruct (a ?= b)%Q; split; congruence.
Qed.

Lemma flt_false a b : Py.flt a b = false <-> (b <= a)%Q.
Proof.
  rewrite <- not_true_iff_false, flt_true. split.
  - apply Qnot_lt_le.
  - intros H1 H2. lra.
Qed.

Lemma feq_true a b : Py.feq a b = true <-> (a == b)%Q.
Proof. apply Qeq_bool_iff. Qed.

Lemma flt_irrefl a : Py.flt a a = false.
Proof. apply flt_false. lra. Qed.

Lemma flt_trans a b c :
  Py.flt a b = true -> Py.flt b c = true -> Py.flt a c = true.
Proof. rewrite !flt_true. lra. Qed.

Lemma flt_negtrans a b c :
  Py.flt a b = false -> Py.flt b c = false -> Py.flt a c = false.
Proof. rewrite !flt_false. lra. Qed.

Lemma feq_tie_class s : Reference.tie_class Py.flt (fun a => Py.feq a s).
Proof.
  intros a b Ha Hb. apply feq_true in Ha, Hb. apply flt_false. lra.
Qed.
End FloatOrder.

Ltac in_list := vm_compute; repeat (first [left; reflexivity | right]).

(** C4. Every hit returned by [search_vendors] (de-duplication, scoring
    and sort applied to any merged list of raw results) carries a relevance
    score equal to the sum of its four contributions (0.3 service in title,
    0.3 location in snippet, 0.2 WhatsApp marker in snippet, 0.2 platform in
    the query, all tested on lower-cased text), clamped to the unit interval
    and rounded to two decimals; the score lies between 0 and 1, and a hit
    with all four signals scores exactly 1. *)
Theorem C4_relevance_score_sum_clamped_bounded :
  forall (service location platform : string)
         (raw_results : list SearchEngine.RawHit) (h : SearchEngine.Hit),
    In h (SearchEngine.aggregate service location platform raw_results) ->
    let r := SearchEngine.raw h in
    let score := SearchEngine.relevance_score h in
    (score == Py.round2 (Reference.clamp01
                           (Reference.signal_sum service location platform r)))%Q
    /\ (score == Reference.signal_sum service location platform r)%Q
    /\ (0 <= score <= 1)%Q
    /\ (Reference.service_in_title service r = true ->
        Reference.location_in_snippet location r = true ->
        Reference.whatsapp_marker r = true ->
        Reference.platform_in_query platform r = true ->
        (score == 1)%Q).
Proof.
  intros service location platform raw_results h Hin r score.
  apply aggregate_unique in Hin.
  destruct (dedup_loop_scored _ _ _ _ _ _ Hin) as [Hscore _].
  subst score r. rewrite Hscore.
  split; [apply relevance_clamped|].
  split; [apply relevance_sum|].
  split.
  - rewrite relevance_sum. apply signal_sum_bounds.
  - intros H1 H2 H3 H4. rewrite relevance_sum.
    unfold Reference.signal_sum. rewrite H1, H2, H3, H4. reflexivity.
Qed.

Lemma C4_witness_full_hit :
  In Scenario.full_scored
     (SearchEngine.aggregate "cake" "Lagos" "instagram" Scenario.raw_results)
  /\ (SearchEngine.relevance_score Scenario.full_scored == 1)%Q
  /\ (0 <= SearchEngine.relevance_score Scenario.full_scored <= 1)%Q.
Proof.
  assert (Hin : In Scenario.full_scored
                  (SearchEngine.aggregate "cake" "Lagos" "instagram"
                     Scenario.raw_results)) by in_list.
  split; [exact Hin|].
  destruct (C4_relevance_score_sum_clamped_bounded _ _ _ _ _ Hin)
    as (_ & _ & Hb & Hall).
  split; [|exact Hb].
  apply Hall; reflexivity.
Defined.

(** The claim of C6 as worded fails: the returned order is not the order
    of first occurrences.  Of these four raw results the first and the third
    are the first occurrences of the two links, in that order, and the third
    is returned before the first. *)
Lemma C6_counterexample_order_not_first_occurrence :
  map SearchEngine.raw
      (SearchEngine.aggregate "cake" "Lagos" "instagram" Scenario.raw_results)
  <> Reference.first_occurrences Scenario.raw_results.
Proof. vm_compute. discriminate. Qed.

(** C6 (amended). From any list of raw results, de-duplication keeps
    exactly the first occurrence of every non-empty link, in the order of
    those first occurrences, and drops the results with an empty link; the
    returned list holds each such link exactly once and is that list sorted
    by descending relevance score, results with equal scores staying in the
    order of their first occurrences. *)
Theorem C6_first_occurrences_then_stable_sort :
  forall (service location platform : string)
         (raw_results : list SearchEngine.RawHit),
    let unique := SearchEngine.unique_of service location platform raw_results in
    let out := SearchEngine.aggregate service location platform raw_results in
    let link_of := fun h => SearchEngine.link (SearchEngine.raw h) in
    map SearchEngine.raw unique = Reference.first_occurrences raw_results
    /\ NoDup (map link_of out)
    /\ (forall u, In u (map link_of out) <->
                  u <> EmptyString /\ In u (map SearchEngine.link raw_results))
    /\ Permutation out unique
    /\ StronglySorted
         (fun a b => Py.flt (SearchEngine.relevance_score a)
                            (SearchEngine.relevance_score b) = false) out
    /\ (forall s,
          filter (fun h => Py.feq (SearchEngine.relevance_score h) s) out
          = filter (fun h => Py.feq (SearchEngine.relevance_score h) s) unique).
Proof.
  intros service location platform raw_results unique out link_of.
  assert (Hperm : Permutation out unique) by apply list_sort_perm.
  split.
  { apply dedup_loop_first_occ. simpl. tauto. }
  split.
  { apply (Permutation_NoDup (l := map link_of unique)).
    - symmetry. now apply Permutation_map.
    - apply dedup_loop_nodup. }
  split.
  { intros u. transitivity (In u (map link_of unique)).
    - split; apply Permutation_in; [|symmetry]; now apply Permutation_map.
    - unfold unique, SearchEngine.unique_of, link_of.
      rewrite dedup_loop_links. simpl. tauto. }
  split; [exact Hperm|].
  split.
  { apply (list_sort_reverse_sorted SearchEngine.relevance_score Py.flt).
    - apply flt_irrefl.
    - apply flt_trans.
    - apply flt_negtrans. }
  intros s.
  apply (list_sort_stable SearchEngine.relevance_score Py.flt
           (fun a => Py.feq a s) true).
  apply feq_tie_class.
Qed.

(* ------------------------------------------------------------------ *)
(** * Properties of vendor_extractor.py *)
(* ------------------------------------------------------------------ *)

Section ExtractorFacts.
Import VendorExtractor.

Lemma potential_vendor_url_nonempty u :
  is_potential_vendor_url u = true -> u <> EmptyString.
Proof.
  unfold is_potential_vendor_url. destruct u; simpl; congruence.
Qed.

(** The base score reads four fields of the vendor and nothing else. *)
Lemma calculate_confidence_score_fields v :
  calculate_confidence_score v
  = Py.round2
      (Py.min
         (let s := 0%Q in
          let s := if Reference.has_whatsapp v then (s + (3 # 10))%Q else s in
          let s := if Reference.has_instagram v then (s + (2 # 10))%Q else s in
          let s := if Reference.has_resolved v then (s + (3 # 10))%Q else s in
          if Reference.has_enrichment v then (s + (2 # 10))%Q else s)
         1).
Proof.
  unfold calculate_confidence_score, Reference.has_whatsapp,
    Reference.has_instagram, Reference.has_resolved, Reference.has_enrichment.
  destruct (whatsapp (contacts v)), (instagram (social v)),
    (Py.truthy_opt (resolved (location v))), (google_maps (location v));
    reflexivity.
Qed.

(** The reverse-geocoding fallback never changes the record: reading the
    attribute [gmaps] raises on every instance, and the exception is
    swallowed. *)
Lemma enrich_google_maps_location_identity self m :
  enrich_google_maps_location self m = m.
Proof.
  unfold enrich_google_maps_location.
  destruct (Py.truthy_opt (address m)); [reflexivity|].
  destruct (falsy_float (latitude m) || falsy_float (longitude m));
    [reflexivity|].
  destruct (latitude m), (longitude m); reflexivity.
Qed.

(** What a returned candidate looks like: its link passed the URL filter
    and its score is the soft-signal bonus plus the clamped base score of
    its own fields, the bonus being recorded in [evidence]. *)
Lemma extract_vendor_info_candidate web self search_result user_location v :
  extract_vendor_info web self search_result user_location = Candidate v ->
  is_potential_vendor_url (url (identity v)) = true
  /\ url (identity v) = SearchEngine.link search_result
  /\ confidence_score v
     = ((if Reference.has_soft_signal v then (0 + (1 # 10))%Q else 0%Q)
        + calculate_confidence_score v)%Q.
Proof.
  unfold extract_vendor_info.
  destruct (is_job_post _); [discriminate|].
  destruct (is_potential_vendor_url (SearchEngine.link search_result)) eqn:Hurl;
    [|discriminate].
  simpl negb. cbv iota.
  destruct (fetch_page_content web (SearchEngine.link search_result))
    as [html|]; [destruct (Py.truthy html)|]; cbv beta iota zeta.
  all: destruct (infer_location_from_text _ _) as [loc|];
    [destruct (Py.truthy _ && Py.truthy loc)|].
  all: intros H; injection H as <-; simpl.
  all: split; [exact Hurl|]; split; [reflexivity|].
  all: unfold Reference.has_soft_signal; simpl.
  all: destruct (detect_soft_contact_signals _); reflexivity.
Qed.
End ExtractorFacts.

Section ConfidenceFacts.
Import VendorExtractor Reference.

Lemma candidate_score_accumulated web self search_result user_location v :
  extract_vendor_info web self search_result user_location = Candidate v ->
  (confidence_score v
   == accumulated_confidence (has_whatsapp v) (has_instagram v)
        (has_resolved v) (has_enrichment v) (has_soft_signal v))%Q.
Proof.
  intros H. apply extract_vendor_info_candidate in H as (_ & _ & ->).
  rewrite calculate_confidence_score_fields.
  unfold accumulated_confidence, base_sum.
  destruct (has_whatsapp v), (has_instagram v), (has_resolved v),
    (has_enrichment v), (has_soft_signal v); reflexivity.
Qed.

(** The accumulated score agrees with the clamped one except when all
    five signals are present, where it is 1.1 instead of 1. *)
Lemma accumulated_vs_clamped w i r e soft :
  (accumulated_confidence w i r e soft
   == clamped_confidence w i r e soft
      + bonus (w && i && r && e && soft) (1 # 10))%Q.
Proof. destruct w, i, r, e, soft; reflexivity. Qed.

Lemma accumulated_range w i r e soft :
  (0 <= accumulated_confidence w i r e soft <= 11 # 10)%Q.
Proof. destruct w, i, r, e, soft; split; vm_compute; discriminate. Qed.

Lemma clamped_range w i r e soft :
  (0 <= clamped_confidence w i r e soft <= 1)%Q.
Proof. destruct w, i, r, e, soft; split; vm_compute; discriminate. Qed.

(** Every returned candidate scores between 0 and 1.1, and at most 1
    unless all five signals are present. *)
Lemma candidate_score_range web self search_result user_location v :
  extract_vendor_info web self search_result user_location = Candidate v ->
  (0 <= confidence_score v <= 11 # 10)%Q
  /\ (has_whatsapp v && has_instagram v && has_resolved v
      && has_enrichment v && has_soft_signal v = false ->
      (confidence_score v <= 1)%Q).
Proof.
  intros H. apply candidate_score_accumulated in H. rewrite H. split.
  - apply accumulated_range.
  - intros Hnot. rewrite accumulated_vs_clamped, Hnot. simpl bonus.
    rewrite Qplus_0_r. apply clamped_range.
Qed.
End ConfidenceFacts.

(** C1 fails on the code.  For the search result [Scenario.full_hit]
    (WhatsApp number, Instagram handle and two soft-signal phrases in the
    snippet) with a places client that returns the business,
    [extract_vendor_info] returns a candidate whose confidence score is 1.1:
    the soft-signal bonus of 0.1 is added to the base score after the base
    score alone was clamped to 1.0.  The score worded by the specification
    for the same five signals is 1. *)
Theorem C1_confidence_score_exceeds_one :
  VendorExtractor.extract_vendor_info Scenario.offline_web
    Scenario.extractor_with_address Scenario.full_hit "Lagos"
  = VendorExtractor.Candidate Scenario.full_vendor
  /\ (VendorExtractor.confidence_score Scenario.full_vendor == 11 # 10)%Q
  /\ ~ (VendorExtractor.confidence_score Scenario.full_vendor <= 1)%Q
  /\ (Reference.clamped_confidence true true true true true == 1)%Q.
Proof.
  split; [vm_compute; reflexivity|].
  split; [reflexivity|].
  split; [|reflexivity].
  vm_compute. intros H. now apply H.
Qed.

(** C7 fails on the code.  The places client returns the business with
    coordinates and no formatted address, and reverse geocoding of those
    coordinates returns an address; the enrichment record stored under
    [location] still has no address. *)
Theorem C7_reverse_geocoded_address_not_stored :
  VendorExtractor.places Scenario.client_without_address "Cake Palace Lagos"
  = Some [ VendorExtractor.mkPlace None (Some (66 # 10)) (Some (335 # 100))
             (Some (45 # 10)) (Some "place-1") ]
  /\ VendorExtractor.reverse_geocode Scenario.client_without_address
       (66 # 10) (335 # 100)
     = Some [ Some Scenario.allen_avenue ]
  /\ VendorExtractor.extract_vendor_info Scenario.offline_web
       Scenario.extractor_without_address Scenario.full_hit "Lagos"
     = VendorExtractor.Candidate Scenario.vendor_without_address
  /\ VendorExtractor.google_maps
       (VendorExtractor.location Scenario.vendor_without_address)
     = Some Scenario.coordinates_only
  /\ VendorExtractor.address Scenario.coordinates_only = None.
Proof.
  repeat split; vm_compute; reflexivity.
Qed.

(** C9. Every candidate that [extract_vendor_info] returns without the
    discarded mark has a non-empty [identity.url], and its confidence score
    is a function of five facts read off the candidate itself: whether it
    has WhatsApp contacts, Instagram links, a resolved location, an
    enrichment record, and the soft-signal tag in its evidence.  Two
    candidates that agree on these five facts have the same score, whatever
    capabilities and inputs produced them. *)
Theorem C9_candidate_url_nonempty_score_from_own_fields :
  forall (web : VendorExtractor.Web) (self : VendorExtractor.Self)
         (search_result : SearchEngine.RawHit) (user_location : string)
         (v : VendorExtractor.Vendor),
    VendorExtractor.extract_vendor_info web self search_result user_location
    = VendorExtractor.Candidate v ->
    VendorExtractor.url (VendorExtractor.identity v) <> EmptyString
    /\ (VendorExtractor.confidence_score v
        == Reference.accumulated_confidence
             (Reference.has_whatsapp v) (Reference.has_instagram v)
             (Reference.has_resolved v) (Reference.has_enrichment v)
             (Reference.has_soft_signal v))%Q
    /\ (forall web' self' search_result' user_location' v',
          VendorExtractor.extract_vendor_info web' self' search_result'
            user_location' = VendorExtractor.Candidate v' ->
          Reference.has_whatsapp v' = Reference.has_whatsapp v ->
          Reference.has_instagram v' = Reference.has_instagram v ->
          Reference.has_resolved v' = Reference.has_resolved v ->
          Reference.has_enrichment v' = Reference.has_enrichment v ->
          Reference.has_soft_signal v' = Reference.has_soft_signal v ->
          (VendorExtractor.confidence_score v'
           == VendorExtractor.confidence_score v)%Q).
Proof.
  intros web self search_result user_location v H.
  split.
  - apply extract_vendor_info_candidate in H as (Hurl & _).
    now apply potential_vendor_url_nonempty.
  - split; [now apply candidate_score_accumulated with web self search_result user_location|].
    intros web' self' sr' ul' v' H' Hw Hi Hr He Hs.
    rewrite (candidate_score_accumulated _ _ _ _ _ H).
    rewrite (candidate_score_accumulated _ _ _ _ _ H').
    now rewrite Hw, Hi, Hr, He, Hs.
Qed.

Lemma C9_witness_full_vendor :
  VendorExtractor.extract_vendor_info Scenario.offline_web
    Scenario.extractor_with_address Scenario.full_hit "Lagos"
  = VendorExtractor.Candidate Scenario.full_vendor
  /\ VendorExtractor.url (VendorExtractor.identity Scenario.full_vendor)
     <> EmptyString
  /\ (VendorExtractor.confidence_score Scenario.full_vendor
      == Reference.accumulated_confidence true true true true true)%Q.
Proof.
  assert (H : VendorExtractor.extract_vendor_info Scenario.offline_web
                Scenario.extractor_with_address Scenario.full_hit "Lagos"
              = VendorExtractor.Candidate Scenario.full_vendor)
    by (vm_compute; reflexivity).
  split; [exact H|].
  destruct (C9_candidate_url_nonempty_score_from_own_fields _ _ _ _ _ H)
    as (Hurl & Hscore & _).
  split; [exact Hurl | exact Hscore].
Defined.

(* ------------------------------------------------------------------ *)
(** * Properties of llm_reasoner.py and of the ranker *)
(* ------------------------------------------------------------------ *)

Section RankOrder.
Import VendorFinder.

Ltac key_cases :=
  unfold key_lt, Reference.key_eqb, Py.feq;
  repeat match goal with
         | |- context [Qeq_bool ?a ?b] => destruct (Qeq_bool a b) eqn:?
         | |- context [Nat.eqb ?a ?b] => destruct (Nat.eqb_spec a b)
         end;
  simpl; intros;
  repeat match goal with
         | H : Qeq_bool _ _ = true |- _ => apply Qeq_bool_iff in H
         | H : Qeq_bool _ _ = false |- _ => apply Qeq_bool_neq in H
         | H : Py.flt _ _ = true |- _ => apply flt_true in H
         | H : Py.flt _ _ = false |- _ => apply flt_false in H
         | H : (_ <? _)%nat = true |- _ => apply Nat.ltb_lt in H
         | H : (_ <? _)%nat = false |- _ => apply Nat.ltb_ge in H
         end;
  try match goal with
      | |- Py.flt _ _ = true => apply flt_true
      | |- Py.flt _ _ = false => apply flt_false
      | |- (_ <? _)%nat = true => apply Nat.ltb_lt
      | |- (_ <? _)%nat = false => apply Nat.ltb_ge
      end;
  try discriminate; try lia; try lra.

Lemma key_lt_irrefl a : key_lt a a = false.
Proof. destruct a as [[[c w] s] l]. key_cases. Qed.

Lemma key_lt_trans a b c :
  key_lt a b = true -> key_lt b c = true -> key_lt a c = true.
Proof.
  destruct a as [[[c1 w1] s1] l1], b as [[[c2 w2] s2] l2],
    c as [[[c3 w3] s3] l3].
  key_cases.
Qed.

Lemma key_lt_negtrans a b c :
  key_lt a b = false -> key_lt b c = false -> key_lt a c = false.
Proof.
  destruct a as [[[c1 w1] s1] l1], b as [[[c2 w2] s2] l2],
    c as [[[c3 w3] s3] l3].
  key_cases.
Qed.

(** Tuples equal to [k] are not ordered among themselves. *)
Lemma key_eqb_tie_class k : Reference.tie_class key_lt (fun a => Reference.key_eqb a k).
Proof.
  intros a b. destruct a as [[[c1 w1] s1] l1], b as [[[c2 w2] s2] l2],
    k as [[[c3 w3] s3] l3].
  key_cases.
Qed.

(** [key_lt] is the lexicographic order on the four components. *)
Lemma key_lt_lexicographic c1 w1 s1 l1 c2 w2 s2 l2 :
  key_lt (c1, w1, s1, l1) (c2, w2, s2, l2) = true <->
  (c1 < c2)%Q
  \/ ((c1 == c2)%Q
      /\ ((w1 < w2)%nat
          \/ (w1 = w2 /\ ((s1 < s2)%nat \/ (s1 = s2 /\ (l1 < l2)%nat))))).
Proof.
  unfold key_lt, Py.feq.
  destruct (Qeq_bool c1 c2) eqn:Hc;
    [apply Qeq_bool_iff in Hc | apply Qeq_bool_neq in Hc]; simpl.
  - destruct (Nat.eqb_spec w1 w2), (Nat.eqb_spec s1 s2); simpl;
      rewrite Nat.ltb_lt; split; intros H; try lia;
      repeat match goal with
             | H : _ \/ _ |- _ => destruct H
             | H : _ /\ _ |- _ => destruct H
             end; try lia; try lra; right; split; auto; lia.
  - rewrite flt_true. split; [auto|]. intros [H|[H _]]; [exact H | contradiction].
Qed.

Lemma ranking_key_components v :
  let '(c, w, s, l) := ranking_key v in
  c = VendorExtractor.confidence_score v
  /\ w = (if Reference.has_whatsapp v then 1 else 0)%nat
  /\ s = (if Reference.has_instagram v then 1 else 0)%nat
  /\ l = (if Reference.has_enrichment v then 1 else 0)%nat.
Proof.
  unfold ranking_key, Reference.has_whatsapp, Reference.has_instagram,
    Reference.has_enrichment.
  destruct (VendorExtractor.whatsapp _), (VendorExtractor.instagram _),
    (VendorExtractor.google_maps _); repeat split.
Qed.
End RankOrder.

(** C8. [rank_vendors] returns a rearrangement of its input in descending
    order of the key (confidence score, 1 or 0 for WhatsApp contacts, 1 or 0
    for Instagram links, 1 or 0 for an enrichment record), compared
    lexicographically, and it is stable: for every key value, the candidates
    carrying that key appear in the output in the very order they have in
    the input. *)
Theorem C8_rank_vendors_descending_stable :
  forall vendors : list VendorExtractor.Vendor,
    let out := VendorFinder.rank_vendors vendors in
    Permutation out vendors
    /\ StronglySorted
         (fun a b =>
            VendorFinder.key_lt (VendorFinder.ranking_key a)
              (VendorFinder.ranking_key b) = false) out
    /\ (forall k : VendorFinder.RankKey,
          filter (fun v => Reference.key_eqb (VendorFinder.ranking_key v) k) out
          = filter (fun v => Reference.key_eqb (VendorFinder.ranking_key v) k)
              vendors)
    /\ (forall c1 w1 s1 l1 c2 w2 s2 l2,
          VendorFinder.key_lt (c1, w1, s1, l1) (c2, w2, s2, l2) = true <->
          (c1 < c2)%Q
          \/ ((c1 == c2)%Q
              /\ ((w1 < w2)%nat
                  \/ (w1 = w2
                      /\ ((s1 < s2)%nat \/ (s1 = s2 /\ (l1 < l2)%nat))))))
    /\ (forall v,
          VendorFinder.ranking_key v
          = (VendorExtractor.confidence_score v,
             if Reference.has_whatsapp v then 1%nat else 0%nat,
             if Reference.has_instagram v then 1%nat else 0%nat,
             if Reference.has_enrichment v then 1%nat else 0%nat)).
Proof.
  intros vendors out. split; [apply list_sort_perm|].
  split.
  { apply (list_sort_reverse_sorted VendorFinder.ranking_key VendorFinder.key_lt).
    - apply key_lt_irrefl.
    - apply key_lt_trans.
    - apply key_lt_negtrans. }
  split.
  { intros k.
    apply (list_sort_stable VendorFinder.ranking_key VendorFinder.key_lt
             (fun a => Reference.key_eqb a k) true).
    apply key_eqb_tie_class. }
  split; [apply key_lt_lexicographic|].
  intros v. pose proof (ranking_key_components v) as H.
  destruct (VendorFinder.ranking_key v) as [[[c w] s] l].
  destruct H as (-> & -> & -> & ->). reflexivity.
Qed.

(** With three or more candidates [decide_next_search] returns the
    action STOP and sends no chat request, whatever client is configured
    and whatever it would answer; with fewer than three candidates it
    returns STOP as well when no client is configured (again without any
    request) or when the chat request raises. *)
Lemma decide_next_search_stops :
  forall (self : LLMReasoner.Self) (service location platform : string)
         (vendors : list VendorExtractor.Vendor) (w : Effects),
    (3 <= List.length vendors)%nat
    \/ LLMReasoner.client self = None
    \/ (exists c message,
          LLMReasoner.client self = Some c
          /\ LLMReasoner.create c (chats w) = LLMReasoner.ChatRaises message) ->
    fst (LLMReasoner.decide_next_search self service location platform vendors w)
    = Ok (JObj [ ("action", JStr "STOP") ])
    /\ ((3 <= List.length vendors)%nat \/ LLMReasoner.client self = None ->
        snd (LLMReasoner.decide_next_search self service location platform
               vendors w) = w).
Proof.
  intros self service location platform vendors w H.
  unfold LLMReasoner.decide_next_search.
  destruct (Nat.leb_spec 3 (List.length vendors)) as [Hlen|Hlen].
  - split; reflexivity.
  - destruct H as [H|[H|(c & message & Hc & Hraise)]]; [lia | |].
    + rewrite H. split; reflexivity.
    + rewrite Hc. unfold bind, LLMReasoner.chat. rewrite Hraise. simpl.
      split; [reflexivity|]. intros [H|H]; [lia | congruence].
Qed.

Example decide_next_search_guardrail :
  ((3 <= List.length [ Scenario.full_vendor; Scenario.plain_vendor;
                       Scenario.full_vendor ])%nat
   \/ LLMReasoner.client
        (Scenario.reasoner_of
           [ LLMReasoner.ChatContent (Scenario.action_text "EXPAND_LOCATION") ])
      = None
   \/ (exists c message,
         LLMReasoner.client
           (Scenario.reasoner_of
              [ LLMReasoner.ChatContent (Scenario.action_text "EXPAND_LOCATION") ])
         = Some c
         /\ LLMReasoner.create c (chats Scenario.start)
            = LLMReasoner.ChatRaises message))
  /\ LLMReasoner.decide_next_search
       (Scenario.reasoner_of
          [ LLMReasoner.ChatContent (Scenario.action_text "EXPAND_LOCATION") ])
       "cake" "Lagos" "instagram"
       [ Scenario.full_vendor; Scenario.plain_vendor; Scenario.full_vendor ]
       Scenario.start
     = (Ok (JObj [ ("action", JStr "STOP") ]), Scenario.start).
Proof.
  assert (H : (3 <= List.length [ Scenario.full_vendor; Scenario.plain_vendor;
                                  Scenario.full_vendor ])%nat) by (simpl; lia).
  split; [left; exact H|].
  destruct (decide_next_search_stops
              (Scenario.reasoner_of
                 [ LLMReasoner.ChatContent
                     (Scenario.action_text "EXPAND_LOCATION") ])
              "cake" "Lagos" "instagram"
              [ Scenario.full_vendor; Scenario.plain_vendor;
                Scenario.full_vendor ]
              Scenario.start (or_introl H)) as [Hfst Hsnd].
  rewrite (surjective_pairing (LLMReasoner.decide_next_search _ _ _ _ _ _)).
  rewrite Hfst, (Hsnd (or_introl H)). reflexivity.
Qed.

(** A reply the decoder rejects is not a failure for [decide_next_search]:
    with fewer than three candidates and a client whose reply is such a
    text, the decision is the analysis-shaped dictionary of [_safe_json],
    which has no [action]. *)
Lemma decide_next_search_undecodable :
  forall (self : LLMReasoner.Self) (c : LLMReasoner.Client)
         (service location platform content : string)
         (vendors : list VendorExtractor.Vendor) (w : Effects),
    (List.length vendors < 3)%nat ->
    LLMReasoner.client self = Some c ->
    LLMReasoner.create c (chats w) = LLMReasoner.ChatContent content ->
    LLMReasoner.json_loads self content = None ->
    LLMReasoner.decide_next_search self service location platform vendors w
    = (Ok (JObj [ ("explanation", JStr content);
                  ("result_quality", JStr "unknown");
                  ("clarifying_question", JStr "NO_QUESTION") ]),
       mkEffects (S (chats w)) (searches w)).
Proof.
  intros self c service location platform content vendors w Hlen Hc Hreply Hloads.
  unfold LLMReasoner.decide_next_search.
  destruct (Nat.leb_spec 3 (List.length vendors)) as [H|_]; [lia|].
  rewrite Hc. unfold bind, LLMReasoner.chat. rewrite Hreply.
  unfold ret, LLMReasoner._safe_json. now rewrite Hloads.
Qed.

(** C3 fails on the code.  One candidate, the oracle client is configured,
    and the oracle answers the stop-or-continue request with text that is
    not JSON.  The request itself succeeds, so the [except] branch is not
    taken: [decide_next_search] returns what [_safe_json] makes of the
    text, the analysis-shaped dictionary, which is not the action STOP and
    has no [action] at all. *)
Theorem C3_undecodable_reply_is_not_stop :
  LLMReasoner.decide_next_search
    (Scenario.reasoner_of [ LLMReasoner.ChatContent Scenario.prose ])
    "cake" "Lagos" "instagram" [ Scenario.full_vendor ] Scenario.start
  = (Ok (JObj [ ("explanation", JStr Scenario.prose);
                ("result_quality", JStr "unknown");
                ("clarifying_question", JStr "NO_QUESTION") ]),
     mkEffects 1 0)
  /\ fst (LLMReasoner.decide_next_search
            (Scenario.reasoner_of [ LLMReasoner.ChatContent Scenario.prose ])
            "cake" "Lagos" "instagram" [ Scenario.full_vendor ] Scenario.start)
     <> Ok LLMReasoner.STOP
  /\ LLMReasoner.get
       (JObj [ ("explanation", JStr Scenario.prose);
               ("result_quality", JStr "unknown");
               ("clarifying_question", JStr "NO_QUESTION") ]) "action"
     = Ok None.
Proof.
  assert (H : LLMReasoner.decide_next_search
                (Scenario.reasoner_of [ LLMReasoner.ChatContent Scenario.prose ])
                "cake" "Lagos" "instagram" [ Scenario.full_vendor ]
                Scenario.start
              = (Ok (JObj [ ("explanation", JStr Scenario.prose);
                            ("result_quality", JStr "unknown");
                            ("clarifying_question", JStr "NO_QUESTION") ]),
                 mkEffects 1 0)).
  { apply (decide_next_search_undecodable _
             (Scenario.scripted [ LLMReasoner.ChatContent Scenario.prose ]));
      [simpl; lia | reflexivity | reflexivity | vm_compute; reflexivity]. }
  split; [exact H|]. split; [|reflexivity].
  rewrite H. cbn [fst]. unfold LLMReasoner.STOP. discriminate.
Qed.

Section RerankFacts.
Import VendorFinder Reference.

Lemma valid_ids_ints ids n :
  valid_ids (map JInt ids) n = Ok (filter (in_range n) ids).
Proof.
  induction ids as [|i rest IH]; [reflexivity|].
  simpl. rewrite IH. unfold in_range.
  destruct ((0 <=? i)%Z && (i <? Z.of_nat n)%Z); reflexivity.
Qed.

(** Indexing with ids that are all in range cannot raise. *)
Lemma select_in_range {A} (l : list A) ids :
  Forall (fun i => in_range (List.length l) i = true) ids ->
  exists xs, select l ids = Ok xs
             /\ map Some xs = map (fun i => nth_error l (Z.to_nat i)) ids.
Proof.
  induction 1 as [|i rest Hi Hrest (xs & Hxs & Hmap)].
  - exists []. split; reflexivity.
  - unfold in_range in Hi. apply andb_true_iff in Hi as [H0 Hn].
    apply Z.leb_le in H0. apply Z.ltb_lt in Hn.
    simpl. unfold index.
    destruct (Z.ltb_spec i 0) as [Hneg|_]; [lia|].
    destruct (Z.ltb_spec i 0) as [Hneg|_]; [lia|].
    destruct (nth_error l (Z.to_nat i)) as [x|] eqn:Hnth.
    + rewrite Hxs. exists (x :: xs). split; [reflexivity|].
      simpl. now rewrite Hmap.
    + apply nth_error_None in Hnth. lia.
Qed.

Lemma filter_in_range n ids :
  Forall (fun i => in_range n i = true) (filter (in_range n) ids).
Proof.
  apply Forall_forall. intros i Hi. now apply filter_In in Hi.
Qed.
End RerankFacts.

(** In the re-rank step, when the oracle's answer is an object whose
    [ordered_vendor_ids] is a list of integers (or is missing), the step
    succeeds; the ids outside [0, n) are dropped, the remaining ids, in
    their order, select the new list of candidates, and when no id remains
    the ranked list is kept as it is. *)
Lemma apply_rerank_integer_ids :
  forall (ranked : list VendorExtractor.Vendor)
         (fields : list (string * json)) (found : option (list Z))
         (log : list json),
    Json.lookup fields "ordered_vendor_ids"
    = option_map (fun ids => JArr (map JInt ids)) found ->
    let ids := match found with Some ids => ids | None => [] end in
    let valid :=
      filter (fun i => (0 <=? i)%Z && (i <? Z.of_nat (List.length ranked))%Z)
        ids in
    exists new_order log',
      VendorFinder.apply_rerank ranked (JObj fields) log = Ok (new_order, log')
      /\ (valid = [] -> new_order = ranked)
      /\ (valid <> [] ->
          map Some new_order
          = map (fun i => nth_error ranked (Z.to_nat i)) valid).
Proof.
  intros ranked fields found log Hfound ids valid.
  unfold VendorFinder.apply_rerank, LLMReasoner.get. rewrite Hfound.
  assert (Hiter :
            VendorFinder.iterate
              (match option_map (fun ids => JArr (map JInt ids)) found with
               | Some v => v
               | None => JArr []
               end) = Ok (map JInt ids)).
  { subst ids. destruct found; reflexivity. }
  rewrite Hiter, valid_ids_ints.
  change (filter (Reference.in_range (List.length ranked)) ids) with valid.
  destruct valid as [|i rest] eqn:Hvalid.
  - destruct (Json.lookup fields "reasoning") as [r|];
      [destruct (Json.truthy r)|]; eexists _, _;
      (split; [reflexivity|]); (split; [reflexivity | congruence]).
  - destruct (select_in_range ranked (i :: rest)) as (xs & Hsel & Hmap).
    { rewrite <- Hvalid. apply filter_in_range. }
    rewrite Hsel.
    destruct (Json.lookup fields "reasoning") as [r|];
      [destruct (Json.truthy r)|]; eexists _, _;
      (split; [reflexivity|]); (split; [discriminate | intros _; exact Hmap]).
Qed.

Example apply_rerank_ids_5_0 :
  Json.lookup [ ("ordered_vendor_ids", JArr [ JInt 5; JInt 0 ]) ]
    "ordered_vendor_ids"
  = option_map (fun ids => JArr (map JInt ids)) (Some [ 5%Z; 0%Z ])
  /\ exists log',
       VendorFinder.apply_rerank
         [ Scenario.full_vendor; Scenario.plain_vendor ]
         (JObj [ ("ordered_vendor_ids", JArr [ JInt 5; JInt 0 ]) ]) []
       = Ok ([ Scenario.full_vendor ], log').
Proof.
  assert (H : Json.lookup [ ("ordered_vendor_ids", JArr [ JInt 5; JInt 0 ]) ]
                "ordered_vendor_ids"
              = option_map (fun ids => JArr (map JInt ids)) (Some [ 5%Z; 0%Z ]))
    by reflexivity.
  split; [exact H|].
  destruct (apply_rerank_integer_ids
              [ Scenario.full_vendor; Scenario.plain_vendor ] _ _ [] H)
    as (new_order & log' & Hrun & _ & Hsel).
  exists log'. rewrite Hrun.
  assert (Hmap : map Some new_order = [ Some Scenario.full_vendor ])
    by (apply Hsel; discriminate).
  destruct new_order as [|x [|y t]]; try discriminate.
  injection Hmap as ->. reflexivity.
Qed.

(** The scenario of the specification end to end: two candidates, the
    oracle answers the re-rank request with the ids 5 and 0, and the run
    returns the first candidate alone. *)
Example rerank_5_0_end_to_end :
  exists analysis reasoning,
    VendorFinder.find_vendors Scenario.rerank_5_0 "cake" "Lagos" "instagram" 10
      (3 # 10) Scenario.start
    = (Ok (Some (VendorFinder.mkAgentResult [ Scenario.full_vendor ]
                   analysis reasoning)),
       mkEffects 5 1).
Proof. eexists _, _. vm_compute. reflexivity. Qed.

(** C5 fails on the code.  Two candidates, the oracle accepts both, and
    its answer to the re-rank request decodes but is not an object holding
    a list of integers.  With the ids as strings the comparison
    [0 <= i] raises [TypeError]; with [null] for the ids the iteration
    raises [TypeError]; with the bare list the lookup [rerank.get] raises
    [AttributeError].  In each case [find_vendors] raises after one search
    round and three chat requests: no id is dropped and the prior order is
    not kept. *)
Theorem C5_ill_typed_ids_raise :
  VendorFinder.find_vendors (Sample.reranked_with Sample.string_ids_text)
    "cake" "Lagos" "instagram" 10 (3 # 10) Scenario.start
  = (Raise TypeError, mkEffects 3 1)
  /\ VendorFinder.find_vendors (Sample.reranked_with Sample.null_ids_text)
       "cake" "Lagos" "instagram" 10 (3 # 10) Scenario.start
     = (Raise TypeError, mkEffects 3 1)
  /\ VendorFinder.find_vendors (Sample.reranked_with Sample.bare_list_text)
       "cake" "Lagos" "instagram" 10 (3 # 10) Scenario.start
     = (Raise (AttributeError "get"), mkEffects 3 1).
Proof. repeat split; vm_compute; reflexivity. Qed.

(* ------------------------------------------------------------------ *)
(** * Properties of the agent loop *)
(* ------------------------------------------------------------------ *)

Section MonadFacts.
Import Reference.

Lemma quiet_ret {A} (a : A) (P : A -> Prop) : P a -> quiet (ret a) P.
Proof. intros Ha w. split; [reflexivity|]. simpl. now intros ? [= <-]. Qed.

Lemma quiet_lift {A} (o : outcome A) (P : A -> Prop) :
  (forall a, o = Ok a -> P a) -> quiet (lift o) P.
Proof. intros Ho w. split; [reflexivity | exact Ho]. Qed.

Lemma quiet_bind {A B} (m : M A) (k : A -> M B) (Q : A -> Prop) (P : B -> Prop) :
  quiet m Q -> (forall a, Q a -> quiet (k a) P) -> quiet (bind m k) P.
Proof.
  intros Hm Hk w. unfold bind. destruct (Hm w) as [Hs Hq].
  destruct (m w) as [[a|e] w1]; simpl in *.
  - destruct (Hk a (Hq a eq_refl) w1) as [Hs' Hp]. split; [congruence | exact Hp].
  - split; [exact Hs | discriminate].
Qed.

Lemma quiet_any {A} (m : M A) (P : A -> Prop) :
  quiet m P -> quiet m (fun _ => True).
Proof. intros Hm w. split; [apply Hm | trivial]. Qed.

Lemma quiet_chat c : quiet (LLMReasoner.chat c) (fun _ => True).
Proof. intros w. split; [reflexivity | trivial]. Qed.

Lemma quiet_chat_then {A} c (k : LLMReasoner.ChatReply -> M A) :
  (forall reply, quiet (k reply) (fun _ => True)) ->
  quiet (bind (LLMReasoner.chat c) k) (fun _ => True).
Proof. intros Hk. apply quiet_bind with (Q := fun _ => True); [apply quiet_chat | auto]. Qed.

Lemma quiet_is_actual_vendor self service vendor :
  quiet (LLMReasoner.is_actual_vendor self service vendor) (fun _ => True).
Proof.
  unfold LLMReasoner.is_actual_vendor.
  destruct (LLMReasoner.client self) as [c|]; [|now apply quiet_ret].
  apply quiet_chat_then. intros [content|message]; [|now apply quiet_ret].
  destruct (LLMReasoner.get _ _) as [[v|]|e]; now apply quiet_ret.
Qed.

Lemma quiet_rerank_vendors self service vendors :
  quiet (LLMReasoner.rerank_vendors self service vendors) (fun _ => True).
Proof.
  unfold LLMReasoner.rerank_vendors.
  destruct (LLMReasoner.client self) as [c|]; [|now apply quiet_ret].
  destruct (List.length vendors <? 2)%nat; [now apply quiet_ret|].
  apply quiet_chat_then. intros [content|message]; now apply quiet_ret.
Qed.

Lemma quiet_analyze_results self service location vendors :
  quiet (LLMReasoner.analyze_results self service location vendors)
    (fun _ => True).
Proof.
  unfold LLMReasoner.analyze_results.
  destruct (LLMReasoner.client self) as [c|], vendors as [|v vs];
    try now apply quiet_ret.
  apply quiet_chat_then. intros [content|message]; now apply quiet_ret.
Qed.

Lemma quiet_decide_next_search self service location platform vendors :
  quiet (LLMReasoner.decide_next_search self service location platform vendors)
    (fun _ => True).
Proof.
  unfold LLMReasoner.decide_next_search.
  destruct (3 <=? List.length vendors)%nat; [now apply quiet_ret|].
  destruct (LLMReasoner.client self) as [c|]; [|now apply quiet_ret].
  apply quiet_chat_then. intros [content|message]; now apply quiet_ret.
Qed.
End MonadFacts.

Section LoopFacts.
Import VendorFinder Reference.
Variable self : Self.
Variable service : string.
Variable max_results : nat.
Variable service_type : string.
Variable effective_min_confidence : Q.

Abbreviation extraction_loop :=
  (extraction_loop self service max_results effective_min_confidence).
Abbreviation round :=
  (round self service max_results service_type effective_min_confidence).
Abbreviation attempts :=
  (attempts self service max_results service_type effective_min_confidence).

Lemma quiet_extraction_loop location results enriched :
  quiet (extraction_loop location results enriched) (fun _ => True).
Proof.
  revert enriched. induction results as [|result rest IH]; intros enriched;
    simpl; [now apply quiet_ret|].
  destruct (VendorExtractor.extract_vendor_info _ _ _ _) as [score reason|vendor];
    [apply IH|].
  destruct (Py.flt _ _); [apply IH|].
  apply quiet_bind with (Q := fun _ => True);
    [apply quiet_is_actual_vendor|].
  intros ok _. destruct (negb ok); [apply IH|].
  destruct (max_results <=? _)%nat; [now apply quiet_ret | apply IH].
Qed.

Lemma apply_decision_attempt action st :
  attempt (apply_decision service_type action st) = attempt st.
Proof.
  unfold apply_decision.
  destruct (Json.eq_str action "EXPAND_LOCATION"); [reflexivity|].
  destruct (Json.eq_str action "TRY_ANOTHER_PLATFORM"); [reflexivity|].
  destruct (Json.eq_str action "RELAX_CONFIDENCE"); reflexivity.
Qed.

Lemma bind_run_search {B} location platform
      (k : list SearchEngine.Hit -> M B) w :
  bind (run_search self service location platform) k w
  = k (SearchEngine.search_vendors (search_engine self) service location
         platform)
      (mkEffects (chats w) (S (searches w))).
Proof. reflexivity. Qed.

(** One iteration issues exactly one search round, and when it does not
    return it has counted one more attempt. *)
Lemma round_spec st w :
  searches (snd (round st w)) = S (searches w)
  /\ forall s, fst (round st w) = Ok s -> advances st s.
Proof.
  unfold VendorFinder.round. rewrite bind_run_search. cbv beta.
  match goal with
  | |- searches (snd (?m ?w1)) = _ /\ _ =>
      assert (Hq : quiet m (advances st)); [|exact (Hq w1)]
  end.
  { destruct (SearchEngine.search_vendors _ _ _ _) as [|hit hits];
      [now apply quiet_ret|].
    apply quiet_bind with (Q := fun _ => True);
      [apply quiet_extraction_loop|].
    intros [|v vs] _; [now apply quiet_ret|].
    apply quiet_bind with (Q := fun _ => True).
    { destruct (1 <? _)%nat; [|now apply quiet_ret].
      apply quiet_bind with (Q := fun _ => True);
        [apply quiet_rerank_vendors|].
      intros rerank _. now apply quiet_lift. }
    intros [ranked reasoning] _.
    apply quiet_bind with (Q := fun _ => True);
      [apply quiet_analyze_results|].
    intros analysis _.
    apply quiet_bind with (Q := fun _ => True);
      [apply quiet_decide_next_search|].
    intros decision _.
    apply quiet_bind with (Q := fun _ => True); [now apply quiet_lift|].
    intros action _.
    destruct (Json.opt_eq_str action "STOP"); [now apply quiet_ret|].
    apply quiet_bind with (Q := fun _ => True); [now apply quiet_lift|].
    intros action' _. apply quiet_ret. simpl. apply apply_decision_attempt. }
Qed.

(** The loop never runs out of fuel when given as many unfoldings as
    there are attempts left, and it issues at most that many search
    rounds, whether it returns or raises. *)
Lemma attempts_O st :
  attempts 0 st
  = if (attempt st <? max_attempts)%nat then ret None
    else ret (Some (fallback st)).
Proof. reflexivity. Qed.

Lemma attempts_S fuel st :
  attempts (S fuel) st
  = if (attempt st <? max_attempts)%nat then
      bind (round st)
        (fun step =>
           match step with
           | Return result => ret (Some result)
           | Break st => ret (Some (fallback st))
           | Continue st => attempts fuel st
           end)
    else ret (Some (fallback st)).
Proof. reflexivity. Qed.

Lemma attempts_bounded fuel st w :
  (max_attempts - attempt st <= fuel)%nat ->
  fst (attempts fuel st w) <> Ok None
  /\ (searches (snd (attempts fuel st w))
      <= searches w + (max_attempts - attempt st))%nat.
Proof.
  revert st w. induction fuel as [|fuel IH]; intros st w Hfuel.
  - rewrite attempts_O.
    destruct (Nat.ltb_spec (attempt st) max_attempts) as [Hlt|Hge]; [lia|].
    unfold ret. cbn [fst snd]. split; [discriminate | lia].
  - rewrite attempts_S.
    destruct (Nat.ltb_spec (attempt st) max_attempts) as [Hlt|Hge];
      [|unfold ret; cbn [fst snd]; split; [discriminate | lia]].
    unfold bind. destruct (round_spec st w) as [Hs Hadv].
    destruct (round st w) as [[step|e] w1]; cbn [fst snd] in *;
      [|split; [discriminate | lia]].
    specialize (Hadv step eq_refl).
    destruct step as [result|st'|st']; unfold advances in Hadv;
      unfold ret; cbn [fst snd];
      try (split; [discriminate | lia]).
    destruct (IH st' w1) as [Hnone Hle]; [lia|].
    split; [exact Hnone | lia].
Qed.

(** More fuel than attempts left changes nothing. *)
Lemma attempts_fuel_irrelevant fuel st w :
  (max_attempts - attempt st <= fuel)%nat ->
  attempts fuel st w = attempts (max_attempts - attempt st) st w.
Proof.
  revert st w. induction fuel as [|fuel IH]; intros st w Hfuel.
  - replace (max_attempts - attempt st)%nat with 0%nat by lia. reflexivity.
  - destruct (Nat.ltb_spec (attempt st) max_attempts) as [Hlt|Hge].
    + destruct (max_attempts - attempt st)%nat as [|left] eqn:Hleft; [lia|].
      rewrite !attempts_S.
      destruct (attempt st <? max_attempts)%nat; [|reflexivity].
      unfold bind. destruct (round_spec st w) as [_ Hadv].
      destruct (round st w) as [[step|e] w1]; [|reflexivity].
      specialize (Hadv step eq_refl).
      destruct step as [result|st'|st']; try reflexivity.
      unfold advances in Hadv. rewrite IH by lia.
      replace (max_attempts - attempt st')%nat with left by lia. reflexivity.
    + replace (max_attempts - attempt st)%nat with 0%nat by lia.
      rewrite attempts_S, attempts_O.
      destruct (Nat.ltb_spec (attempt st) max_attempts); [lia|reflexivity].
Qed.

(** ** The threshold variable is never read *)

Lemma same_but_threshold_fields a b :
  same_but_threshold a b ->
  attempt a = attempt b
  /\ current_platform a = current_platform b
  /\ current_location a = current_location b
  /\ final_reasoning a = final_reasoning b
  /\ ranked_vendors a = ranked_vendors b.
Proof.
  unfold same_but_threshold, with_threshold. intros H.
  injection H as -> -> -> -> ->. repeat split.
Qed.

Lemma same_but_threshold_intro a b :
  attempt a = attempt b ->
  current_platform a = current_platform b ->
  current_location a = current_location b ->
  final_reasoning a = final_reasoning b ->
  ranked_vendors a = ranked_vendors b ->
  same_but_threshold a b.
Proof.
  unfold same_but_threshold, with_threshold. now intros -> -> -> -> ->.
Qed.

Lemma apply_decision_same action a b :
  same_but_threshold a b ->
  same_but_threshold (apply_decision service_type action a)
    (apply_decision service_type action b).
Proof.
  intros H. apply same_but_threshold_fields in H as (H1 & H2 & H3 & H4 & H5).
  destruct a, b. simpl in *. subst.
  unfold apply_decision. simpl.
  destruct (Json.eq_str action "EXPAND_LOCATION");
    [|destruct (Json.eq_str action "TRY_ANOTHER_PLATFORM");
      [|destruct (Json.eq_str action "RELAX_CONFIDENCE")]];
    apply same_but_threshold_intro; reflexivity.
Qed.

Lemma bind_same {A} (m : M A) (k1 k2 : A -> M Step) w :
  (forall a w', run_same (k1 a w') (k2 a w')) ->
  run_same (bind m k1 w) (bind m k2 w).
Proof.
  intros Hk. unfold bind. destruct (m w) as [[a|e] w'];
    [apply Hk | split; reflexivity].
Qed.

(** Two iterations started from states that differ in the threshold
    variable only do the same and end the same way. *)
Lemma round_same a b w :
  same_but_threshold a b -> run_same (round a w) (round b w).
Proof.
  intros H. apply same_but_threshold_fields in H as (H1 & H2 & H3 & H4 & H5).
  unfold VendorFinder.round. rewrite H1, H2, H3, H4, H5.
  apply bind_same. intros results w1.
  destruct results as [|hit hits].
  { split; [reflexivity|]. simpl. now apply same_but_threshold_intro. }
  apply bind_same. intros enriched w2.
  destruct enriched as [|v vs].
  { split; [reflexivity|]. simpl. now apply same_but_threshold_intro. }
  apply bind_same. intros [ranked reasoning] w3.
  apply bind_same. intros analysis w4.
  apply bind_same. intros decision w5.
  apply bind_same. intros action w6.
  destruct (Json.opt_eq_str action "STOP").
  { split; reflexivity. }
  apply bind_same. intros action' w7.
  split; [reflexivity|]. simpl.
  apply apply_decision_same. now apply same_but_threshold_intro.
Qed.

Lemma attempts_same fuel a b w :
  same_but_threshold a b -> attempts fuel a w = attempts fuel b w.
Proof.
  revert a b w. induction fuel as [|fuel IH]; intros a b w H;
    pose proof (same_but_threshold_fields _ _ H) as (H1 & H2 & H3 & H4 & H5).
  - rewrite !attempts_O, H1.
    destruct (attempt b <? max_attempts)%nat; [reflexivity|].
    unfold fallback. now rewrite H4, H5.
  - rewrite !attempts_S, H1.
    destruct (attempt b <? max_attempts)%nat;
      [|unfold fallback; now rewrite H4, H5].
    unfold bind. destruct (round_same a b w H) as [Hw Hstep].
    destruct (round a w) as [[s1|e1] w1], (round b w) as [[s2|e2] w2];
      cbn [fst snd] in Hw, Hstep; subst; try contradiction; [|reflexivity].
    destruct s1 as [r1|a1|a1], s2 as [r2|b2|b2]; unfold step_same in Hstep;
      try contradiction.
    + now subst.
    + apply same_but_threshold_fields in Hstep as (_ & _ & _ & E4 & E5).
      unfold fallback. now rewrite E4, E5.
    + now apply IH.
Qed.

(** ** The deterministic path *)

Lemma returns_ret {A} (a : A) (P : A -> Prop) : P a -> returns (ret a) P.
Proof. intros Ha w. now exists a, w. Qed.

Lemma returns_bind {A B} (m : M A) (k : A -> M B) (Q : A -> Prop)
      (P : B -> Prop) :
  returns m Q -> (forall a, Q a -> returns (k a) P) -> returns (bind m k) P.
Proof.
  intros Hm Hk w. unfold bind. destruct (Hm w) as (a & w1 & -> & Ha).
  exact (Hk a Ha w1).
Qed.

Lemma returns_chat_then {A} c (k : LLMReasoner.ChatReply -> M A) P :
  (forall reply, returns (k reply) P) ->
  returns (bind (LLMReasoner.chat c) k) P.
Proof.
  intros Hk. apply returns_bind with (Q := fun _ => True); [|auto].
  intros w. now eexists _, _.
Qed.

(** The adapter's vendor check never raises. *)
Lemma returns_is_actual_vendor vendor :
  returns (LLMReasoner.is_actual_vendor (reasoner self) service vendor)
    (fun _ => True).
Proof.
  unfold LLMReasoner.is_actual_vendor.
  destruct (LLMReasoner.client (reasoner self)) as [c|];
    [|now apply returns_ret].
  apply returns_chat_then. intros [content|message]; [|now apply returns_ret].
  destruct (LLMReasoner.get _ _) as [[v|]|e]; now apply returns_ret.
Qed.

Lemma returns_extraction_loop location results enriched :
  returns (extraction_loop location results enriched) (fun _ => True).
Proof.
  revert enriched. induction results as [|result rest IH]; intros enriched;
    simpl; [now apply returns_ret|].
  destruct (VendorExtractor.extract_vendor_info _ _ _ _) as [score reason|vendor];
    [apply IH|].
  destruct (Py.flt _ _); [apply IH|].
  apply returns_bind with (Q := fun _ => True);
    [apply returns_is_actual_vendor|].
  intros ok _. destruct (negb ok); [apply IH|].
  destruct (max_results <=? _)%nat; [now apply returns_ret | apply IH].
Qed.

Lemma returns_analyze_results location vendors :
  returns (LLMReasoner.analyze_results (reasoner self) service location vendors)
    (fun _ => True).
Proof.
  unfold LLMReasoner.analyze_results.
  destruct (LLMReasoner.client (reasoner self)) as [c|], vendors as [|v vs];
    try now apply returns_ret.
  apply returns_chat_then. intros [content|message]; now apply returns_ret.
Qed.

Lemma range_ids_in_range n :
  filter (in_range n) (map Z.of_nat (seq 0 n)) = map Z.of_nat (seq 0 n).
Proof.
  apply forallb_filter_id. apply forallb_forall. intros i Hi.
  apply in_map_iff in Hi as (k & <- & Hk). apply in_seq in Hk.
  unfold in_range. apply andb_true_iff. split;
    [apply Z.leb_le | apply Z.ltb_lt]; lia.
Qed.

(** The identity order the adapter answers without a client is accepted
    by the re-rank step. *)
Lemma apply_rerank_identity_order ranked reasoning log :
  exists r,
    apply_rerank ranked
      (JObj [ ("ordered_vendor_ids", LLMReasoner.range_ids (List.length ranked));
              ("reasoning", JStr reasoning) ]) log = Ok r.
Proof.
  unfold apply_rerank, LLMReasoner.range_ids. simpl LLMReasoner.get.
  cbv iota beta. simpl iterate. cbv iota beta.
  rewrite <- map_map with (f := Z.of_nat) (g := JInt).
  rewrite valid_ids_ints, range_ids_in_range.
  destruct (select_in_range ranked (map Z.of_nat (seq 0 (List.length ranked))))
    as (xs & Hsel & _).
  { rewrite <- range_ids_in_range. apply filter_in_range. }
  destruct (map Z.of_nat (seq 0 (List.length ranked))) as [|i ids] eqn:Hids.
  - simpl. destruct reasoning; eexists; reflexivity.
  - rewrite Hsel. simpl. destruct reasoning; eexists; reflexivity.
Qed.

(** Without an oracle client an iteration never raises and never asks
    for another attempt. *)
Lemma round_without_oracle st :
  LLMReasoner.client (reasoner self) = None ->
  returns (round st)
    (fun s => match s with Continue _ => False | _ => True end).
Proof.
  intros Hclient w. unfold VendorFinder.round. rewrite bind_run_search.
  cbv beta.
  match goal with
  | |- exists a w', ?m ?w1 = _ /\ _ =>
      cut (returns m (fun s => match s with Continue _ => False | _ => True end));
      [intros Hr; exact (Hr w1)|]
  end.
  destruct (SearchEngine.search_vendors _ _ _ _) as [|hit hits];
    [now apply returns_ret|].
  apply returns_bind with (Q := fun _ => True);
    [apply returns_extraction_loop|].
  intros [|v vs] _; [now apply returns_ret|].
  apply returns_bind with (Q := fun _ => True).
  { destruct (1 <? _)%nat; [|now apply returns_ret].
    unfold LLMReasoner.rerank_vendors. rewrite Hclient.
    intros w2. unfold bind, ret, lift.
    destruct (apply_rerank_identity_order
                (rank_vendors (v :: vs)) "Deterministic ranking retained."
                (final_reasoning st)) as (r & Hr).
    cbn [final_reasoning]. rewrite Hr. now eexists _, _. }
  intros [ranked reasoning] _.
  apply returns_bind with (Q := fun _ => True);
    [apply returns_analyze_results|].
  intros analysis _.
  apply returns_bind with (Q := fun d => d = LLMReasoner.STOP).
  { unfold LLMReasoner.decide_next_search. rewrite Hclient.
    destruct (3 <=? _)%nat; now apply returns_ret. }
  intros decision ->. now apply returns_ret.
Qed.

(** Without an oracle client the loop returns a result. *)
Lemma attempts_without_oracle fuel st :
  LLMReasoner.client (reasoner self) = None ->
  returns (attempts (S fuel) st) (fun r => r <> None).
Proof.
  intros Hclient. rewrite attempts_S.
  destruct (attempt st <? max_attempts)%nat;
    [|now apply returns_ret].
  apply returns_bind
    with (Q := fun s => match s with Continue _ => False | _ => True end);
    [now apply round_without_oracle|].
  intros [result|st'|st'] Hs; [now apply returns_ret.. | destruct Hs].
Qed.
End LoopFacts.

(** X21. [find_vendors] unfolds the loop [max_attempts] times; that is enough
    for every collaborator and every oracle: the model never runs out of
    fuel, more fuel changes nothing, and at most [max_attempts] search
    rounds are issued, whether the call returns or raises. *)
Lemma find_vendors_bounded :
  forall (fuel : nat) (self : VendorFinder.Self)
         (service location platform : string) (max_results : nat)
         (min_confidence : Q) (w : Effects),
    (VendorFinder.max_attempts <= fuel)%nat ->
    let run :=
      VendorFinder.find_vendors_fuel fuel self service location platform
        max_results min_confidence w in
    run = VendorFinder.find_vendors self service location platform max_results
            min_confidence w
    /\ fst run <> Ok None
    /\ (searches (snd run) <= searches w + VendorFinder.max_attempts)%nat.
Proof.
  intros fuel self service location platform max_results min_confidence w Hfuel.
  unfold VendorFinder.find_vendors, VendorFinder.find_vendors_fuel.
  cbv zeta. split.
  - rewrite attempts_fuel_irrelevant by exact Hfuel. reflexivity.
  - match goal with
    | |- context [VendorFinder.attempts ?a ?b ?c ?d ?e fuel ?st w] =>
        destruct (attempts_bounded a b c d e fuel st w) as [Hnone Hle];
        [exact Hfuel|]
    end.
    split; [exact Hnone|]. etransitivity; [exact Hle|].
    cbn [VendorFinder.attempt]. lia.
Qed.

(** When no oracle client is configured [find_vendors] returns a result:
    every advisory step takes its deterministic fallback. *)
Lemma find_vendors_without_oracle_returns :
  forall (self : VendorFinder.Self) (service location platform : string)
         (max_results : nat) (min_confidence : Q) (w : Effects),
    LLMReasoner.client (VendorFinder.reasoner self) = None ->
    exists result w',
      VendorFinder.find_vendors self service location platform max_results
        min_confidence w = (Ok (Some result), w').
Proof.
  intros self service location platform max_results min_confidence w Hclient.
  unfold VendorFinder.find_vendors, VendorFinder.find_vendors_fuel.
  cbv zeta. change VendorFinder.max_attempts with 2%nat at 1.
  match goal with
  | |- context [VendorFinder.attempts ?a ?b ?c ?d ?e 2 ?st w] =>
      destruct (attempts_without_oracle a b c d e 1 st Hclient w)
        as ([result|] & w' & Hrun & Hsome); [|congruence]
  end.
  exists result, w'. exact Hrun.
Qed.

(** With an oracle that never answers STOP the run ends after two rounds
    with the fallback result. *)
Example never_stop_falls_back :
  VendorFinder.find_vendors Scenario.never_stop "cake" "Lagos" "instagram" 10
    (3 # 10) Scenario.start
  = (Ok (Some
           (VendorFinder.fallback
              (VendorFinder.mkState 2 "instagram" "Lagos nearby" (2 # 10)
                 [ JStr "Expanded search location.";
                   JStr "Relaxed confidence threshold." ]
                 [ Scenario.full_vendor ]))),
     mkEffects 6 2).
Proof. vm_compute. reflexivity. Qed.

(** C2 fails on the code.  One candidate survives filtering, the oracle
    client is configured, and the oracle answers the stop-or-continue
    request with text that is not JSON.  [_safe_json] turns that text into
    an analysis-shaped dictionary without an [action] key, the comparison of
    [decision.get] with STOP is false, and [decision[...]] raises
    [KeyError]: [find_vendors] does not return, after one search round and
    three chat requests. *)
Theorem C2_prose_decision_raises_key_error :
  VendorFinder.find_vendors Scenario.prose_decision "cake" "Lagos" "instagram"
    10 (3 # 10) Scenario.start
  = (Raise (KeyError "action"), mkEffects 3 1).
Proof. vm_compute. reflexivity. Qed.

(** C10. The loop never reads [current_min_confidence]: from any state,
    running the attempts that are left gives the same outcome and the same
    effects whatever value that variable holds.  A RELAX_CONFIDENCE decision
    does lower the variable, yet the rest of the run is the one obtained by
    only adding the note to the reasoning log; the threshold of the
    confidence gate stays the [effective_min_confidence] fixed before the
    first attempt. *)
Theorem C10_relax_confidence_never_reaches_the_gate :
  forall (self : VendorFinder.Self) (service : string) (max_results : nat)
         (service_type : string) (effective_min_confidence : Q)
         (fuel : nat) (st : VendorFinder.RefinementState) (w : Effects),
    let run :=
      VendorFinder.attempts self service max_results service_type
        effective_min_confidence fuel in
    (forall q : Q, run (Reference.with_threshold st q) w = run st w)
    /\ run (VendorFinder.apply_decision service_type (JStr "RELAX_CONFIDENCE") st) w
       = run (Reference.with_note st "Relaxed confidence threshold.") w
    /\ VendorFinder.apply_decision service_type (JStr "RELAX_CONFIDENCE") st
       = Reference.with_threshold
           (Reference.with_note st "Relaxed confidence threshold.")
           (Py.max (1 # 10) (VendorFinder.current_min_confidence st - (1 # 10))%Q)
    /\ (forall location platform min_confidence,
          VendorFinder.find_vendors_fuel fuel self service location platform
            max_results min_confidence
          = VendorFinder.attempts self service max_results
              (VendorFinder.classify_service service)
              (if String.eqb (VendorFinder.classify_service service) "trade"
               then (2 # 10)%Q else min_confidence)
              fuel
              (VendorFinder.mkState 0 platform location min_confidence [] [])).
Proof.
  intros self service max_results service_type effective_min_confidence fuel
    st w run.
  split.
  { intros q. apply attempts_same.
    apply same_but_threshold_intro; reflexivity. }
  split.
  { apply attempts_same. apply same_but_threshold_intro; reflexivity. }
  split; [reflexivity|].
  intros location platform min_confidence.
  unfold VendorFinder.find_vendors_fuel. cbv zeta.
  destruct (String.eqb (VendorFinder.classify_service service) "trade");
    [reflexivity|].
  destruct (String.eqb (VendorFinder.classify_service service) "visual");
    reflexivity.
Qed.

(** X22. For a trade service the caller's [min_confidence] has no influence at
    all: the gate uses 0.2 and the threshold variable is never read. *)
Corollary trade_service_ignores_min_confidence :
  forall (self : VendorFinder.Self) (service location platform : string)
         (max_results : nat) (q1 q2 : Q) (w : Effects),
    VendorFinder.classify_service service = "trade" ->
    VendorFinder.find_vendors self service location platform max_results q1 w
    = VendorFinder.find_vendors self service location platform max_results q2 w.
Proof.
  intros self service location platform max_results q1 q2 w Htrade.
  unfold VendorFinder.find_vendors, VendorFinder.find_vendors_fuel.
  cbv zeta. rewrite Htrade. simpl String.eqb. cbv iota.
  apply attempts_same. apply same_but_threshold_intro; reflexivity.
Qed.

(* ------------------------------------------------------------------ *)
(** * Facts about the string built-ins *)
(* ------------------------------------------------------------------ *)

Section StringFacts.
Import Invariant.

Lemma append_assoc_string (a b c : string) : (a ++ b) ++ c = a ++ (b ++ c).
Proof. induction a as [|x a IH]; simpl; [reflexivity | now rewrite IH]. Qed.

Lemma lower_app a b : Py.lower (a ++ b) = Py.lower a ++ Py.lower b.
Proof. induction a as [|x a IH]; simpl; [reflexivity | now rewrite IH]. Qed.

Lemma prefix_empty a : prefix EmptyString a = true.
Proof. destruct a; reflexivity. Qed.

Lemma prefix_app n a b : prefix n a = true -> prefix n (a ++ b) = true.
Proof.
  revert n. induction a as [|y a IH]; intros n; simpl.
  - destruct n; [intros _; apply prefix_empty | discriminate].
  - destruct n as [|x n]; [reflexivity|].
    destruct (ascii_dec x y); [apply IH | discriminate].
Qed.

Lemma contains_app_l n a b :
  Py.contains n a = true -> Py.contains n (a ++ b) = true.
Proof.
  induction a as [|y a IH].
  - simpl. destruct n; [intros _ | discriminate].
    destruct b; reflexivity.
  - change (Py.contains n (String y a))
      with (if prefix n (String y a) then true else Py.contains n a).
    change (Py.contains n (String y a ++ b))
      with (if prefix n (String y a ++ b) then true
            else Py.contains n (a ++ b)).
    destruct (prefix n (String y a)) eqn:Hp.
    + intros _. now rewrite (prefix_app _ _ b Hp).
    + intros H. rewrite (IH H). now destruct (prefix n (String y a ++ b)).
Qed.

Lemma ends_nonspace_app a b :
  ends_nonspace b = true -> ends_nonspace (a ++ b) = true.
Proof.
  intros Hb. induction a as [|x a IH]; [exact Hb|].
  simpl. destruct (a ++ b) eqn:Hab; [|exact IH].
  simpl in IH. discriminate.
Qed.

Lemma rstrip_ends_nonspace s : ends_nonspace s = true -> Py.rstrip s = s.
Proof.
  induction s as [|c t IH]; [reflexivity|].
  simpl. destruct t as [|d t'].
  - simpl. intros H. now destruct (Py.is_space c).
  - intros H. rewrite (IH H). reflexivity.
Qed.

Lemma set_list_In x l : In x (Py.set_list l) <-> In x l.
Proof.
  induction l as [|y l IH]; simpl; [tauto|].
  destruct (Py.mem y l) eqn:Hm.
  - apply mem_In in Hm. rewrite IH. split; [auto|].
    intros [<-|H]; assumption.
  - simpl. rewrite IH. tauto.
Qed.

Lemma set_list_NoDup l : NoDup (Py.set_list l).
Proof.
  induction l as [|y l IH]; simpl; [constructor|].
  destruct (Py.mem y l) eqn:Hm; [exact IH|].
  constructor; [|exact IH]. rewrite set_list_In. now apply mem_false.
Qed.
End StringFacts.

(* ------------------------------------------------------------------ *)
(** * Further properties of search_engine.py *)
(* ------------------------------------------------------------------ *)

Section QueryFacts.
Import SearchEngine Invariant.

Lemma site_of_cases platform :
  In (site_of platform)
     [ EmptyString; "site:instagram.com"; "site:twitter.com";
       "site:facebook.com"; "site:tiktok.com" ].
Proof.
  unfold site_of, site_map, dict_get.
  repeat match goal with
         | |- context [String.eqb ?a ?b] => destruct (String.eqb a b)
         end; simpl; auto 10.
Qed.

Lemma phrasings_shape service location body :
  In body (phrasings service location) ->
  exists rest,
    body = String (ascii_of_nat 34) rest /\ ends_nonspace body = true.
Proof.
  unfold phrasings.
  intros [<-|[<-|[<-|[<-|[]]]]]; eexists; (split; [reflexivity|]);
    repeat match goal with
           | |- ends_nonspace (_ ++ _) = true => apply ends_nonspace_app
           end; reflexivity.
Qed.

Lemma strip_lead c t :
  Py.is_space c = false -> Py.lstrip (String c t) = String c t.
Proof. intros H. simpl. now rewrite H. Qed.

(** Stripping a query removes the lone leading space of an unrestricted
    query and nothing else. *)
Lemma strip_query platform service location body :
  In body (phrasings service location) ->
  Py.strip (site_of platform ++ " " ++ body)
  = (if Py.truthy (site_of platform) then site_of platform ++ " " ++ body
     else body)
  /\ Py.truthy (Py.strip (site_of platform ++ " " ++ body)) = true.
Proof.
  intros Hbody.
  destruct (phrasings_shape _ _ _ Hbody) as (rest & Hrest & Hends).
  assert (Hstrip : Py.strip body = body).
  { unfold Py.strip. rewrite Hrest at 1. rewrite strip_lead.
    - rewrite <- Hrest. now apply rstrip_ends_nonspace.
    - reflexivity. }
  pose proof (site_of_cases platform) as Hsite.
  simpl in Hsite.
  destruct Hsite as [<-|[<-|[<-|[<-|[<-|[]]]]]]; simpl Py.truthy; cbv iota.
  - change (Py.strip (EmptyString ++ " " ++ body)) with (Py.strip body).
    rewrite Hstrip. split; [reflexivity|].
    change (Py.strip (String " " body)) with (Py.strip body).
    rewrite Hstrip, Hrest. reflexivity.
  - unfold Py.strip. simpl Py.lstrip.
    rewrite rstrip_ends_nonspace; [split; reflexivity|].
    apply (ends_nonspace_app "site:instagram.com ") in Hends. exact Hends.
  - unfold Py.strip. simpl Py.lstrip.
    rewrite rstrip_ends_nonspace; [split; reflexivity|].
    apply (ends_nonspace_app "site:twitter.com ") in Hends. exact Hends.
  - unfold Py.strip. simpl Py.lstrip.
    rewrite rstrip_ends_nonspace; [split; reflexivity|].
    apply (ends_nonspace_app "site:facebook.com ") in Hends. exact Hends.
  - unfold Py.strip. simpl Py.lstrip.
    rewrite rstrip_ends_nonspace; [split; reflexivity|].
    apply (ends_nonspace_app "site:tiktok.com ") in Hends. exact Hends.
Qed.
End QueryFacts.

Section QueryShape.
Import SearchEngine Invariant.

Lemma strip_filter_queries platform service location bodies :
  incl bodies (phrasings service location) ->
  map Py.strip
    (filter (fun s => Py.truthy (Py.strip s))
       (map (fun body => site_of platform ++ " " ++ body) bodies))
  = map (fun body =>
           if Py.truthy (site_of platform)
           then site_of platform ++ " " ++ body else body) bodies.
Proof.
  induction bodies as [|body rest IH]; intros Hincl; [reflexivity|].
  destruct (strip_query platform service location body) as [Hs Ht];
    [apply Hincl; now left|].
  cbn [map filter]. rewrite Ht. cbn [map]. rewrite Hs, IH; [reflexivity|].
  intros b Hb. apply Hincl. now right.
Qed.
End QueryShape.

Lemma build_queries_form service location platform :
  SearchEngine.build_queries service location platform
  = map (fun body =>
           if Py.truthy (Invariant.site_of platform)
           then Invariant.site_of platform ++ " " ++ body else body)
        (Invariant.phrasings service location).
Proof.
  apply (strip_filter_queries platform service location
           (Invariant.phrasings service location)).
  apply incl_refl.
Qed.

(** X1. [build_queries] always returns exactly four queries: the four
    phrasings, each behind the site token and one space when the platform
    is known, and bare when it is not.  The [strip] and the filter on empty
    queries never drop a query; they only remove the leading space of an
    unrestricted query. *)
Theorem build_queries_closed_form :
  forall service location platform : string,
    SearchEngine.build_queries service location platform
    = map (fun body =>
             if Py.truthy (Invariant.site_of platform)
             then Invariant.site_of platform ++ " " ++ body else body)
          (Invariant.phrasings service location)
    /\ List.length (SearchEngine.build_queries service location platform) = 4%nat.
Proof.
  intros service location platform.
  split; [apply build_queries_form|].
  rewrite build_queries_form. reflexivity.
Qed.

Section Provenance.
Import SearchEngine Invariant.

Lemma raw_results_provenance p queries r :
  In r (raw_results_of p queries) ->
  In (source r) [ "google"; "bing" ] /\ In (query_used r) queries.
Proof.
  unfold raw_results_of. intros H. apply in_flat_map in H as (q & Hq & Hr).
  apply in_app_or in Hr as [Hr|Hr]; unfold search_google, search_bing in Hr;
    apply in_map_iff in Hr as (item & <- & _); simpl; auto.
Qed.

Lemma named_site platform :
  In (Py.lower platform) named_in_site ->
  Py.truthy (site_of platform) = true
  /\ Py.contains (Py.lower platform) (Py.lower (site_of platform ++ " ")) = true.
Proof.
  unfold site_of. intros [<-|[<-|[<-|[<-|[]]]]]; split; reflexivity.
Qed.
End Provenance.

Lemma hit_provenance p service location platform h :
  In h (SearchEngine.search_vendors p service location platform) ->
  In (SearchEngine.source (SearchEngine.raw h)) [ "google"; "bing" ]
  /\ In (SearchEngine.query_used (SearchEngine.raw h))
        (SearchEngine.build_queries service location platform)
  /\ SearchEngine.link (SearchEngine.raw h) <> EmptyString
  /\ SearchEngine.relevance_score h
     = SearchEngine.relevance service location platform (SearchEngine.raw h).
Proof.
  intros Hin.
  unfold SearchEngine.search_vendors in Hin. cbv zeta in Hin.
  apply aggregate_unique in Hin.
  assert (Hlink : In (SearchEngine.link (SearchEngine.raw h))
                     (map (fun x => SearchEngine.link (SearchEngine.raw x))
                        (SearchEngine.unique_of service location platform
                           (SearchEngine.raw_results_of p
                              (SearchEngine.build_queries service location
                                 platform))))).
  { exact (in_map (fun x => SearchEngine.link (SearchEngine.raw x)) _ _ Hin). }
  destruct (dedup_loop_scored _ _ _ _ _ _ Hin) as [Hscore Hraw].
  destruct (raw_results_provenance _ _ _ Hraw) as [Hs Hq].
  split; [exact Hs|]. split; [exact Hq|].
  unfold SearchEngine.unique_of in Hlink.
  apply dedup_loop_links in Hlink. tauto.
Qed.

(** X2. Every hit [search_vendors] returns was produced by one of the
    two providers for one of the queries of [build_queries]: its [source] is
    google or bing, its [query_used] is one of the four queries, and its link
    is not empty. *)
Theorem search_vendors_provenance :
  forall (p : SearchEngine.Providers) (service location platform : string)
         (h : SearchEngine.Hit),
    In h (SearchEngine.search_vendors p service location platform) ->
    In (SearchEngine.source (SearchEngine.raw h)) [ "google"; "bing" ]
    /\ In (SearchEngine.query_used (SearchEngine.raw h))
          (SearchEngine.build_queries service location platform)
    /\ SearchEngine.link (SearchEngine.raw h) <> EmptyString.
Proof.
  intros p service location platform h Hin.
  destruct (hit_provenance _ _ _ _ _ Hin) as (Hs & Hq & Hl & _). auto.
Qed.

Lemma search_vendors_provenance_witness :
  In Sample.first_result
     (SearchEngine.search_vendors (Scenario.providers_of [ Scenario.full_hit ])
        "cake" "Lagos" "instagram")
  /\ In (SearchEngine.source (SearchEngine.raw Sample.first_result))
        [ "google"; "bing" ]
  /\ In (SearchEngine.query_used (SearchEngine.raw Sample.first_result))
        (SearchEngine.build_queries "cake" "Lagos" "instagram")
  /\ SearchEngine.link (SearchEngine.raw Sample.first_result) <> EmptyString.
Proof.
  assert (H : In Sample.first_result
                (SearchEngine.search_vendors
                   (Scenario.providers_of [ Scenario.full_hit ])
                   "cake" "Lagos" "instagram")) by in_list.
  split; [exact H|].
  exact (search_vendors_provenance _ _ _ _ _ H).
Defined.

(** X3. For the platforms instagram, twitter, facebook and tiktok (in any
    letter case) the platform signal is present on every hit
    [search_vendors] returns, because the platform name occurs in the site
    token of every query: every such hit scores at least 0.2. *)
Theorem search_vendors_platform_signal_constant :
  forall (p : SearchEngine.Providers) (service location platform : string)
         (h : SearchEngine.Hit),
    In (Py.lower platform) Invariant.named_in_site ->
    In h (SearchEngine.search_vendors p service location platform) ->
    Reference.platform_in_query platform (SearchEngine.raw h) = true
    /\ (2 # 10 <= SearchEngine.relevance_score h)%Q.
Proof.
  intros p service location platform h Hnamed Hin.
  destruct (hit_provenance _ _ _ _ _ Hin) as (_ & Hq & _ & Hscore).
  destruct (named_site platform Hnamed) as [Htruthy Hcontains].
  assert (Hsignal : Reference.platform_in_query platform (SearchEngine.raw h)
                    = true).
  { rewrite build_queries_form in Hq.
    apply in_map_iff in Hq as (body & Hbody & _).
    rewrite Htruthy in Hbody. unfold Reference.platform_in_query.
    rewrite <- Hbody.
    replace (Invariant.site_of platform ++ " " ++ body)
      with ((Invariant.site_of platform ++ " ") ++ body)
      by apply append_assoc_string.
    rewrite lower_app. now apply contains_app_l. }
  split; [exact Hsignal|].
  rewrite Hscore, relevance_sum. unfold Reference.signal_sum.
  rewrite Hsignal.
  destruct (Reference.service_in_title service (SearchEngine.raw h)),
    (Reference.location_in_snippet location (SearchEngine.raw h)),
    (Reference.whatsapp_marker (SearchEngine.raw h));
    vm_compute; discriminate.
Qed.

Lemma search_vendors_platform_signal_witness :
  In (Py.lower "Instagram") Invariant.named_in_site
  /\ In Sample.first_result
        (SearchEngine.search_vendors (Scenario.providers_of [ Scenario.full_hit ])
           "cake" "Lagos" "Instagram")
  /\ Reference.platform_in_query "Instagram"
       (SearchEngine.raw Sample.first_result) = true
  /\ (2 # 10 <= SearchEngine.relevance_score Sample.first_result)%Q.
Proof.
  assert (H1 : In (Py.lower "Instagram") Invariant.named_in_site)
    by (vm_compute; auto).
  assert (H2 : In Sample.first_result
                 (SearchEngine.search_vendors
                    (Scenario.providers_of [ Scenario.full_hit ])
                    "cake" "Lagos" "Instagram")) by in_list.
  split; [exact H1|]. split; [exact H2|].
  exact (search_vendors_platform_signal_constant _ _ _ _ _ H1 H2).
Defined.

(* ------------------------------------------------------------------ *)
(** * Further properties of vendor_extractor.py *)
(* ------------------------------------------------------------------ *)

Section ContactFacts.
Import VendorExtractor Invariant.

Lemma clean_number_digits s : digits_or_plus (clean_number s) = true.
Proof.
  induction s as [|c t IH]; [reflexivity|].
  simpl. destruct (Py.is_digit c || Ascii.eqb c "+"%char) eqn:Hc; [|exact IH].
  simpl. now rewrite Hc, IH.
Qed.

Lemma whatsapp_numbers_shaped web text n :
  In n (extract_whatsapp_numbers web text) -> number_shaped n.
Proof.
  unfold extract_whatsapp_numbers. rewrite set_list_In.
  intros H. apply in_flat_map in H as (pattern & _ & H).
  apply in_flat_map in H as (m & _ & H).
  destruct (Nat.leb_spec 10 (String.length (clean_number m))) as [Hlen|Hlen];
    [|destruct H].
  destruct H as [<-|[]]. split; [exact Hlen | apply clean_number_digits].
Qed.

Lemma instagram_links_shaped web text l :
  In l (extract_instagram_links web text) -> link_shaped l.
Proof.
  unfold extract_instagram_links, link_shaped. rewrite set_list_In.
  intros H. apply in_flat_map in H as (pattern & _ & H).
  apply in_map_iff in H as (m & <- & _).
  destruct (prefix "@" m); [reflexivity|].
  destruct (prefix "http" m) eqn:Hp; [exact Hp | reflexivity].
Qed.

Lemma infer_location_nonempty text fallback l :
  infer_location_from_text text fallback = Some l -> l <> EmptyString.
Proof.
  unfold infer_location_from_text.
  destruct (find _ common_locations) as [loc|] eqn:Hfind.
  - apply find_some in Hfind as [Hin _]. intros [= <-].
    unfold common_locations in Hin. simpl in Hin.
    repeat (destruct Hin as [<-|Hin]; [discriminate|]). destruct Hin.
  - destruct (Py.truthy fallback) eqn:Ht; [|discriminate].
    intros [= <-]. now apply truthy_nonempty.
Qed.
End ContactFacts.

(** X4. Whatever the regular-expression engine finds,
    [extract_whatsapp_numbers] returns a list without duplicates in which
    every number has at least ten characters, all of them digits or plus
    signs. *)
Theorem extract_whatsapp_numbers_shape :
  forall (web : VendorExtractor.Web) (text : string),
    NoDup (VendorExtractor.extract_whatsapp_numbers web text)
    /\ Forall Invariant.number_shaped
         (VendorExtractor.extract_whatsapp_numbers web text).
Proof.
  intros web text. split.
  - apply set_list_NoDup.
  - apply Forall_forall. intros n. apply whatsapp_numbers_shaped.
Qed.

(** X5. Whatever the regular-expression engine finds,
    [extract_instagram_links] returns a list without duplicates in which
    every link starts with http: a handle becomes a profile address and a
    bare domain gets the scheme put in front. *)
Theorem extract_instagram_links_shape :
  forall (web : VendorExtractor.Web) (text : string),
    NoDup (VendorExtractor.extract_instagram_links web text)
    /\ Forall Invariant.link_shaped
         (VendorExtractor.extract_instagram_links web text).
Proof.
  intros web text. split.
  - apply set_list_NoDup.
  - apply Forall_forall. intros l. apply instagram_links_shaped.
Qed.

(** The element [find] answers with is the first one that passes the
    test. *)
Lemma find_first {A} (f : A -> bool) (l : list A) (x : A) :
  find f l = Some x ->
  exists before after,
    l = (before ++ x :: after)%list
    /\ forallb (fun y => negb (f y)) before = true
    /\ f x = true.
Proof.
  induction l as [|y rest IH]; [discriminate|]. simpl.
  destruct (f y) eqn:Hy.
  - intros [= <-]. exists [], rest. now repeat split.
  - intros Hfind. destruct (IH Hfind) as (before & after & -> & Hnone & Hx).
    exists (y :: before), after. simpl. rewrite Hy. now repeat split.
Qed.

(** X6. [infer_location_from_text] answers with a non-empty name or with
    nothing: the title-cased first gazetteer entry that occurs in the
    lower-cased text (no entry listed before it occurs), else the fallback
    when it is not empty; it answers nothing exactly when no entry occurs
    and the fallback is empty. *)
Theorem infer_location_from_text_cases :
  forall text fallback : string,
    match VendorExtractor.infer_location_from_text text fallback with
    | Some l =>
        l <> EmptyString
        /\ ((exists before loc after,
               VendorExtractor.common_locations
               = (before ++ loc :: after)%list
               /\ forallb (fun e => negb (Py.contains e (Py.lower text)))
                    before = true
               /\ Py.contains loc (Py.lower text) = true
               /\ l = Py.title loc)
            \/ (l = fallback
                /\ forallb (fun loc => negb (Py.contains loc (Py.lower text)))
                     VendorExtractor.common_locations = true))
    | None =>
        fallback = EmptyString
        /\ forallb (fun loc => negb (Py.contains loc (Py.lower text)))
             VendorExtractor.common_locations = true
    end.
Proof.
  intros text fallback.
  pose proof (infer_location_nonempty text fallback) as Hne.
  unfold VendorExtractor.infer_location_from_text in *.
  destruct (find _ VendorExtractor.common_locations) as [loc|] eqn:Hfind.
  - split; [now apply Hne|]. left.
    destruct (find_first _ _ _ Hfind) as (before & after & Hsplit & Hnone & Hc).
    now exists before, loc, after.
  - assert (Hnone : forallb (fun loc => negb (Py.contains loc (Py.lower text)))
                      VendorExtractor.common_locations = true).
    { apply forallb_forall. intros loc Hin.
      now rewrite (find_none _ _ Hfind loc Hin). }
    destruct (Py.truthy fallback) eqn:Ht.
    + split; [now apply Hne|]. right. now split.
    + split; [|exact Hnone]. destruct fallback; [reflexivity | discriminate].
Qed.

Section CandidateFacts.
Import VendorExtractor Invariant.

(** The anatomy of a returned candidate. *)
Lemma candidate_anatomy web self search_result user_location v :
  extract_vendor_info web self search_result user_location = Candidate v ->
  url (identity v) = SearchEngine.link search_result
  /\ source (identity v) = SearchEngine.source search_result
  /\ NoDup (whatsapp (contacts v))
  /\ (forall n, In n (whatsapp (contacts v)) ->
                exists text, In n (extract_whatsapp_numbers web text))
  /\ NoDup (instagram (social v))
  /\ (forall l, In l (instagram (social v)) ->
                exists text, In l (extract_instagram_links web text))
  /\ (exists text fallback,
        VendorExtractor.text (location v)
        = infer_location_from_text text fallback)
  /\ resolved (location v)
     = (if Py.truthy (name (identity v))
           && Py.truthy_opt (VendorExtractor.text (location v))
        then VendorExtractor.text (location v) else None)
  /\ google_maps (location v)
     = match resolved (location v) with
       | Some l => enrich_with_google_maps self (name (identity v)) l
       | None => None
       end
  /\ evidence v
     = (if Reference.has_soft_signal v then [ "soft_contact_signal" ] else []).
Proof.
  unfold extract_vendor_info.
  destruct (is_job_post _); [discriminate|].
  destruct (is_potential_vendor_url (SearchEngine.link search_result));
    [|discriminate].
  simpl negb. cbv iota.
  destruct (fetch_page_content web (SearchEngine.link search_result))
    as [html|]; [destruct (Py.truthy html)|]; cbv beta iota zeta.
  all: destruct (infer_location_from_text _ _) as [loc|] eqn:Hinfer;
    [pose proof (infer_location_nonempty _ _ _ Hinfer) as Hne;
     apply truthy_nonempty in Hne;
     destruct (Py.truthy _ && Py.truthy loc) eqn:Hboth|].
  all: intros H; injection H as <-; cbn [identity contacts social location
    url source name whatsapp instagram text resolved google_maps evidence].
  all: repeat match goal with
         | |- _ /\ _ => split
         end.
  all: try reflexivity.
  all: try apply set_list_NoDup.
  all: try (eexists _, _; symmetry; exact Hinfer).
  all: try (unfold Reference.has_soft_signal; cbn [evidence];
            destruct (detect_soft_contact_signals _); reflexivity).
  all: try (cbn [Py.truthy_opt]; rewrite ?Hboth, ?andb_false_r; reflexivity).
  all: try (destruct (enrich_with_google_maps _ _ _);
            [rewrite enrich_google_maps_location_identity|]; reflexivity).
  all: intros x Hx; rewrite set_list_In in Hx.
  all: first
         [ apply in_app_or in Hx; destruct Hx as [Hx|Hx];
           [ eexists; exact Hx
           | first [ apply filter_In in Hx as [Hx _]; eexists; exact Hx
                   | eexists; exact Hx ] ]
         | eexists; exact Hx ].
Qed.
End CandidateFacts.

Section DiscardFacts.
Import VendorExtractor Invariant.

Lemma extract_vendor_info_passes web self search_result user_location :
  is_job_post (filter_text search_result) = false ->
  is_potential_vendor_url (SearchEngine.link search_result) = true ->
  exists v,
    extract_vendor_info web self search_result user_location = Candidate v.
Proof.
  unfold extract_vendor_info, filter_text. intros -> ->.
  simpl negb. cbv iota.
  destruct (fetch_page_content web (SearchEngine.link search_result))
    as [html|]; [destruct (Py.truthy html)|]; cbv beta iota zeta.
  all: destruct (infer_location_from_text _ _) as [loc|];
    [destruct (Py.truthy _ && Py.truthy loc)|].
  all: eexists; reflexivity.
Qed.
End DiscardFacts.

(** X7. Whether [extract_vendor_info] discards a search result depends
    on its title, snippet and link only, never on the page, the places
    client or the location: a job post is discarded with the reason
    [job_post_detected] whatever its link is, any other result with a link
    that fails the URL filter is discarded without a reason, both with score
    0, and every other result yields a candidate. *)
Theorem extract_vendor_info_discards :
  forall (web : VendorExtractor.Web) (self : VendorExtractor.Self)
         (search_result : SearchEngine.RawHit) (user_location : string),
    match
      VendorExtractor.extract_vendor_info web self search_result user_location
    with
    | VendorExtractor.Discarded score reason =>
        score = 0%Q
        /\ ((VendorExtractor.is_job_post (Invariant.filter_text search_result)
             = true
             /\ reason = Some "job_post_detected")
            \/ (VendorExtractor.is_job_post (Invariant.filter_text search_result)
                = false
                /\ VendorExtractor.is_potential_vendor_url
                     (SearchEngine.link search_result) = false
                /\ reason = None))
    | VendorExtractor.Candidate v =>
        VendorExtractor.is_job_post (Invariant.filter_text search_result) = false
        /\ VendorExtractor.is_potential_vendor_url
             (SearchEngine.link search_result) = true
    end.
Proof.
  intros web self search_result user_location.
  destruct (VendorExtractor.is_job_post (Invariant.filter_text search_result))
    eqn:Hjob.
  - unfold VendorExtractor.extract_vendor_info.
    unfold Invariant.filter_text in Hjob. rewrite Hjob. auto.
  - destruct (VendorExtractor.is_potential_vendor_url
                (SearchEngine.link search_result)) eqn:Hurl.
    + destruct (extract_vendor_info_passes web self search_result user_location
                  Hjob Hurl) as (v & ->). auto.
    + unfold VendorExtractor.extract_vendor_info.
      unfold Invariant.filter_text in Hjob. rewrite Hjob, Hurl. simpl. auto.
Qed.

(** X8. The contacts of every returned candidate are clean: its WhatsApp
    numbers are pairwise distinct, at least ten characters long and made of
    digits and plus signs, and its Instagram links are pairwise distinct and
    start with http, whether they came from the snippet or from the page. *)
Theorem candidate_contacts_clean :
  forall (web : VendorExtractor.Web) (self : VendorExtractor.Self)
         (search_result : SearchEngine.RawHit) (user_location : string)
         (v : VendorExtractor.Vendor),
    VendorExtractor.extract_vendor_info web self search_result user_location
    = VendorExtractor.Candidate v ->
    NoDup (VendorExtractor.whatsapp (VendorExtractor.contacts v))
    /\ Forall Invariant.number_shaped
         (VendorExtractor.whatsapp (VendorExtractor.contacts v))
    /\ NoDup (VendorExtractor.instagram (VendorExtractor.social v))
    /\ Forall Invariant.link_shaped
         (VendorExtractor.instagram (VendorExtractor.social v)).
Proof.
  intros web self search_result user_location v H.
  destruct (candidate_anatomy _ _ _ _ _ H)
    as (_ & _ & Hw & Hwin & Hi & Hiin & _).
  split; [exact Hw|]. split.
  { apply Forall_forall. intros n Hn. destruct (Hwin n Hn) as (text & Ht).
    now apply whatsapp_numbers_shaped with web text. }
  split; [exact Hi|].
  apply Forall_forall. intros l Hl. destruct (Hiin l Hl) as (text & Ht).
  now apply instagram_links_shaped with web text.
Qed.

Lemma candidate_contacts_clean_witness :
  VendorExtractor.extract_vendor_info Scenario.offline_web
    Scenario.extractor_with_address Scenario.full_hit "Lagos"
  = VendorExtractor.Candidate Scenario.full_vendor
  /\ NoDup (VendorExtractor.whatsapp
              (VendorExtractor.contacts Scenario.full_vendor))
  /\ Forall Invariant.number_shaped
       (VendorExtractor.whatsapp (VendorExtractor.contacts Scenario.full_vendor))
  /\ NoDup (VendorExtractor.instagram
              (VendorExtractor.social Scenario.full_vendor))
  /\ Forall Invariant.link_shaped
       (VendorExtractor.instagram (VendorExtractor.social Scenario.full_vendor)).
Proof.
  assert (H : VendorExtractor.extract_vendor_info Scenario.offline_web
                Scenario.extractor_with_address Scenario.full_hit "Lagos"
              = VendorExtractor.Candidate Scenario.full_vendor)
    by (vm_compute; reflexivity).
  split; [exact H|].
  exact (candidate_contacts_clean _ _ _ _ _ H).
Defined.

(** X9. The location of every returned candidate is consistent: the
    inferred text is never the empty string; [resolved] repeats the text
    when the candidate has a name and a text and is unset otherwise; an
    enrichment record is present only together with a resolved location and
    a configured places client, and it always names google_maps as its
    source.  The identity carries the link and the provider of the search
    result. *)
Theorem candidate_location_consistent :
  forall (web : VendorExtractor.Web) (self : VendorExtractor.Self)
         (search_result : SearchEngine.RawHit) (user_location : string)
         (v : VendorExtractor.Vendor),
    VendorExtractor.extract_vendor_info web self search_result user_location
    = VendorExtractor.Candidate v ->
    let loc := VendorExtractor.location v in
    VendorExtractor.text loc <> Some EmptyString
    /\ VendorExtractor.resolved loc
       = (if Py.truthy (VendorExtractor.name (VendorExtractor.identity v))
             && Py.truthy_opt (VendorExtractor.text loc)
          then VendorExtractor.text loc else None)
    /\ match VendorExtractor.google_maps loc with
       | Some m =>
           VendorExtractor.resolved loc <> None
           /\ VendorExtractor.gmaps_client self <> None
           /\ VendorExtractor.maps_source m = "google_maps"
       | None => True
       end
    /\ VendorExtractor.url (VendorExtractor.identity v)
       = SearchEngine.link search_result
    /\ VendorExtractor.source (VendorExtractor.identity v)
       = SearchEngine.source search_result.
Proof.
  intros web self search_result user_location v H loc. subst loc.
  destruct (candidate_anatomy _ _ _ _ _ H)
    as (Hurl & Hsrc & _ & _ & _ & _ & (text & fb & Htext) & Hres & Hmaps & _).
  split.
  { rewrite Htext. intros Hempty.
    now apply (infer_location_nonempty _ _ _ Hempty). }
  split; [exact Hres|].
  split; [|split; assumption].
  rewrite Hmaps.
  destruct (VendorExtractor.resolved (VendorExtractor.location v)) as [l|];
    [|exact I].
  unfold VendorExtractor.enrich_with_google_maps.
  destruct (VendorExtractor.gmaps_client self) as [client|]; [|exact I].
  destruct (negb _); [exact I|].
  destruct (VendorExtractor.places client _) as [[|place places]|]; try exact I.
  repeat split; discriminate.
Qed.

Lemma candidate_location_consistent_witness :
  VendorExtractor.extract_vendor_info Scenario.offline_web
    Scenario.extractor_with_address Scenario.full_hit "Lagos"
  = VendorExtractor.Candidate Scenario.full_vendor
  /\ VendorExtractor.resolved (VendorExtractor.location Scenario.full_vendor)
     = Some "Lagos"
  /\ VendorExtractor.url (VendorExtractor.identity Scenario.full_vendor)
     = SearchEngine.link Scenario.full_hit.
Proof.
  assert (H : VendorExtractor.extract_vendor_info Scenario.offline_web
                Scenario.extractor_with_address Scenario.full_hit "Lagos"
              = VendorExtractor.Candidate Scenario.full_vendor)
    by (vm_compute; reflexivity).
  split; [exact H|].
  destruct (candidate_location_consistent _ _ _ _ _ H)
    as (_ & Hres & _ & Hurl & _).
  split; [rewrite Hres; reflexivity | exact Hurl].
Defined.

(** X10. The confidence score of every returned candidate lies between 0
    and 1.1, and it is at most 1 unless the candidate has all four base
    signals together with the soft-signal tag. *)
Theorem candidate_confidence_range :
  forall (web : VendorExtractor.Web) (self : VendorExtractor.Self)
         (search_result : SearchEngine.RawHit) (user_location : string)
         (v : VendorExtractor.Vendor),
    VendorExtractor.extract_vendor_info web self search_result user_location
    = VendorExtractor.Candidate v ->
    (0 <= VendorExtractor.confidence_score v <= 11 # 10)%Q
    /\ (if Reference.has_whatsapp v && Reference.has_instagram v
           && Reference.has_resolved v && Reference.has_enrichment v
           && Reference.has_soft_signal v
        then (VendorExtractor.confidence_score v == 11 # 10)%Q
        else (VendorExtractor.confidence_score v <= 1)%Q).
Proof.
  intros web self search_result user_location v H.
  pose proof (candidate_score_accumulated _ _ _ _ _ H) as Hacc.
  split; [rewrite Hacc; apply accumulated_range|].
  destruct (Reference.has_whatsapp v), (Reference.has_instagram v),
    (Reference.has_resolved v), (Reference.has_enrichment v),
    (Reference.has_soft_signal v); cbn [andb]; rewrite Hacc; vm_compute;
    first [reflexivity | discriminate].
Qed.

Lemma candidate_confidence_range_witness :
  VendorExtractor.extract_vendor_info Scenario.offline_web
    Scenario.extractor_with_address Scenario.plain_hit "Lagos"
  = VendorExtractor.Candidate Scenario.plain_vendor
  /\ (0 <= VendorExtractor.confidence_score Scenario.plain_vendor <= 11 # 10)%Q
  /\ (VendorExtractor.confidence_score Scenario.plain_vendor <= 1)%Q.
Proof.
  assert (H : VendorExtractor.extract_vendor_info Scenario.offline_web
                Scenario.extractor_with_address Scenario.plain_hit "Lagos"
              = VendorExtractor.Candidate Scenario.plain_vendor)
    by (vm_compute; reflexivity).
  split; [exact H|].
  destruct (candidate_confidence_range _ _ _ _ _ H) as [Hrange Hcase].
  split; [exact Hrange | exact Hcase].
Defined.

(* ------------------------------------------------------------------ *)
(** * Further properties of llm_reasoner.py and of the ranker *)
(* ------------------------------------------------------------------ *)

Section AdapterFacts.
Import Invariant.

Lemma one_request_ret {A} (a : A) : one_request (ret a).
Proof. intros w. exists a, w. repeat split; lia. Qed.

Lemma one_request_chat_then {A} c (k : LLMReasoner.ChatReply -> A) :
  one_request (bind (LLMReasoner.chat c) (fun reply => ret (k reply))).
Proof.
  intros w. unfold bind, LLMReasoner.chat, ret. eexists _, _.
  split; [reflexivity|]. simpl. repeat split; lia.
Qed.

Lemma one_request_is_actual_vendor self service vendor :
  one_request (LLMReasoner.is_actual_vendor self service vendor).
Proof.
  unfold LLMReasoner.is_actual_vendor.
  destruct (LLMReasoner.client self) as [c|]; [|apply one_request_ret].
  intros w. unfold bind, LLMReasoner.chat, ret.
  destruct (LLMReasoner.create c (chats w)) as [content|message].
  - destruct (LLMReasoner.get _ _) as [[v|]|e]; eexists _, _;
      (split; [reflexivity|]); simpl; repeat split; lia.
  - eexists _, _. split; [reflexivity|]. simpl. repeat split; lia.
Qed.

Lemma one_request_analyze_results self service location vendors :
  one_request (LLMReasoner.analyze_results self service location vendors).
Proof.
  unfold LLMReasoner.analyze_results.
  destruct (LLMReasoner.client self) as [c|], vendors as [|v vs];
    try apply one_request_ret.
  intros w. unfold bind, LLMReasoner.chat, ret.
  destruct (LLMReasoner.create c (chats w)); eexists _, _;
    (split; [reflexivity|]); simpl; repeat split; lia.
Qed.

Lemma one_request_rerank_vendors self service vendors :
  one_request (LLMReasoner.rerank_vendors self service vendors).
Proof.
  unfold LLMReasoner.rerank_vendors.
  destruct (LLMReasoner.client self) as [c|]; [|apply one_request_ret].
  destruct (List.length vendors <? 2)%nat; [apply one_request_ret|].
  intros w. unfold bind, LLMReasoner.chat, ret.
  destruct (LLMReasoner.create c (chats w)); eexists _, _;
    (split; [reflexivity|]); simpl; repeat split; lia.
Qed.

Lemma one_request_decide_next_search self service location platform vendors :
  one_request
    (LLMReasoner.decide_next_search self service location platform vendors).
Proof.
  unfold LLMReasoner.decide_next_search.
  destruct (3 <=? List.length vendors)%nat; [apply one_request_ret|].
  destruct (LLMReasoner.client self) as [c|]; [|apply one_request_ret].
  intros w. unfold bind, LLMReasoner.chat, ret.
  destruct (LLMReasoner.create c (chats w)); eexists _, _;
    (split; [reflexivity|]); simpl; repeat split; lia.
Qed.
End AdapterFacts.

(** X11. None of the four adapter operations ever raises, whatever the
    chat client does and whatever text it returns, and each sends at most
    one chat request and starts no search. *)
Theorem adapter_operations_absorb_failures :
  forall (self : LLMReasoner.Self) (service location platform : string)
         (vendors : list VendorExtractor.Vendor) (vendor : VendorExtractor.Vendor),
    Invariant.one_request
      (LLMReasoner.analyze_results self service location vendors)
    /\ Invariant.one_request (LLMReasoner.rerank_vendors self service vendors)
    /\ Invariant.one_request
         (LLMReasoner.decide_next_search self service location platform vendors)
    /\ Invariant.one_request (LLMReasoner.is_actual_vendor self service vendor).
Proof.
  intros self service location platform vendors vendor.
  split; [apply one_request_analyze_results|].
  split; [apply one_request_rerank_vendors|].
  split; [apply one_request_decide_next_search|].
  apply one_request_is_actual_vendor.
Qed.

(** X12. With a client configured, [is_actual_vendor] accepts the vendor
    when the chat request raises and when the reply decodes to something
    that is not an object; it rejects the vendor when the reply cannot be
    decoded at all, and otherwise answers the truth value of the reply's
    [is_vendor] entry, a missing entry counting as false. *)
Theorem is_actual_vendor_reply_cases :
  forall (self : LLMReasoner.Self) (service : string)
         (vendor : VendorExtractor.Vendor) (c : LLMReasoner.Client) (w : Effects),
    LLMReasoner.client self = Some c ->
    LLMReasoner.is_actual_vendor self service vendor w
    = (Ok match LLMReasoner.create c (chats w) with
          | LLMReasoner.ChatRaises _ => true
          | LLMReasoner.ChatContent content =>
              match LLMReasoner.json_loads self content with
              | None => false
              | Some (JObj fields) =>
                  match Json.lookup fields "is_vendor" with
                  | Some v => Json.truthy v
                  | None => false
                  end
              | Some _ => true
              end
          end,
       mkEffects (S (chats w)) (searches w)).
Proof.
  intros self service vendor c w Hc.
  unfold LLMReasoner.is_actual_vendor. rewrite Hc.
  unfold bind, LLMReasoner.chat.
  destruct (LLMReasoner.create c (chats w)) as [content|message];
    [|reflexivity].
  unfold LLMReasoner._safe_json.
  destruct (LLMReasoner.json_loads self content) as [[| | | | |fields]|];
    try reflexivity.
  simpl. destruct (Json.lookup fields "is_vendor"); reflexivity.
Qed.

Lemma is_actual_vendor_reply_cases_witness :
  LLMReasoner.client
    (Scenario.reasoner_of [ LLMReasoner.ChatContent Scenario.prose ])
  = Some (Scenario.scripted [ LLMReasoner.ChatContent Scenario.prose ])
  /\ LLMReasoner.is_actual_vendor
       (Scenario.reasoner_of [ LLMReasoner.ChatContent Scenario.prose ])
       "cake" Scenario.full_vendor Scenario.start
     = (Ok false, mkEffects 1 0).
Proof.
  assert (H : LLMReasoner.client
                (Scenario.reasoner_of [ LLMReasoner.ChatContent Scenario.prose ])
              = Some (Scenario.scripted
                        [ LLMReasoner.ChatContent Scenario.prose ]))
    by reflexivity.
  split; [exact H|].
  rewrite (is_actual_vendor_reply_cases _ "cake" Scenario.full_vendor _
             Scenario.start H).
  reflexivity.
Defined.

Section IdentityOrder.
Import VendorFinder.

Lemma index_app {A} (pre : list A) x rest :
  index (pre ++ x :: rest) (Z.of_nat (List.length pre)) = Ok x.
Proof.
  unfold index.
  destruct (Z.ltb_spec (Z.of_nat (List.length pre)) 0) as [H|_]; [lia|].
  destruct (Z.ltb_spec (Z.of_nat (List.length pre)) 0) as [H|_]; [lia|].
  rewrite Nat2Z.id, nth_error_app2, Nat.sub_diag by lia. reflexivity.
Qed.

Lemma select_suffix {A} (pre l : list A) :
  select (pre ++ l)
    (map Z.of_nat (seq (List.length pre) (List.length l))) = Ok l.
Proof.
  revert pre. induction l as [|x rest IH]; intros pre; [reflexivity|].
  simpl. rewrite index_app.
  replace (pre ++ x :: rest)%list with ((pre ++ [x]) ++ rest)%list
    by now rewrite <- app_assoc.
  specialize (IH (pre ++ [x])%list).
  rewrite length_app, Nat.add_1_r in IH. simpl in IH.
  now rewrite IH.
Qed.

(** Selecting with the identity order gives the list back. *)
Lemma select_identity {A} (l : list A) :
  select l (map Z.of_nat (seq 0 (List.length l))) = Ok l.
Proof. exact (select_suffix [] l). Qed.

Lemma apply_rerank_identity ranked reasoning log :
  Py.truthy reasoning = true ->
  apply_rerank ranked
    (JObj [ ("ordered_vendor_ids", LLMReasoner.range_ids (List.length ranked));
            ("reasoning", JStr reasoning) ]) log
  = Ok (ranked, (log ++ [ JStr reasoning ])%list).
Proof.
  intros Ht.
  unfold apply_rerank, LLMReasoner.range_ids. simpl LLMReasoner.get.
  cbv iota beta. simpl iterate. cbv iota beta.
  rewrite <- map_map with (f := Z.of_nat) (g := JInt).
  rewrite valid_ids_ints, range_ids_in_range.
  pose proof (select_identity ranked) as Hsel.
  destruct (map Z.of_nat (seq 0 (List.length ranked))) as [|i ids] eqn:Hids.
  - injection Hsel as <-. simpl. now rewrite Ht.
  - rewrite Hsel. simpl. now rewrite Ht.
Qed.
End IdentityOrder.

(** X13. When no client is configured or fewer than two candidates are
    given, [rerank_vendors] sends no request and answers the identity
    order, the ids 0 to n - 1 in order with the note that the ranking is
    retained; the re-rank step of [find_vendors] applied to that answer
    keeps the ranked list exactly as it is and appends the note to the
    reasoning log. *)
Theorem rerank_fallback_keeps_order :
  forall (self : LLMReasoner.Self) (service : string)
         (ranked : list VendorExtractor.Vendor) (log : list json) (w : Effects),
    LLMReasoner.client self = None \/ (List.length ranked < 2)%nat ->
    let identity_order :=
      JObj [ ("ordered_vendor_ids",
              JArr (map (fun i => JInt (Z.of_nat i))
                      (seq 0 (List.length ranked))));
             ("reasoning", JStr "Deterministic ranking retained.") ] in
    LLMReasoner.rerank_vendors self service ranked w = (Ok identity_order, w)
    /\ VendorFinder.apply_rerank ranked identity_order log
       = Ok (ranked, (log ++ [ JStr "Deterministic ranking retained." ])%list).
Proof.
  intros self service ranked log w H identity_order.
  split; [|now apply apply_rerank_identity].
  unfold LLMReasoner.rerank_vendors.
  destruct (LLMReasoner.client self) as [c|]; [|reflexivity].
  destruct H as [H|H]; [discriminate|].
  apply Nat.ltb_lt in H. now rewrite H.
Qed.

Lemma rerank_fallback_keeps_order_witness :
  (LLMReasoner.client Scenario.no_reasoner = None
   \/ (List.length [ Scenario.full_vendor; Scenario.plain_vendor ] < 2)%nat)
  /\ LLMReasoner.rerank_vendors Scenario.no_reasoner "cake"
       [ Scenario.full_vendor; Scenario.plain_vendor ] Scenario.start
     = (Ok (JObj [ ("ordered_vendor_ids", JArr [ JInt 0; JInt 1 ]);
                   ("reasoning", JStr "Deterministic ranking retained.") ]),
        Scenario.start)
  /\ VendorFinder.apply_rerank
       [ Scenario.full_vendor; Scenario.plain_vendor ]
       (JObj [ ("ordered_vendor_ids", JArr [ JInt 0; JInt 1 ]);
               ("reasoning", JStr "Deterministic ranking retained.") ]) []
     = Ok ([ Scenario.full_vendor; Scenario.plain_vendor ],
           [ JStr "Deterministic ranking retained." ]).
Proof.
  assert (H : LLMReasoner.client Scenario.no_reasoner = None
              \/ (List.length [ Scenario.full_vendor; Scenario.plain_vendor ]
                  < 2)%nat) by (left; reflexivity).
  split; [exact H|].
  exact (rerank_fallback_keeps_order Scenario.no_reasoner "cake"
           [ Scenario.full_vendor; Scenario.plain_vendor ] []
           Scenario.start H).
Defined.

Section SortedInput.
Context {A K : Type} (key : A -> K) (ltb : K -> K -> bool).

Lemma sort_asc_sorted_input l :
  StronglySorted (Reference.asc key ltb) l -> Py.sort_asc key ltb l = l.
Proof.
  induction 1 as [|x xs Hs IH Hx]; [reflexivity|].
  simpl. rewrite IH. destruct xs as [|y ys]; [reflexivity|].
  simpl. apply Forall_inv in Hx. unfold Reference.asc in Hx. now rewrite Hx.
Qed.

Lemma sorted_rev_desc l :
  StronglySorted (Reference.desc key ltb) l ->
  StronglySorted (Reference.asc key ltb) (rev l).
Proof.
  induction 1 as [|x xs Hs IH Hx]; simpl; [constructor|].
  apply sorted_app; [exact IH | repeat constructor |].
  intros a b Ha [<-|[]]. rewrite Forall_forall in Hx.
  apply in_rev in Ha. exact (Hx a Ha).
Qed.

(** A list already in descending order is left as it is. *)
Lemma list_sort_reverse_sorted_input l :
  StronglySorted (Reference.desc key ltb) l ->
  Py.list_sort key ltb true l = l.
Proof.
  intros H. unfold Py.list_sort.
  rewrite sort_asc_sorted_input by now apply sorted_rev_desc.
  apply rev_involutive.
Qed.
End SortedInput.

(** X14. [rank_vendors] is idempotent: ranking a ranked list changes
    nothing. *)
Theorem rank_vendors_idempotent :
  forall vendors : list VendorExtractor.Vendor,
    VendorFinder.rank_vendors (VendorFinder.rank_vendors vendors)
    = VendorFinder.rank_vendors vendors.
Proof.
  intros vendors. unfold VendorFinder.rank_vendors at 1.
  apply list_sort_reverse_sorted_input.
  apply (list_sort_reverse_sorted VendorFinder.ranking_key VendorFinder.key_lt).
  - apply key_lt_irrefl.
  - apply key_lt_trans.
  - apply key_lt_negtrans.
Qed.

(* ------------------------------------------------------------------ *)
(** * Further properties of vendor_finder.py *)
(* ------------------------------------------------------------------ *)

Lemma find_vendors_bounded_witness :
  (VendorFinder.max_attempts <= 2)%nat
  /\ fst (VendorFinder.find_vendors Scenario.never_stop "cake" "Lagos"
            "instagram" 10 (3 # 10) Scenario.start) <> Ok None
  /\ (searches
        (snd (VendorFinder.find_vendors Scenario.never_stop "cake" "Lagos"
                "instagram" 10 (3 # 10) Scenario.start))
      <= searches Scenario.start + VendorFinder.max_attempts)%nat.
Proof.
  assert (H : (VendorFinder.max_attempts <= 2)%nat) by (vm_compute; lia).
  split; [exact H|].
  destruct (find_vendors_bounded 2 Scenario.never_stop "cake" "Lagos"
              "instagram" 10 (3 # 10) Scenario.start H) as (_ & Hnone & Hle).
  split; [exact Hnone | exact Hle].
Defined.

Lemma trade_service_ignores_min_confidence_witness :
  VendorFinder.classify_service "plumber" = "trade"
  /\ VendorFinder.find_vendors (Sample.offline_finder [ Scenario.plain_hit ])
       "plumber" "Lagos" "instagram" 10 (3 # 10) Scenario.start
     = VendorFinder.find_vendors (Sample.offline_finder [ Scenario.plain_hit ])
         "plumber" "Lagos" "instagram" 10 (9 # 10) Scenario.start.
Proof.
  assert (H : VendorFinder.classify_service "plumber" = "trade") by reflexivity.
  split; [exact H|].
  exact (trade_service_ignores_min_confidence
           (Sample.offline_finder [ Scenario.plain_hit ])
           "plumber" "Lagos" "instagram" 10 (3 # 10) (9 # 10) Scenario.start H).
Defined.

Section PlatformFacts.
Import VendorFinder Invariant.
Variable self : Self.
Variable service : string.
Variable max_results : nat.
Variable effective_min_confidence : Q.



Lemma empty_search_round service_type st w :
  SearchEngine.search_vendors (search_engine self) service
    (current_location st)
    (if String.eqb service_type "visual" then "instagram"
     else current_platform st) = [] ->
  round self service max_results service_type effective_min_confidence st w
  = (Ok (Break
           (mkState (S (attempt st))
              (if String.eqb service_type "visual" then "instagram"
               else current_platform st)
              (current_location st) (current_min_confidence st)
              (final_reasoning st) (ranked_vendors st))),
     mkEffects (chats w) (S (searches w))).
Proof.
  intros H. unfold round. rewrite bind_run_search. cbv beta.
  rewrite H. reflexivity.
Qed.
End PlatformFacts.



(** X16. When the first search returns nothing, [find_vendors] returns at
    once: no vendors, the fixed fallback analysis, an empty reasoning log,
    one search round and no chat request. *)
Theorem find_vendors_empty_search :
  forall (self : VendorFinder.Self) (service location platform : string)
         (max_results : nat) (min_confidence : Q) (w : Effects),
    SearchEngine.search_vendors (VendorFinder.search_engine self) service
      location (Invariant.first_platform service platform) = [] ->
    VendorFinder.find_vendors self service location platform max_results
      min_confidence w
    = (Ok (Some
             (VendorFinder.fallback
                (VendorFinder.mkState 1
                   (Invariant.first_platform service platform) location
                   min_confidence [] []))),
       mkEffects (chats w) (S (searches w))).
Proof.
  intros self service location platform max_results min_confidence w H.
  unfold VendorFinder.find_vendors, VendorFinder.find_vendors_fuel.
  cbv zeta. change VendorFinder.max_attempts with 2%nat at 1.
  rewrite attempts_S. cbn [VendorFinder.attempt].
  change (0 <? VendorFinder.max_attempts)%nat with true. cbv iota.
  unfold bind. rewrite empty_search_round; [reflexivity|exact H].
Qed.

Lemma find_vendors_empty_search_witness :
  SearchEngine.search_vendors (VendorFinder.search_engine Sample.blind_finder)
    "plumber" "Abuja" (Invariant.first_platform "plumber" "twitter") = []
  /\ VendorFinder.find_vendors Sample.blind_finder "plumber" "Abuja" "twitter"
       5 (3 # 10) Scenario.start
     = (Ok (Some
              (VendorFinder.fallback
                 (VendorFinder.mkState 1 "twitter" "Abuja" (3 # 10) [] []))),
        mkEffects 0 1).
Proof.
  assert (H : SearchEngine.search_vendors
                (VendorFinder.search_engine Sample.blind_finder)
                "plumber" "Abuja" (Invariant.first_platform "plumber" "twitter")
              = []) by reflexivity.
  split; [exact H|].
  exact (find_vendors_empty_search Sample.blind_finder "plumber" "Abuja"
           "twitter" 5 (3 # 10) Scenario.start H).
Defined.

Section OfflineRun.
Import VendorFinder Invariant.
Variable self : Self.
Variable service : string.
Variable max_results : nat.
Variable service_type : string.
Variable effective_min_confidence : Q.
Hypothesis no_client : LLMReasoner.client (reasoner self) = None.

Lemma offline_ret {A} (a : A) (P : A -> Prop) : P a -> offline (ret a) P.
Proof. intros Ha w. now exists a. Qed.

Lemma offline_bind {A B} (m : M A) (k : A -> M B) (Q : A -> Prop)
      (P : B -> Prop) :
  offline m Q -> (forall a, Q a -> offline (k a) P) -> offline (bind m k) P.
Proof.
  intros Hm Hk w. unfold bind. destruct (Hm w) as (a & -> & Ha).
  exact (Hk a Ha w).
Qed.

Lemma offline_extraction_loop location results enriched :
  offline
    (extraction_loop self service max_results effective_min_confidence
       location results enriched) (fun _ => True).
Proof.
  revert enriched. induction results as [|result rest IH]; intros enriched;
    simpl; [now apply offline_ret|].
  destruct (VendorExtractor.extract_vendor_info _ _ _ _) as [score reason|vendor];
    [apply IH|].
  destruct (Py.flt _ _); [apply IH|].
  unfold LLMReasoner.is_actual_vendor. rewrite no_client.
  apply offline_bind with (Q := fun _ => True); [now apply offline_ret|].
  intros ok _. destruct (negb ok); [apply IH|].
  destruct (max_results <=? _)%nat; [now apply offline_ret | apply IH].
Qed.

(** Without an oracle client an iteration does one search, sends no
    request, never raises and never asks for another attempt. *)
Lemma round_offline st w :
  exists s,
    round self service max_results service_type effective_min_confidence st w
    = (Ok s, mkEffects (chats w) (S (searches w)))
    /\ match s with Continue _ => False | _ => True end.
Proof.
  unfold round. rewrite bind_run_search. cbv beta.
  match goal with
  | |- exists s, ?m ?w1 = _ /\ _ =>
      cut (offline m (fun s => match s with Continue _ => False | _ => True end));
      [intros Hr; exact (Hr w1)|]
  end.
  destruct (SearchEngine.search_vendors _ _ _ _) as [|hit hits];
    [now apply offline_ret|].
  apply offline_bind with (Q := fun _ => True);
    [apply offline_extraction_loop|].
  intros [|v vs] _; [now apply offline_ret|].
  apply offline_bind with (Q := fun _ => True).
  { destruct (1 <? _)%nat; [|now apply offline_ret].
    unfold LLMReasoner.rerank_vendors. rewrite no_client.
    intros w2. unfold bind, ret, lift. cbn [final_reasoning].
    rewrite apply_rerank_identity by reflexivity. now eexists. }
  intros [ranked reasoning] _.
  apply offline_bind with (Q := fun _ => True).
  { unfold LLMReasoner.analyze_results. rewrite no_client.
    now apply offline_ret. }
  intros analysis _.
  apply offline_bind with (Q := fun d => d = LLMReasoner.STOP).
  { unfold LLMReasoner.decide_next_search. rewrite no_client.
    destruct (3 <=? _)%nat; now apply offline_ret. }
  intros decision ->. now apply offline_ret.
Qed.
End OfflineRun.

(** X17. When no oracle client is configured, [find_vendors] returns a
    result after exactly one search round and without a single chat request:
    every advisory step takes its fallback and the stop-or-continue decision
    is STOP. *)
Theorem find_vendors_without_oracle_single_round :
  forall (self : VendorFinder.Self) (service location platform : string)
         (max_results : nat) (min_confidence : Q) (w : Effects),
    LLMReasoner.client (VendorFinder.reasoner self) = None ->
    exists result,
      VendorFinder.find_vendors self service location platform max_results
        min_confidence w
      = (Ok (Some result), mkEffects (chats w) (S (searches w))).
Proof.
  intros self service location platform max_results min_confidence w Hclient.
  unfold VendorFinder.find_vendors, VendorFinder.find_vendors_fuel.
  cbv zeta. change VendorFinder.max_attempts with 2%nat at 1.
  rewrite attempts_S. cbn [VendorFinder.attempt].
  change (0 <? VendorFinder.max_attempts)%nat with true. cbv iota.
  unfold bind.
  match goal with
  | |- context [VendorFinder.round ?a ?b ?c ?d ?e ?st w] =>
      destruct (round_offline a b c d e Hclient st w) as (s & -> & Hs)
  end.
  destruct s as [result|st'|st']; [| |destruct Hs]; now eexists.
Qed.

Lemma find_vendors_without_oracle_witness :
  LLMReasoner.client
    (VendorFinder.reasoner (Sample.offline_finder [ Scenario.full_hit ])) = None
  /\ VendorFinder.find_vendors (Sample.offline_finder [ Scenario.full_hit ])
       "cake" "Lagos" "instagram" 10 (3 # 10) Scenario.start
     = (Ok (Some Sample.offline_result), mkEffects 0 1).
Proof.
  assert (H : LLMReasoner.client
                (VendorFinder.reasoner
                   (Sample.offline_finder [ Scenario.full_hit ])) = None)
    by reflexivity.
  split; [exact H|].
  destruct (find_vendors_without_oracle_single_round
              (Sample.offline_finder [ Scenario.full_hit ])
              "cake" "Lagos" "instagram" 10 (3 # 10) Scenario.start H)
    as (result & Hrun).
  rewrite Hrun. f_equal. f_equal. f_equal.
  assert (Hc : VendorFinder.find_vendors
                 (Sample.offline_finder [ Scenario.full_hit ])
                 "cake" "Lagos" "instagram" 10 (3 # 10) Scenario.start
               = (Ok (Some Sample.offline_result), mkEffects 0 1))
    by (vm_compute; reflexivity).
  rewrite Hrun in Hc. now injection Hc.
Defined.

Section AcceptedVendors.
Import VendorFinder Invariant Reference.
Variable self : Self.
Variable service : string.
Variable max_results : nat.
Variable service_type : string.
Variable effective_min_confidence : Q.

Abbreviation acc := (accepted self effective_min_confidence).

Lemma quiet_post {A} (m : M A) (P : A -> Prop) w a :
  quiet m P -> fst (m w) = Ok a -> P a.
Proof. intros Hm. apply Hm. Qed.

Lemma extraction_loop_accepted location results enriched :
  Forall acc enriched ->
  quiet
    (extraction_loop self service max_results effective_min_confidence
       location results enriched) (Forall acc).
Proof.
  revert enriched. induction results as [|result rest IH]; intros enriched He;
    simpl; [now apply quiet_ret|].
  destruct (VendorExtractor.extract_vendor_info _ _ _ _)
    as [score reason|vendor] eqn:Hext; [now apply IH|].
  destruct (Py.flt _ _) eqn:Hgate; [now apply IH|].
  apply quiet_bind with (Q := fun _ => True);
    [apply quiet_is_actual_vendor|].
  intros ok _. destruct (negb ok); [now apply IH|].
  assert (He' : Forall acc (enriched ++ [vendor])).
  { apply Forall_app. split; [exact He|]. constructor; [|constructor].
    split; [exact Hgate | eexists _, _; exact Hext]. }
  destruct (max_results <=? _)%nat; [now apply quiet_ret | now apply IH].
Qed.

Lemma index_In {A} (l : list A) i x : index l i = Ok x -> In x l.
Proof.
  unfold index. destruct (_ <? 0)%Z; [discriminate|].
  destruct (nth_error l _) eqn:Hn; [|discriminate].
  intros [= <-]. now apply nth_error_In in Hn.
Qed.

Lemma select_incl {A} (l : list A) ids xs :
  select l ids = Ok xs -> incl xs l.
Proof.
  revert xs. induction ids as [|i rest IH]; intros xs; simpl.
  - intros [= <-]. intros x [].
  - destruct (index l i) as [x|e] eqn:Hi; [|discriminate].
    destruct (select l rest) as [ys|e]; [|discriminate].
    intros [= <-]. intros y [<-|Hy];
      [now apply index_In in Hi | exact (IH ys eq_refl y Hy)].
Qed.

(** The re-rank step only ever hands on candidates of the ranked
    list. *)
Lemma apply_rerank_incl ranked rerank log r log' :
  apply_rerank ranked rerank log = Ok (r, log') -> incl r ranked.
Proof.
  unfold apply_rerank.
  destruct (LLMReasoner.get rerank "ordered_vendor_ids") as [found|e];
    [|discriminate].
  destruct (iterate _) as [items|e]; [|discriminate].
  destruct (valid_ids items _) as [[|i valid]|e]; [| |discriminate].
  - destruct (LLMReasoner.get rerank "reasoning") as [[x|]|e];
      [destruct (Json.truthy x)| |discriminate];
      intros [= <- _]; apply incl_refl.
  - destruct (select ranked (i :: valid)) as [xs|e] eqn:Hsel; [|discriminate].
    apply select_incl in Hsel.
    destruct (LLMReasoner.get rerank "reasoning") as [[x|]|e];
      [destruct (Json.truthy x)| |discriminate];
      intros [= <- _]; exact Hsel.
Qed.

Lemma apply_decision_ranked action st :
  ranked_vendors (apply_decision service_type action st) = ranked_vendors st.
Proof.
  unfold apply_decision.
  destruct (Json.eq_str action "EXPAND_LOCATION"); [reflexivity|].
  destruct (Json.eq_str action "TRY_ANOTHER_PLATFORM"); [reflexivity|].
  destruct (Json.eq_str action "RELAX_CONFIDENCE"); reflexivity.
Qed.

Lemma Forall_incl {A} (P : A -> Prop) (l l' : list A) :
  incl l' l -> Forall P l -> Forall P l'.
Proof.
  intros Hi Hl. apply Forall_forall. intros x Hx.
  rewrite Forall_forall in Hl. auto.
Qed.

Lemma round_accepted st w s :
  Forall acc (ranked_vendors st) ->
  fst (round self service max_results service_type effective_min_confidence
         st w) = Ok s ->
  Forall acc (step_vendors s).
Proof.
  intros Hst. unfold round. rewrite bind_run_search. cbv beta.
  match goal with
  | |- fst (?m ?w1) = _ -> _ =>
      cut (quiet m (fun s => Forall acc (step_vendors s)));
      [intros Hq; apply Hq|]
  end.
  destruct (SearchEngine.search_vendors _ _ _ _) as [|hit hits];
    [now apply quiet_ret|].
  apply quiet_bind with (Q := Forall acc);
    [now apply extraction_loop_accepted|].
  intros [|v vs] Henriched; [now apply quiet_ret|].
  assert (Hranked : Forall acc (rank_vendors (v :: vs))).
  { apply Forall_incl with (l := v :: vs); [|exact Henriched].
    intros x Hx. apply (Permutation_in x (list_sort_perm _ _ _ _) Hx). }
  apply quiet_bind with (Q := fun p => Forall acc (fst p)).
  { destruct (1 <? _)%nat; [|now apply quiet_ret].
    apply quiet_bind with (Q := fun _ => True);
      [apply quiet_rerank_vendors|].
    intros rerank _. apply quiet_lift. intros [r lg] Hr.
    apply apply_rerank_incl in Hr. cbn [fst].
    now apply Forall_incl with (l := rank_vendors (v :: vs)). }
  intros [ranked reasoning] Hr. cbn [fst] in Hr.
  apply quiet_bind with (Q := fun _ => True);
    [apply quiet_analyze_results|].
  intros analysis _.
  apply quiet_bind with (Q := fun _ => True);
    [apply quiet_decide_next_search|].
  intros decision _.
  apply quiet_bind with (Q := fun _ => True); [now apply quiet_lift|].
  intros action _.
  destruct (Json.opt_eq_str action "STOP"); [now apply quiet_ret|].
  apply quiet_bind with (Q := fun _ => True); [now apply quiet_lift|].
  intros action' _. apply quiet_ret. cbn [step_vendors].
  now rewrite apply_decision_ranked.
Qed.

Lemma attempts_accepted fuel st w result :
  Forall acc (ranked_vendors st) ->
  fst (attempts self service max_results service_type
         effective_min_confidence fuel st w) = Ok (Some result) ->
  Forall acc (vendors result).
Proof.
  revert st w. induction fuel as [|fuel IH]; intros st w Hst.
  - rewrite attempts_O.
    destruct (attempt st <? max_attempts)%nat; [discriminate|].
    intros [= <-]. exact Hst.
  - rewrite attempts_S.
    destruct (attempt st <? max_attempts)%nat;
      [|intros [= <-]; exact Hst].
    unfold bind.
    pose proof (round_accepted st w) as Hround.
    destruct (round _ _ _ _ _ st w) as [[s|e] w1]; [|discriminate].
    specialize (Hround s Hst eq_refl).
    destruct s as [r|st'|st']; cbn [step_vendors] in Hround.
    + intros [= <-]. exact Hround.
    + intros [= <-]. exact Hround.
    + now apply IH.
Qed.
End AcceptedVendors.

(** X18. Every vendor in a result returned by [find_vendors] is a
    candidate that [extract_vendor_info] produced from some search result
    and whose confidence score is not below the effective threshold (0.2 for
    a trade service, the caller's [min_confidence] otherwise): neither the
    ranker, nor the oracle's re-rank, nor a refinement decision can bring in
    a vendor that failed the gate. *)
Theorem find_vendors_returns_accepted_vendors :
  forall (self : VendorFinder.Self) (service location platform : string)
         (max_results : nat) (min_confidence : Q) (w : Effects)
         (result : VendorFinder.AgentResult),
    fst (VendorFinder.find_vendors self service location platform max_results
           min_confidence w) = Ok (Some result) ->
    Forall
      (Invariant.accepted self
         (Invariant.effective_threshold service min_confidence))
      (VendorFinder.vendors result).
Proof.
  intros self service location platform max_results min_confidence w result.
  unfold VendorFinder.find_vendors, VendorFinder.find_vendors_fuel.
  cbv zeta. unfold Invariant.effective_threshold.
  destruct (String.eqb (VendorFinder.classify_service service) "trade").
  - apply attempts_accepted. constructor.
  - destruct (String.eqb (VendorFinder.classify_service service) "visual");
      apply attempts_accepted; constructor.
Qed.

Lemma find_vendors_returns_accepted_vendors_witness :
  fst (VendorFinder.find_vendors (Sample.offline_finder [ Scenario.full_hit ])
         "cake" "Lagos" "instagram" 10 (3 # 10) Scenario.start)
  = Ok (Some Sample.offline_result)
  /\ Forall
       (Invariant.accepted (Sample.offline_finder [ Scenario.full_hit ])
          (Invariant.effective_threshold "cake" (3 # 10)))
       (VendorFinder.vendors Sample.offline_result).
Proof.
  assert (H : fst (VendorFinder.find_vendors
                     (Sample.offline_finder [ Scenario.full_hit ])
                     "cake" "Lagos" "instagram" 10 (3 # 10) Scenario.start)
              = Ok (Some Sample.offline_result)) by (vm_compute; reflexivity).
  split; [exact H|].
  exact (find_vendors_returns_accepted_vendors _ _ _ _ _ _ _ _ H).
Defined.

Section ChatBudget.
Import VendorFinder Invariant Reference.
Variable self : Self.
Variable service : string.
Variable max_results : nat.
Variable service_type : string.
Variable effective_min_confidence : Q.

Lemma chat_bounded_ret {A} (a : A) : chat_bounded 0 (ret a).
Proof. intros w. simpl. lia. Qed.

Lemma chat_bounded_lift {A} (o : outcome A) : chat_bounded 0 (lift o).
Proof. intros w. simpl. lia. Qed.

Lemma chat_bounded_weaken {A} n n' (m : M A) :
  (n <= n')%nat -> chat_bounded n m -> chat_bounded n' m.
Proof. intros Hn Hm w. specialize (Hm w). lia. Qed.

Lemma chat_bounded_bind {A B} n k (m : M A) (f : A -> M B) :
  chat_bounded n m -> (forall a, chat_bounded k (f a)) ->
  chat_bounded (n + k) (bind m f).
Proof.
  intros Hm Hf w. unfold bind. specialize (Hm w).
  destruct (m w) as [[a|e] w1]; cbn [snd] in *.
  - specialize (Hf a w1). lia.
  - lia.
Qed.

Lemma chat_bounded_one_request {A} (m : M A) :
  one_request m -> chat_bounded 1 m.
Proof.
  intros Hm w. destruct (Hm w) as (a & w' & -> & _ & Hc). cbn [snd]. lia.
Qed.

Lemma chat_bounded_extraction_loop location results enriched :
  chat_bounded (List.length results)
    (extraction_loop self service max_results effective_min_confidence
       location results enriched).
Proof.
  revert enriched. induction results as [|result rest IH]; intros enriched;
    simpl; [apply chat_bounded_ret|].
  destruct (VendorExtractor.extract_vendor_info _ _ _ _) as [score reason|vendor];
    [apply chat_bounded_weaken with (n := List.length rest); [lia | apply IH]|].
  destruct (Py.flt _ _);
    [apply chat_bounded_weaken with (n := List.length rest); [lia | apply IH]|].
  change (S (List.length rest)) with (1 + List.length rest)%nat.
  apply chat_bounded_bind;
    [apply chat_bounded_one_request, one_request_is_actual_vendor|].
  intros ok. destruct (negb ok); [apply IH|].
  destruct (max_results <=? _)%nat;
    [apply chat_bounded_weaken with (n := 0%nat); [lia | apply chat_bounded_ret]
    | apply IH].
Qed.

(** One iteration sends at most one request per examined search result
    and three more for the re-rank, the analysis and the decision. *)
Lemma chat_bounded_round st :
  chat_bounded (max_results * 3 + 3)
    (round self service max_results service_type effective_min_confidence st).
Proof.
  intros w. unfold round. rewrite bind_run_search. cbv beta.
  match goal with
  | |- (_ <= chats (snd (?m ?w1)) <= _)%nat =>
      cut (chat_bounded (max_results * 3 + (1 + (1 + (1 + (0 + (0 + 0)))))) m);
      [intros Hb; specialize (Hb w1); cbn [chats] in Hb; lia|]
  end.
  destruct (SearchEngine.search_vendors _ _ _ _) as [|hit hits];
    [apply chat_bounded_weaken with (n := 0%nat);
     [lia | apply chat_bounded_ret]|].
  apply chat_bounded_bind.
  { apply chat_bounded_weaken
      with (n := List.length (firstn (max_results * 3) (hit :: hits)));
      [rewrite length_firstn; lia | apply chat_bounded_extraction_loop]. }
  intros [|v vs];
    [apply chat_bounded_weaken with (n := 0%nat);
     [lia | apply chat_bounded_ret]|].
  apply chat_bounded_bind.
  { destruct (1 <? _)%nat;
      [|apply chat_bounded_weaken with (n := 0%nat);
        [lia | apply chat_bounded_ret]].
    change 1%nat with (1 + 0)%nat at 1. apply chat_bounded_bind;
      [apply chat_bounded_one_request, one_request_rerank_vendors|].
    intros rerank. apply chat_bounded_lift. }
  intros [ranked reasoning].
  apply chat_bounded_bind;
    [apply chat_bounded_one_request, one_request_analyze_results|].
  intros analysis.
  apply chat_bounded_bind;
    [apply chat_bounded_one_request, one_request_decide_next_search|].
  intros decision.
  apply chat_bounded_bind; [apply chat_bounded_lift|].
  intros action.
  destruct (Json.opt_eq_str action "STOP");
    [apply chat_bounded_ret|].
  apply chat_bounded_bind; [apply chat_bounded_lift|].
  intros action'. apply chat_bounded_ret.
Qed.

Lemma chat_bounded_attempts fuel st :
  chat_bounded ((max_attempts - attempt st) * (max_results * 3 + 3))
    (attempts self service max_results service_type effective_min_confidence
       fuel st).
Proof.
  revert st. induction fuel as [|fuel IH]; intros st w.
  - rewrite attempts_O.
    destruct (attempt st <? max_attempts)%nat; unfold ret; cbn [snd];
      (split; [lia | apply Nat.le_add_r]).
  - rewrite attempts_S.
    destruct (Nat.ltb_spec (attempt st) max_attempts) as [Hlt|Hge];
      [|unfold ret; cbn [snd]; split; [lia | apply Nat.le_add_r]].
    unfold bind.
    pose proof (chat_bounded_round st w) as Hround.
    destruct (round_spec self service max_results service_type
                effective_min_confidence st w) as [_ Hadv].
    replace (max_attempts - attempt st)%nat
      with (S (max_attempts - S (attempt st)))%nat by lia.
    cbn [Nat.mul].
    generalize dependent (max_results * 3 + 3)%nat. intros budget IH Hround.
    destruct (round _ _ _ _ _ st w) as [[s|e] w1]; cbn [fst snd] in *;
      [|nia].
    specialize (Hadv s eq_refl).
    destruct s as [r|st'|st']; unfold ret; cbn [snd]; try nia.
    unfold advances in Hadv. specialize (IH st' w1).
    rewrite Hadv in IH. nia.
Qed.
End ChatBudget.

(** X19. [find_vendors] sends at most 6 * max_results + 6 chat requests
    in a call, whether it returns or raises: in each of its at most two
    rounds one vendor check per examined search result, of which there are
    at most 3 * max_results, and one request each for the re-rank, the
    analysis and the decision. *)
Theorem find_vendors_chat_budget :
  forall (self : VendorFinder.Self) (service location platform : string)
         (max_results : nat) (min_confidence : Q) (w : Effects),
    (chats w
     <= chats (snd (VendorFinder.find_vendors self service location platform
                      max_results min_confidence w))
     <= chats w + (6 * max_results + 6))%nat.
Proof.
  intros self service location platform max_results min_confidence w.
  unfold VendorFinder.find_vendors, VendorFinder.find_vendors_fuel.
  cbv zeta.
  match goal with
  | |- context [VendorFinder.attempts ?a ?b ?c ?d ?e ?f ?st w] =>
      pose proof (chat_bounded_attempts a b c d e f st w) as H
  end.
  cbn [VendorFinder.attempt] in H.
  change VendorFinder.max_attempts with 2%nat in H at 3.
  lia.
Qed.

Section CollectCap.
Import VendorFinder Invariant Reference.
Variable self : Self.
Variable service : string.
Variable max_results : nat.
Variable effective_min_confidence : Q.

Lemma extraction_loop_cap location results enriched :
  (List.length enriched < max_results)%nat \/ results = [] ->
  (List.length enriched <= max_results)%nat ->
  quiet
    (extraction_loop self service max_results effective_min_confidence
       location results enriched)
    (fun l => (List.length l <= max_results)%nat).
Proof.
  revert enriched. induction results as [|result rest IH];
    intros enriched Hroom Hle; simpl; [now apply quiet_ret|].
  destruct Hroom as [Hroom|Hnil]; [|discriminate].
  destruct (VendorExtractor.extract_vendor_info _ _ _ _) as [score reason|vendor];
    [apply IH; auto|].
  destruct (Py.flt _ _); [apply IH; auto|].
  apply quiet_bind with (Q := fun _ => True);
    [apply quiet_is_actual_vendor|].
  intros ok _. destruct (negb ok); [apply IH; auto|].
  assert (Hlen : List.length (enriched ++ [vendor]) = S (List.length enriched))
    by (rewrite length_app; simpl; lia).
  destruct (Nat.leb_spec max_results (List.length (enriched ++ [vendor])))
    as [Hfull|Hmore].
  - apply quiet_ret. lia.
  - apply IH; [left; exact Hmore | lia].
Qed.
End CollectCap.

Section TopResults.
Import VendorFinder Invariant.
Variable self : Self.
Variable other : SearchEngine.Providers.
Variable service : string.
Variable max_results : nat.
Variable service_type : string.
Variable effective_min_confidence : Q.

(** The extraction loop does not read the search engine. *)
Lemma extraction_loop_with_search_engine location results :
  forall enriched w,
    extraction_loop (with_search_engine self other) service max_results
      effective_min_confidence location results enriched w
    = extraction_loop self service max_results effective_min_confidence
        location results enriched w.
Proof.
  induction results as [|result rest IH]; intros enriched w; [reflexivity|].
  simpl.
  destruct (VendorExtractor.extract_vendor_info _ _ _ _) as [score reason|vendor];
    [apply IH|].
  destruct (Py.flt _ _); [apply IH|].
  unfold bind.
  destruct (LLMReasoner.is_actual_vendor _ _ _ w) as [[ok|e] w1];
    [|reflexivity].
  destruct (negb ok); [apply IH|].
  destruct (max_results <=? _)%nat; [reflexivity | apply IH].
Qed.

(** A round reads its search results through the slice only. *)
Lemma round_with_search_engine st w :
  firstn (max_results * 3)
    (SearchEngine.search_vendors (search_engine self) service
       (current_location st) (round_platform service_type st))
  = firstn (max_results * 3)
      (SearchEngine.search_vendors other service
         (current_location st) (round_platform service_type st)) ->
  round (with_search_engine self other) service max_results service_type
    effective_min_confidence st w
  = round self service max_results service_type effective_min_confidence
      st w.
Proof.
  unfold round_platform. intros Hsame.
  unfold round. cbv zeta.
  change (reasoner (with_search_engine self other)) with (reasoner self).
  unfold bind at 1. symmetry. unfold bind at 1. symmetry.
  unfold run_search.
  change (search_engine (with_search_engine self other)) with other.
  destruct (SearchEngine.search_vendors (search_engine self) service _ _)
    as [|h1 t1] eqn:H1;
    destruct (SearchEngine.search_vendors other service _ _)
      as [|h2 t2] eqn:H2.
  - reflexivity.
  - rewrite firstn_nil in Hsame. unfold bind at 1. rewrite <- Hsame.
    reflexivity.
  - rewrite firstn_nil in Hsame. unfold bind at 2. rewrite Hsame.
    reflexivity.
  - unfold bind at 1. symmetry. unfold bind at 1. symmetry.
    rewrite extraction_loop_with_search_engine, Hsame. reflexivity.
Qed.
End TopResults.

(** X20. A round of [find_vendors] examines at most 3 * max_results
    search results: it reads the result list through its first
    3 * max_results entries only, so a search engine whose results agree
    with the configured one on that slice gives the same round, result and
    effects alike.  The extraction loop over the slice collects at most
    max_results candidates, whatever the extractor and the oracle
    answer. *)
Theorem round_examines_top_results :
  forall (self : VendorFinder.Self) (other : SearchEngine.Providers)
         (service : string) (max_results : nat) (service_type : string)
         (effective_min_confidence : Q) (st : VendorFinder.RefinementState)
         (w : Effects),
    firstn (max_results * 3)
      (SearchEngine.search_vendors (VendorFinder.search_engine self) service
         (VendorFinder.current_location st)
         (Invariant.round_platform service_type st))
    = firstn (max_results * 3)
        (SearchEngine.search_vendors other service
           (VendorFinder.current_location st)
           (Invariant.round_platform service_type st)) ->
    VendorFinder.round (Invariant.with_search_engine self other) service
      max_results service_type effective_min_confidence st w
    = VendorFinder.round self service max_results service_type
        effective_min_confidence st w
    /\ (List.length
          (firstn (max_results * 3)
             (SearchEngine.search_vendors (VendorFinder.search_engine self)
                service (VendorFinder.current_location st)
                (Invariant.round_platform service_type st)))
        <= 3 * max_results)%nat
    /\ forall (w1 : Effects) (collected : list VendorExtractor.Vendor),
         fst (VendorFinder.extraction_loop self service max_results
                effective_min_confidence (VendorFinder.current_location st)
                (firstn (max_results * 3)
                   (SearchEngine.search_vendors
                      (VendorFinder.search_engine self) service
                      (VendorFinder.current_location st)
                      (Invariant.round_platform service_type st)))
                [] w1) = Ok collected ->
         (List.length collected <= max_results)%nat.
Proof.
  intros self other service max_results service_type effective_min_confidence
    st w Hsame.
  split; [now apply round_with_search_engine|].
  split.
  { rewrite length_firstn. lia. }
  intros w1 collected.
  apply (extraction_loop_cap self service max_results effective_min_confidence
           (VendorFinder.current_location st) _ []).
  - destruct max_results as [|n]; [right; reflexivity | left; simpl; lia].
  - simpl. lia.
Qed.

Lemma round_examines_top_results_witness :
  SearchEngine.search_vendors
    (VendorFinder.search_engine Sample.decor_finder) "cake" "Lagos" "instagram"
  <> SearchEngine.search_vendors Sample.catering_engine "cake" "Lagos"
       "instagram"
  /\ firstn (1 * 3)
       (SearchEngine.search_vendors
          (VendorFinder.search_engine Sample.decor_finder) "cake"
          (VendorFinder.current_location Sample.start_state)
          (Invariant.round_platform "visual" Sample.start_state))
     = firstn (1 * 3)
         (SearchEngine.search_vendors Sample.catering_engine "cake"
            (VendorFinder.current_location Sample.start_state)
            (Invariant.round_platform "visual" Sample.start_state))
  /\ VendorFinder.round
       (Invariant.with_search_engine Sample.decor_finder
          Sample.catering_engine)
       "cake" 1 "visual" (3 # 10) Sample.start_state Scenario.start
     = VendorFinder.round Sample.decor_finder "cake" 1 "visual" (3 # 10)
         Sample.start_state Scenario.start.
Proof.
  assert (H : firstn (1 * 3)
                (SearchEngine.search_vendors
                   (VendorFinder.search_engine Sample.decor_finder) "cake"
                   (VendorFinder.current_location Sample.start_state)
                   (Invariant.round_platform "visual" Sample.start_state))
              = firstn (1 * 3)
                  (SearchEngine.search_vendors Sample.catering_engine "cake"
                     (VendorFinder.current_location Sample.start_state)
                     (Invariant.round_platform "visual" Sample.start_state)))
    by (vm_compute; reflexivity).
  split; [vm_compute; discriminate|].
  split; [exact H|].
  exact (proj1 (round_examines_top_results Sample.decor_finder
                  Sample.catering_engine "cake" 1 "visual" (3 # 10)
                  Sample.start_state Scenario.start H)).
Defined.

Section LetterCase.
Lemma lower_char_idempotent c : Py.lower_char (Py.lower_char c) = Py.lower_char c.
Proof. destruct c as [[] [] [] [] [] [] [] []]; reflexivity. Qed.

Lemma lower_idempotent s : Py.lower (Py.lower s) = Py.lower s.
Proof.
  induction s as [|c t IH]; [reflexivity|].
  simpl. now rewrite lower_char_idempotent, IH.
Qed.

Lemma truthy_lower s : Py.truthy (Py.lower s) = Py.truthy s.
Proof. destruct s; reflexivity. Qed.
End LetterCase.

(** X23. The keyword tests do not see letter case: [classify_service],
    [is_job_post] and [detect_soft_contact_signals] give the same answer on
    a text and on its lower-cased form, and the relevance score of a hit is
    unchanged when the service, the location or the platform is
    lower-cased. *)
Theorem keyword_tests_ignore_letter_case :
  forall (text service location platform : string)
         (result : SearchEngine.RawHit),
    VendorFinder.classify_service (Py.lower text)
    = VendorFinder.classify_service text
    /\ VendorExtractor.is_job_post (Py.lower text)
       = VendorExtractor.is_job_post text
    /\ VendorExtractor.detect_soft_contact_signals (Py.lower text)
       = VendorExtractor.detect_soft_contact_signals text
    /\ SearchEngine.relevance (Py.lower service) (Py.lower location)
         (Py.lower platform) result
       = SearchEngine.relevance service location platform result.
Proof.
  intros text service location platform result.
  unfold VendorFinder.classify_service, VendorExtractor.is_job_post,
    VendorExtractor.detect_soft_contact_signals, SearchEngine.relevance.
  rewrite !lower_idempotent, truthy_lower. repeat split.
Qed.
